(** * NetSIO hub: a shallow embedding of [netsiohub/hub.py]

    The hub relays the Atari SIO bus between an emulator (the host, over
    TCP) and peripherals (over UDP).  This development embeds the hub core
    of [fujinet-bridge/netsiohub/hub.py]: the peripheral client record and
    its credit, the inbound byte buffer with its monitor thread, the UDP
    server and its packet handler, the device manager queue, the
    single-slot [SyncRequest] and the routing functions of [NetSIOHub].

    Conventions.
    - Python integers are [Z]; a byte string ([bytes], [bytearray]) is a
      [list Z], a datagram as read from the socket is a [list byte].
    - Every method that mutates [self] takes the state and returns the new
      state; what a method sends, logs or passes up to the hub is returned
      as a list of effects, in program order.
    - [time.time()] is an explicit argument, in microseconds.
    - A [queue.Queue.put] on a full bounded queue blocks; the functions
      that end in such a [put] return a status that says so. *)

From Stdlib Require Import ZArith Lia List Bool.
From Stdlib Require Strings.Byte.
From stdpp Require Import base option list gmap strings.
Import ListNotations.

Local Open Scope Z_scope.

(** ** Protocol constants *)

(** Modelled from the spec: [netsiohub/netsio.py], which defines the event
    identifiers, is not among the sources; the values are those of the
    event table of the external interfaces. *)
Definition NETSIO_DATA_BYTE : Z := 0x01.
Definition NETSIO_DATA_BLOCK : Z := 0x02.
Definition NETSIO_COMMAND_ON : Z := 0x11.
Definition NETSIO_COMMAND_OFF_SYNC : Z := 0x18.
Definition NETSIO_SYNC_RESPONSE : Z := 0x81.
Definition NETSIO_WARM_RESET : Z := 0xFE.
Definition NETSIO_COLD_RESET : Z := 0xFF.

(** Modelled from the spec: [DEFAULT_CREDIT] of [netsiohub/netsio.py];
    "default credit 3". *)
Definition DEFAULT_CREDIT : Z := 3.

(** The remaining names that [hub.py] imports from [netsiohub/netsio.py]
    have no value in the sources at hand; the embedding is parametric in
    them.  Times are in microseconds. *)
Class NetsioConstants := {
  NETSIO_DATA_BYTE_SYNC : Z;
  NETSIO_EMPTY_SYNC : Z;
  ATDEV_EMPTY_SYNC : Z;
  NETSIO_CONN_MGMT : Z;
  NETSIO_DEVICE_DISCONNECT : Z;
  NETSIO_DEVICE_CONNECT : Z;
  NETSIO_PING_REQUEST : Z;
  NETSIO_PING_RESPONSE : Z;
  NETSIO_ALIVE_REQUEST : Z;
  NETSIO_ALIVE_RESPONSE : Z;
  NETSIO_CREDIT_STATUS : Z;
  NETSIO_CREDIT_UPDATE : Z;
  ALIVE_EXPIRATION : Z;
  (** The identifiers the server itself puts on the wire are event
      identifiers of the protocol, one byte each. *)
  NETSIO_PING_RESPONSE_byte : 0 ≤ NETSIO_PING_RESPONSE < 256;
  NETSIO_ALIVE_RESPONSE_byte : 0 ≤ NETSIO_ALIVE_RESPONSE < 256;
  NETSIO_CREDIT_UPDATE_byte : 0 ≤ NETSIO_CREDIT_UPDATE < 256
}.

(** ** Messages *)

(** [NetSIOMsg]: an event identifier and its argument bytes.  The capture
    time of a message only feeds log lines and is left out. *)
Record NetSIOMsg := mkMsg { id : Z; arg : list Z }.

(** [msg.arg.append(b)] *)
Definition arg_append (msg : NetSIOMsg) (b : Z) : NetSIOMsg :=
  mkMsg (id msg) (arg msg ++ [b]).

(** ** Bounded queues *)

(** Python's [queue.Queue(maxsize)]: a FIFO whose [put] waits while
    [maxsize > 0] and the queue holds [maxsize] items. *)
Module Queue.
Record t := mk { maxsize : Z; items : list NetSIOMsg }.

Definition qsize (q : t) : Z := Z.of_nat (length (items q)).

Definition full (q : t) : bool :=
  (0 <? maxsize q) && (maxsize q <=? qsize q).

Inductive put_result :=
| Done (q : t)
| Blocked (q : t) (pending : NetSIOMsg).

(** [q.put(x)], blocking, without timeout: the item is appended at once
    when there is room; otherwise the caller sleeps holding [x]. *)
Definition put (q : t) (x : NetSIOMsg) : put_result :=
  if full q then Blocked q x else Done (mk (maxsize q) (items q ++ [x])).

(** [q.get()] by the consumer thread, on a queue that is not empty. *)
Definition get (q : t) : option (NetSIOMsg * t) :=
  match items q with
  | [] => None
  | x :: rest => Some (x, mk (maxsize q) rest)
  end.

End Queue.

(** Modelled from the spec: [clear_queue] of [netsiohub/netsio.py] is not
    among the sources; the queue is "flushed", "drained": emptied. *)
Definition clear_queue (q : Queue.t) : Queue.t :=
  Queue.mk (Queue.maxsize q) [].

(** ** The synchronous request slot: [NetSIOHub.SyncRequest] *)

Module SyncRequest.
Record t := mk {
  sn : Z;
  request : option Z;
  response : option Z;
  completed : bool
}.

(** [__init__] *)
Definition init : t := mk 0 None None false.

(** [set_request(request)]: returns the new serial number. *)
Definition set_request (s : t) (req : Z) : t * Z :=
  let sn' := Z.land (sn s + 1) 255 in
  (mk sn' (Some req) (response s) false, sn').

(** [set_response(response, sn)] *)
Definition set_response (s : t) (resp : Z) (sn' : Z) : t :=
  match request s with
  | Some _ =>
      if decide (sn s = sn')
      then mk (sn s) None (Some resp) true
      else s
  | None => s
  end.

(** [get_response(timeout, timout_value)], at the moment
    [self.completed.wait(timeout)] returns: the wait yields [True] when
    the event is set, and [False] when the timeout has gone by with the
    event still clear. *)
Definition get_response (s : t) (timout_value : option Z) : t * option Z :=
  if completed s
  then (mk (sn s) None (response s) (completed s), response s)
  else (mk (sn s) None (response s) (completed s), timout_value).

(** [check_request()] *)
Definition check_request (s : t) : option Z * Z := (request s, sn s).
End SyncRequest.

(** ** Effects and log lines *)

(** A peripheral is identified by its source IP and UDP port. *)
Definition Address : Type := string * Z.

(** The [debug_print], [info_print] and [log_trace] lines that sit in a
    branch of the code; trace lines printed on every path are left out. *)
Inductive log_line :=
| LogDeviceConnected (a : Address)
| LogDeviceReconnected (a : Address)
| LogDeviceDisconnected (a : Address) (expired : bool)
| LogSendToClient (a : Address) (msg : NetSIOMsg)
| LogNetFlush (msg : NetSIOMsg)
| LogClearDevQueue
| LogDeviceQueueFull (msg : NetSIOMsg)
| LogDeviceQueueSize (n : Z)
| LogHostReset (cold : bool)
| LogNoDeviceConnected
| LogDiscarding (msg : NetSIOMsg)
| LogPassed (msg : NetSIOMsg)
| LogReplace (msg : NetSIOMsg)
| LogHostQueueFull
| LogHostQueueSize (n : Z).

(** The exceptions the code raises and does not catch. *)
Inductive exn := IndexError | AttributeError | StructError.

(** What the UDP side does to the outside, in program order:
    [client.sock.sendto(datagram, address)], a call of
    [self.hub.handle_device_msg(msg, client)], a log line; [Raise e] is
    the end of the call by the exception [e]. *)
Inductive effect :=
| SendTo (a : Address) (datagram : list Z)
| ToHub (msg : NetSIOMsg) (device : option Address)
| Log (l : log_line)
| Raise (e : exn).

(** Whether a call ended by an exception. *)
Definition raised (eff : list effect) : bool :=
  existsb (λ e, match e with Raise _ => true | _ => false end) eff.

(** What a sequence of statements does when the first exception ends
    it. *)
Fixpoint effects_until_raise (eff : list effect) : list effect :=
  match eff with
  | [] => []
  | Raise e :: _ => [Raise e]
  | x :: rest => x :: effects_until_raise rest
  end.

(** How a call ends: it returns, it is asleep in [Queue.put] holding the
    message it was about to enqueue, or it raised. *)

Inductive status :=
| Finished
| BlockedOnPut (pending : NetSIOMsg)
| Raised (e : exn).

(** ** Peripheral clients: [NetSIOClient] *)

Module NetSIOClient.
(** The socket of a client is the server's own UDP socket and is left
    out; [credit] starts at 0. *)
Record t := mk { address : Address; expire_time : Z; credit : Z }.

Section WithConstants.
Context `{NetsioConstants}.

(** [__init__(address, sock)] at time [now] *)
Definition init (a : Address) (now : Z) : t :=
  mk a (now + ALIVE_EXPIRATION) 0.

(** [refresh()] at time [now] *)
Definition refresh (c : t) (now : Z) : t :=
  mk (address c) (now + ALIVE_EXPIRATION) (credit c).
End WithConstants.

(** [expired(t)] *)
Definition expired (c : t) (now : Z) : bool := expire_time c <? now.

(** [update_credit(credit, threshold)]; callers that leave [threshold]
    out pass its default, 0. *)
Definition update_credit (c : t) (credit' threshold : Z) : t * bool :=
  if credit c <=? threshold
  then (mk (address c) (expire_time c) credit', true)
  else (c, false).
End NetSIOClient.

(** ** The inbound byte buffer: [NetInBuffer] *)

Module NetInBuffer.
Definition BUFFER_SIZE : Z := 130.
(** 0.005 s *)
Definition BUFFER_MAX_AGE : Z := 5000.

(** Where the [buffer_monitor] thread sleeps: in the outer wait, without
    a timeout ([Idle]), or in the inner wait, which runs out at
    [deadline] ([Timed]). *)
Inductive monitor_state := Idle | Timed (deadline : Z).

Record t := mk { data : list Z; monitor : monitor_state }.

Definition init : t := mk [] Idle.

(** [flush()] *)
Definition flush (b : t) : t * list effect :=
  match data b with
  | [] => (b, [])
  | _ :: _ =>
      let msg :=
        if 1 <? Z.of_nat (length (data b))
        then mkMsg NETSIO_DATA_BLOCK (data b)
        else mkMsg NETSIO_DATA_BYTE (data b) in
      (mk [] (monitor b), [Log (LogNetFlush msg); ToHub msg None])
  end.

(** [set_delay(t)] at time [now]: the monitor is notified; from the
    outer wait it enters the inner one, in the inner wait it finds
    [reset] true and waits again; either way with the new timeout. *)
Definition set_delay (b : t) (tmout : Z) (now : Z) : t :=
  mk (data b) (Timed (now + tmout)).

(** [extend(b)] at time [now] *)
Definition extend (b : t) (bytes : list Z) (now : Z) : t * list effect :=
  let b1 := mk (data b ++ bytes) (monitor b) in
  let l := Z.of_nat (length (data b1)) in
  if BUFFER_SIZE <=? l then flush b1
  else (set_delay b1 BUFFER_MAX_AGE now, []).

(** [buffer_monitor], looked at at time [now]: when the inner wait has
    run out the thread flushes and goes back to the outer wait. *)
Definition buffer_monitor (b : t) (now : Z) : t * list effect :=
  match monitor b with
  | Idle => (b, [])
  | Timed deadline =>
      if deadline <=? now then flush (mk (data b) Idle) else (b, [])
  end.
End NetInBuffer.

(** ** The UDP server: [NetSIOServer] and [NetSIOHandler] *)

Module NetSIOServer.
(** [clients] is the dictionary from address to client; [sn] the counter
    that [send_to_all] appends.  A loop over [self.clients.values()]
    visits the entries of the map; each client object is updated in
    place, so a loop that updates clients maps over the table. *)
Record t := mk {
  clients : gmap Address NetSIOClient.t;
  sn : Z;
  inbuffer : NetInBuffer.t
}.

Definition init : t := mk ∅ 0 NetInBuffer.init.

Definition set_clients (s : t) (cs : gmap Address NetSIOClient.t) : t :=
  mk cs (sn s) (inbuffer s).

Definition set_inbuffer (s : t) (b : NetInBuffer.t) : t :=
  mk (clients s) (sn s) b.

(** [get_client(address)] *)
Definition get_client (s : t) (a : Address) : option NetSIOClient.t :=
  clients s !! a.

(** [connected()] *)
Definition connected (s : t) : bool :=
  0 <? Z.of_nat (size (clients s)).

Section WithConstants.
Context `{NetsioConstants}.

(** [send_to_client(client, msg)]:
    [client.sock.sendto(struct.pack('B', msg.id) + msg.arg, client.address)];
    [struct.pack('B', msg.id)] raises [struct.error] for an identifier
    outside 0..255, after the trace line and before anything is sent. *)
Definition send_to_client (c : NetSIOClient.t) (msg : NetSIOMsg) : list effect :=
  (if decide (id msg = NETSIO_ALIVE_RESPONSE) then []
   else [Log (LogSendToClient (NetSIOClient.address c) msg)])
  ++ (if (0 <=? id msg) && (id msg <? 256)
      then [SendTo (NetSIOClient.address c) (id msg :: arg msg)]
      else [Raise StructError]).

(** [register_client(address, sock)] at time [now]; the identifier sent
    is [NETSIO_CREDIT_UPDATE], a byte, so [send_to_client] returns. *)
Definition register_client (s : t) (a : Address) (now : Z) : t * list effect :=
  let '(client, log) :=
    match clients s !! a with
    | None => (NetSIOClient.init a now, LogDeviceConnected a)
    | Some c => (NetSIOClient.refresh c now, LogDeviceReconnected a)
    end in
  let client' := fst (NetSIOClient.update_credit client DEFAULT_CREDIT 0) in
  (set_clients s (<[a := client']> (clients s)),
   [Log log]
   ++ send_to_client client' (mkMsg NETSIO_CREDIT_UPDATE [DEFAULT_CREDIT])
   ++ [ToHub (mkMsg NETSIO_DEVICE_CONNECT []) (Some a)]).

(** [deregister_client(address, expired)] *)
Definition deregister_client (s : t) (a : Address) (expired : bool)
  : t * list effect :=
  match clients s !! a with
  | None => (s, [])
  | Some _ =>
      (set_clients s (delete a (clients s)),
       [Log (LogDeviceDisconnected a expired);
        ToHub (mkMsg NETSIO_DEVICE_DISCONNECT []) (Some a)])
  end.

(** [expire_clients()] at time [now] *)
Definition expire_clients (s : t) (now : Z) : t * list effect :=
  let expired :=
    filter (λ c, NetSIOClient.expired c now = true)
           (snd <$> map_to_list (clients s)) in
  foldl (λ acc c,
           let '(s', eff) := deregister_client (fst acc) (NetSIOClient.address c) true in
           (s', snd acc ++ eff))
        (s, []) expired.

(** [send_to_all(msg)]: the loop runs at time [now], the clean-up of
    expired clients that follows it at time [now'].  The loop visits the
    clients in the order of the table, which here is the order of the
    map, not the order of insertion of the dictionary.  The first
    [send_to_client] that raises ends the call: the counter has been
    appended and advanced, no later client is visited and the clean-up
    does not run. *)
Definition send_to_all (s : t) (msg : NetSIOMsg) (now now' : Z)
  : t * list effect :=
  let cs := snd <$> map_to_list (clients s) in
  let msg' := arg_append msg (sn s) in
  let s1 := mk (clients s) (Z.land (1 + sn s) 255) (inbuffer s) in
  let sends :=
    effects_until_raise
      (flat_map (λ c, if NetSIOClient.expired c now then []
                      else send_to_client c msg') cs) in
  if raised sends then (s1, sends)
  else
    let expire := existsb (λ c, NetSIOClient.expired c now) cs in
    if expire
    then let '(s2, eff) := expire_clients s1 now' in (s2, sends ++ eff)
    else (s1, sends).

(** [credit_clients()]; [host_queue] is [self.hub.host_queue].  The
    identifier sent is [NETSIO_CREDIT_UPDATE], a byte, so no
    [send_to_client] of the loop raises and every client is visited. *)
Definition credit_clients (s : t) (host_queue : Queue.t) : t * list effect :=
  let credit := DEFAULT_CREDIT - Queue.qsize host_queue in
  if 2 <=? credit then
    let msg := mkMsg NETSIO_CREDIT_UPDATE [credit] in
    (set_clients s
       ((λ c, fst (NetSIOClient.update_credit c credit 0)) <$> clients s),
     flat_map (λ c, if snd (NetSIOClient.update_credit c credit 0)
                    then send_to_client c msg else [])
              (snd <$> map_to_list (clients s)))
  else (s, []).

(** The bytes of a received datagram as Python integers. *)
Definition byte_to_Z (b : Byte.byte) : Z := Z.of_N (Byte.to_N b).

(** [NetSIOHandler.handle()] for the datagram [data] from [ca], at time
    [now]; [None] when [data[0]] raises on an empty datagram.  The
    identifiers it sends are [NETSIO_PING_RESPONSE],
    [NETSIO_ALIVE_RESPONSE] and [NETSIO_CREDIT_UPDATE], bytes all. *)
Definition handle (s : t) (host_queue : Queue.t) (ca : Address)
    (data : list Byte.byte) (now : Z) : option (t * list effect) :=
  match data with
  | [] => None
  | b :: rest =>
    let msg := mkMsg (byte_to_Z b) (byte_to_Z <$> rest) in
    Some
    (if id msg <? NETSIO_CONN_MGMT then
       match get_client s ca with
       | None => (s, [])
       | Some client =>
           if NetSIOClient.expired client now
           then deregister_client s (NetSIOClient.address client) true
           else
             let s1 := set_clients s
                         (<[ca := NetSIOClient.refresh client now]> (clients s)) in
             if decide (id msg = NETSIO_DATA_BYTE) then
               let '(b', eff) := NetInBuffer.extend (inbuffer s1) (arg msg) now in
               (set_inbuffer s1 b', eff)
             else
               let '(b', eff) := NetInBuffer.flush (inbuffer s1) in
               (set_inbuffer s1 b', eff ++ [ToHub msg (Some ca)])
       end
     else if decide (id msg = NETSIO_DEVICE_DISCONNECT) then
       deregister_client s ca false
     else if decide (id msg = NETSIO_DEVICE_CONNECT) then
       register_client s ca now
     else if decide (id msg = NETSIO_PING_REQUEST) then
       (s, send_to_client (NetSIOClient.init ca now) (mkMsg NETSIO_PING_RESPONSE []))
     else if decide (id msg = NETSIO_ALIVE_REQUEST) then
       match get_client s ca with
       | None => (s, [])
       | Some client =>
           let c1 := NetSIOClient.refresh client now in
           let c2 :=
             match arg msg with
             | a0 :: _ => fst (NetSIOClient.update_credit c1 a0 0)
             | [] => c1
             end in
           (set_clients s (<[ca := c2]> (clients s)),
            send_to_client c2 (mkMsg NETSIO_ALIVE_RESPONSE []))
       end
     else if decide (id msg = NETSIO_CREDIT_STATUS) then
       match get_client s ca, arg msg with
       | Some client, a0 :: _ =>
           let c1 := fst (NetSIOClient.update_credit client a0 10) in
           let credit := DEFAULT_CREDIT - Queue.qsize host_queue in
           if 2 <=? credit then
             let '(c2, updated) := NetSIOClient.update_credit c1 credit 0 in
             (set_clients s (<[ca := c2]> (clients s)),
              if updated
              then send_to_client c2 (mkMsg NETSIO_CREDIT_UPDATE [credit])
              else [])
           else (set_clients s (<[ca := c1]> (clients s)), [])
       | _, _ => (s, [])
       end
     else (s, []))
  end.
End WithConstants.
End NetSIOServer.

(** ** The device manager: [NetSIOManager] and [NetOutThread] *)

Module NetSIOManager.
Record t := mk { device_queue : Queue.t; server : NetSIOServer.t }.

(** [__init__]: [self.device_queue = queue.Queue(16)] *)
Definition init : t := mk (Queue.mk 16 []) NetSIOServer.init.

(** [to_peripheral(msg)] *)
Definition to_peripheral (m : t) (msg : NetSIOMsg)
  : t * list log_line * status :=
  let '(q1, log1) :=
    if decide (id msg = NETSIO_COLD_RESET ∨ id msg = NETSIO_WARM_RESET)
    then (clear_queue (device_queue m), [LogClearDevQueue])
    else (device_queue m, []) in
  let log2 :=
    if Queue.full q1 then [LogDeviceQueueFull msg]
    else [LogDeviceQueueSize (Queue.qsize q1)] in
  match Queue.put q1 msg with
  | Queue.Done q2 => (mk q2 (server m), log1 ++ log2, Finished)
  | Queue.Blocked _ x => (mk q1 (server m), log1 ++ log2, BlockedOnPut x)
  end.

(** [connected()] *)
Definition connected (m : t) : bool := NetSIOServer.connected (server m).

Section WithConstants.
Context `{NetsioConstants}.

(** [credit_clients()] *)
Definition credit_clients (m : t) (host_queue : Queue.t) : t * list effect :=
  let '(s, eff) := NetSIOServer.credit_clients (server m) host_queue in
  (mk (device_queue m) s, eff).

(** The loop of [NetOutThread.run] has two statements, and the other
    threads run between them.  The first, [msg = self.queue.get()]:
    [None] while the queue is empty and the thread sleeps in [get]. *)
Definition net_out_get (m : t) : option (NetSIOMsg * t) :=
  match Queue.get (device_queue m) with
  | None => None
  | Some (msg, q) => Some (msg, mk q (server m))
  end.

(** The second, [self.server.send_to_all(msg)], for the message the
    thread has taken. *)
Definition net_out_send (m : t) (msg : NetSIOMsg) (now now' : Z)
  : t * list effect :=
  let '(s, eff) := NetSIOServer.send_to_all (server m) msg now now' in
  (mk (device_queue m) s, eff).

(** One turn of the loop when no other thread touches the manager
    between the two statements. *)
Definition net_out_step (m : t) (now now' : Z) : option (t * list effect) :=
  match net_out_get m with
  | None => None
  | Some (msg, m1) => Some (net_out_send m1 msg now now')
  end.
End WithConstants.
End NetSIOManager.

(** ** The host side handler, as far as the hub uses it *)

Module AtDevHandler.
(** [atdev_ready]: the ready-to-receive event of the handler. *)
Record t := mk { atdev_ready : bool }.

(** [clear_rtr()] *)
Definition clear_rtr (h : t) : t := mk false.
End AtDevHandler.

(** ** The hub: [NetSIOHub] *)

Module NetSIOHub.
Record t := mk {
  device_manager : NetSIOManager.t;
  host_queue : Queue.t;
  host_ready : bool;
  host_handler : option AtDevHandler.t;
  sync : SyncRequest.t
}.

(** [__init__]: [self.host_queue = queue.Queue(8)] *)
Definition init : t :=
  mk NetSIOManager.init (Queue.mk 8 []) false None SyncRequest.init.

Definition set_device_manager (h : t) (m : NetSIOManager.t) : t :=
  mk m (host_queue h) (host_ready h) (host_handler h) (sync h).

Definition set_host_queue (h : t) (q : Queue.t) : t :=
  mk (device_manager h) q (host_ready h) (host_handler h) (sync h).

Definition set_host_handler (h : t) (hh : option AtDevHandler.t) : t :=
  mk (device_manager h) (host_queue h) (host_ready h) hh (sync h).

Definition set_sync (h : t) (s : SyncRequest.t) : t :=
  mk (device_manager h) (host_queue h) (host_ready h) (host_handler h) s.

(** [host_connected(host_handler)] *)
Definition host_connected (h : t) (hh : AtDevHandler.t) : t :=
  mk (device_manager h) (host_queue h) true (Some hh) (sync h).

(** [host_disconnected()] *)
Definition host_disconnected (h : t) : t :=
  mk (device_manager h) (clear_queue (host_queue h)) false None (sync h).

(** [handle_host_msg(msg)] *)
Definition handle_host_msg (h : t) (msg : NetSIOMsg)
  : t * list log_line * status :=
  let log :=
    if decide (id msg = NETSIO_COLD_RESET ∨ id msg = NETSIO_WARM_RESET)
    then [LogHostReset (bool_decide (id msg = NETSIO_COLD_RESET))]
    else [] in
  let '(m, logs, st) := NetSIOManager.to_peripheral (device_manager h) msg in
  (set_device_manager h m, log ++ logs, st).

Section WithConstants.
Context `{NetsioConstants}.

(** [handle_host_msg_sync(msg)] runs in two steps, with the wait of
    [get_response] between them.  The first step ends with the value the
    call returns at once, in the wait, or stuck in the [put] it made. *)
Inductive sync_step :=
| SyncReturn (result : Z)
| SyncWait
| SyncStuck (st : status).

(** [handle_host_msg_sync(msg)] up to the call of [get_response] *)
Definition handle_host_msg_sync_send (h : t) (msg : NetSIOMsg)
  : t * list log_line * sync_step :=
  if decide (id msg = NETSIO_DATA_BLOCK) then
    let '(h1, logs, st) := handle_host_msg h msg in
    (h1, logs,
     match st with
     | Finished => SyncReturn ATDEV_EMPTY_SYNC
     | _ => SyncStuck st
     end)
  else
    let '(s1, sn) := SyncRequest.set_request (sync h) (id msg) in
    let msg' := arg_append msg sn in
    let h1 := set_host_queue (set_sync h s1) (clear_queue (host_queue h)) in
    if negb (NetSIOManager.connected (device_manager h1)) then
      (set_sync h1
         (SyncRequest.set_response (sync h1) ATDEV_EMPTY_SYNC
                                   (SyncRequest.sn (sync h1))),
       [LogNoDeviceConnected], SyncWait)
    else
      let '(h2, logs, st) := handle_host_msg h1 msg' in
      (h2, logs,
       match st with
       | Finished => SyncWait
       | _ => SyncStuck st
       end).

(** [handle_host_msg_sync(msg)] from the moment the wait of
    [self.sync.get_response(sync_tmout, ATDEV_EMPTY_SYNC)] is over *)
Definition handle_host_msg_sync_wait (h : t) : t * option Z :=
  let '(s, result) :=
    SyncRequest.get_response (sync h) (Some ATDEV_EMPTY_SYNC) in
  (set_sync h s, result).

(** The end of [handle_device_msg(msg, device)], from the replacement of
    an unclaimed SYNC_RESPONSE to [self.host_queue.put(msg)]; [logs] are
    the lines printed so far. *)
Definition enqueue_for_host (h : t) (msg : NetSIOMsg) (logs : list log_line)
  : t * list log_line * status :=
  let replaced : (NetSIOMsg * list log_line) + list log_line :=
    if decide (id msg = NETSIO_SYNC_RESPONSE) then
      match arg msg !! 1%nat with
      | None => inr []
      | Some a1 =>
          if decide (a1 ≠ NETSIO_EMPTY_SYNC) then
            match arg msg !! 2%nat with
            | None => inr [LogReplace msg]
            | Some a2 => inl (mkMsg NETSIO_DATA_BYTE [a2], [LogReplace msg])
            end
          else inl (msg, [])
      end
    else inl (msg, []) in
  match replaced with
  | inr log1 => (h, logs ++ log1, Raised IndexError)
  | inl (msg', log1) =>
      let log2 :=
        if Queue.full (host_queue h) then [LogHostQueueFull]
        else [LogHostQueueSize (Queue.qsize (host_queue h))] in
      match Queue.put (host_queue h) msg' with
      | Queue.Done q => (set_host_queue h q, logs ++ log1 ++ log2, Finished)
      | Queue.Blocked _ x => (h, logs ++ log1 ++ log2, BlockedOnPut x)
      end
  end.

(** [handle_device_msg(msg, device)]; [device] is not used by the body. *)
Definition handle_device_msg (h : t) (msg : NetSIOMsg)
  : t * list log_line * status :=
  if negb (host_ready h) then (h, [], Finished)
  else
    let '(req, sn) := SyncRequest.check_request (sync h) in
    let not_the_response :=
      if decide (id msg = NETSIO_DATA_BYTE ∨ id msg = NETSIO_DATA_BLOCK)
      then (h, [LogDiscarding msg], Finished)
      else enqueue_for_host h msg [LogPassed msg] in
    match req with
    | None => enqueue_for_host h msg []
    | Some _ =>
        if decide (id msg = NETSIO_SYNC_RESPONSE) then
          match arg msg !! 0%nat with
          | None => (h, [], Raised IndexError)
          | Some a0 =>
              if decide (a0 = sn) then
                match arg msg !! 1%nat with
                | None => (h, [], Raised IndexError)
                | Some a1 =>
                    if decide (a1 = NETSIO_EMPTY_SYNC) then
                      (set_sync h (SyncRequest.set_response (sync h) ATDEV_EMPTY_SYNC sn),
                       [], Finished)
                    else
                      match host_handler h with
                      | None => (h, [], Raised AttributeError)
                      | Some hh =>
                          let h1 := set_host_handler h (Some (AtDevHandler.clear_rtr hh)) in
                          match arg msg !! 2%nat, arg msg !! 3%nat, arg msg !! 4%nat with
                          | Some a2, Some a3, Some a4 =>
                              (set_sync h1
                                 (SyncRequest.set_response (sync h1)
                                    (Z.lor (Z.lor (Z.lor NETSIO_SYNC_RESPONSE
                                                         (Z.shiftl a2 8))
                                                  (Z.shiftl a3 16))
                                           (Z.shiftl a4 24))
                                    sn),
                               [], Finished)
                          | _, _, _ => (h1, [], Raised IndexError)
                          end
                      end
                end
              else not_the_response
          end
        else not_the_response
    end.

(** [credit_clients()] *)
Definition credit_clients (h : t) : t * list effect :=
  let '(m, eff) := NetSIOManager.credit_clients (device_manager h) (host_queue h) in
  (set_device_manager h m, eff).
End WithConstants.
End NetSIOHub.

(** ** Python's [struct], for the formats the code packs *)

Module Struct.
(** The [n] bytes of [v], least significant first. *)
Fixpoint le_bytes (n : nat) (v : Z) : list Z :=
  match n with
  | O => []
  | S n' => v mod 256 :: le_bytes n' (v / 256)
  end.

(** The value of a little-endian byte string. *)
Fixpoint le_value (bs : list Z) : Z :=
  match bs with
  | [] => 0
  | b :: bs' => b + 256 * le_value bs'
  end.

(** One unsigned field of [n] bytes; [None] stands for the
    [struct.error] that [pack] raises for a value that does not fit. *)
Definition field (n : nat) (v : Z) : option (list Z) :=
  if (0 <=? v) && (v <? 256 ^ Z.of_nat n) then Some (le_bytes n v) else None.

(** [struct.pack('<II', a, b)] *)
Definition pack_II (a b : Z) : option (list Z) :=
  a' ← field 4 a; b' ← field 4 b; Some (a' ++ b').

(** [struct.pack('<BIIQ', a, b, c, d)] *)
Definition pack_BIIQ (a b c d : Z) : option (list Z) :=
  a' ← field 1 a; b' ← field 4 b; c' ← field 4 c; d' ← field 8 d;
  Some (a' ++ b' ++ c' ++ d').

(** [struct.unpack('<BIIQ', bs)]; [None] when [bs] is not 17 bytes long. *)
Definition unpack_BIIQ (bs : list Z) : option (Z * Z * Z * Z) :=
  if decide (length bs = 17%nat) then
    Some (le_value (take 1 bs), le_value (take 4 (drop 1 bs)),
          le_value (take 4 (drop 5 bs)), le_value (drop 9 bs))
  else None.
End Struct.

(** ** The host side of [hub.py]: [AtDevHandler] and [AtDevThread] *)

Module AtDev.
(** How one call of [send_altirra_response] ends: the message is written
    and the call returns [True]; the connection is reset or broken and the
    call returns [False]; or the call raises. *)
Inductive outcome :=
| Written (message : list Z)
| NotWritten
| ValueError
| StructError
| TypeError.

Definition raises (o : outcome) : bool :=
  match o with
  | Written _ | NotWritten => false
  | _ => true
  end.

(** Calls made one after the other: the first that raises ends the run. *)
Fixpoint until_raise (os : list outcome) : list outcome :=
  match os with
  | [] => []
  | o :: os' => if raises o then [o] else o :: until_raise os'
  end.

(** What [bytearray([...])] accepts as an element. *)
Definition byte_range (v : Z) : bool := (0 <=? v) && (v <? 256).

(** [send_altirra_response(event, arg, data)]; [conn_ok] tells whether
    [self.request.sendall] goes through. *)
Definition send_altirra_response (conn_ok : bool) (event arg : Z)
    (data : list Z) : outcome :=
  if byte_range event && byte_range arg then
    let payload := [event; arg] ++ data in
    let total_length := 8 + Z.of_nat (length payload) in
    match Struct.pack_II total_length 0 with
    | None => StructError
    | Some header => if conn_ok then Written (header ++ payload) else NotWritten
    end
  else ValueError.

(** The 129 bytes that [handle_netsio_command_off_sync] sends after the
    sync response: 'C', then [i & 0xFF] for [i] from 1 to 128. *)
Definition status_reply_bytes : list Z :=
  0x43 :: map (λ i, Z.land (Z.of_nat i) 0xFF) (seq 1 128).

(** [handle_netsio_command_off_sync], from the moment
    [self.hub.handle_host_msg_sync(msg)] has returned [result] ([None]
    for Python's [None]). *)
Definition handle_netsio_command_off_sync_reply (conn_ok : bool)
    (result : option Z) : list outcome :=
  match result with
  | None => [TypeError]
  | Some r =>
      until_raise
        (send_altirra_response conn_ok NETSIO_SYNC_RESPONSE r []
         :: map (λ b, send_altirra_response conn_ok NETSIO_DATA_BYTE b [])
                status_reply_bytes)
  end.

(** [set_rtr()] *)
Definition set_rtr (hh : AtDevHandler.t) : AtDevHandler.t := AtDevHandler.mk true.

Section WithConstants.
Context `{NetsioConstants}.

(** One turn of the loop of [AtDevThread.run] for the message [msg] taken
    from the host queue; the ready-to-receive event is as the handler
    [hh] has it for the whole turn. *)
Definition atdev_thread_step (hh : AtDevHandler.t) (conn_ok : bool)
    (msg : NetSIOMsg) : list outcome :=
  if 0 <? Z.of_nat (length (arg msg)) then
    if AtDevHandler.atdev_ready hh
    then until_raise
           (map (λ b, send_altirra_response conn_ok NETSIO_DATA_BYTE b [])
                (arg msg))
    else []
  else if decide (id msg ≠ NETSIO_CREDIT_UPDATE)
       then [send_altirra_response conn_ok (id msg) 0 []]
       else [].
End WithConstants.

(** [handle_script_post(event, arg, timestamp)]; the handler is the one
    attached to the hub.  [ATDEV_READY] and [NETSIO_SPEED_CHANGE] come
    from [netsiohub/netsio.py] and are parameters; [None] stands for the
    [struct.error] of [struct.pack("<L", arg)]. *)
Definition handle_script_post (ATDEV_READY NETSIO_SPEED_CHANGE : Z)
    (h : NetSIOHub.t) (event arg : Z)
  : option (NetSIOHub.t * list log_line * status) :=
  let chain : option NetSIOHub.t :=
    if decide (event = ATDEV_READY) then Some h
    else if decide (event = NETSIO_DATA_BYTE) then Some h
    else if decide (event = NETSIO_SPEED_CHANGE) then
      match Struct.field 4 arg with
      | Some _ => Some h
      | None => None
      end
    else if event <? 0x100 then
      if decide (event = NETSIO_COLD_RESET)
      then Some (NetSIOHub.set_host_handler h (set_rtr <$> NetSIOHub.host_handler h))
      else Some h
    else Some h in
  match chain with
  | None => None
  | Some h1 =>
      let msg := mkMsg event [] in
      if decide (event = ATDEV_READY)
      then Some (NetSIOHub.set_host_handler h1 (set_rtr <$> NetSIOHub.host_handler h1),
                 [], Finished)
      else Some (NetSIOHub.handle_host_msg h1 msg)
  end.
End AtDev.

(** ** The stand-alone SIO responder: [deviceserver.NetSIOHandler] *)

Module SioHandler.
Record t := mk {
  client_connected : bool;
  sio_command_buffer : list Z;
  current_device_id : Z
}.

(** [setup()] *)
Definition init : t := mk true [] 0.

(** [create_altirra_response(event, arg, data)]; [None] when
    [struct.pack] raises. *)
Definition create_altirra_response (event arg : Z) (data : list Z)
  : option (list Z) :=
  header ← Struct.pack_BIIQ event 0 arg 0; Some (header ++ data).

(** [send_response(response_bytes)]; [peer_ok] tells whether
    [self.connection.sendall] goes through.  The result is the new state,
    the byte strings written and the value returned. *)
Definition send_response (st : t) (peer_ok : bool) (response_bytes : list Z)
  : t * list (list Z) * bool :=
  if negb (client_connected st) then (st, [], false)
  else if peer_ok then (st, [response_bytes], true)
  else (mk false (sio_command_buffer st) (current_device_id st), [], false).

(** The pattern both [respond_] functions follow: each response is
    created and sent in turn, and the function returns at the first
    [send_response] that fails.  The result is the new state, the byte
    strings written and whether [struct.pack] raised. *)
Fixpoint respond (st : t) (peer_ok : bool) (frames : list (Z * Z * list Z))
  : t * list (list Z) * bool :=
  match frames with
  | [] => (st, [], false)
  | (event, arg, data) :: rest =>
      match create_altirra_response event arg data with
      | None => (st, [], true)
      | Some bytes =>
          let '(st1, w1, ok) := send_response st peer_ok bytes in
          if ok then
            let '(st2, w2, raised) := respond st1 peer_ok rest in
            (st2, w1 ++ w2, raised)
          else (st1, w1, false)
      end
  end.

(** The 129 bytes of status that [respond_sio_status] builds. *)
Definition status_data (device_id : Z) : list Z :=
  if (0x31 <=? device_id) && (device_id <=? 0x38) && (device_id - 0x31 =? 0)
  then [0x01; 0x10; 0x01; 0x00] ++ repeat 0 125
  else repeat 0 129.

(** [respond_sio_status(device_id, sync_number_request)] *)
Definition respond_sio_status (st : t) (peer_ok : bool)
    (device_id sync_number_request : Z) : t * list (list Z) * bool :=
  respond st peer_ok
    [(0x80, 0x41, []);
     (0x82, Z.of_nat (length (status_data device_id)), status_data device_id);
     (0x81, sync_number_request, [])].

(** [respond_sio_nak(sync_number_request, nak_code)]; [nak_code] is
    [ord] of the character. *)
Definition respond_sio_nak (st : t) (peer_ok : bool)
    (sync_number_request nak_code : Z) : t * list (list Z) * bool :=
  respond st peer_ok [(0x80, nak_code, []); (0x81, sync_number_request, [])].

(** [handle_sio_event(event_id, param1, param2, payload_data)] *)
Definition handle_sio_event (st : t) (peer_ok : bool)
    (event_id param1 param2 : Z) (payload_data : list Z)
  : t * list (list Z) * bool :=
  if decide (event_id = 0x11) then
    (mk (client_connected st) [] param2, [], false)
  else if decide (event_id = 0x02) then
    match payload_data with
    | [] => (st, [], false)
    | _ :: _ =>
        (mk (client_connected st) (sio_command_buffer st ++ payload_data)
            (current_device_id st), [], false)
    end
  else if decide (event_id = 0x18) then
    let sync_number_request := param2 in
    if decide (length (sio_command_buffer st) = 3%nat) then
      match sio_command_buffer st with
      | sio_command :: _ =>
          if decide (sio_command = 0x53)
          then respond_sio_status st peer_ok (current_device_id st)
                                  sync_number_request
          else respond_sio_nak st peer_ok sync_number_request 0x4E
      | [] => (st, [], false)
      end
    else respond_sio_nak st peer_ok sync_number_request 0x45
  else (st, [], false).

(** The dispatch of [handle] for one packet whose payload has been read:
    an exception raised on the way is caught by the loop, which marks the
    client as disconnected and ends. *)
Definition handle_packet (st : t) (peer_ok : bool)
    (packet_id param1 param2 : Z) (payload_data : list Z)
  : t * list (list Z) :=
  let '(st1, written, raised) :=
    if decide (packet_id = 0x00) then (st, [], false)
    else if decide (packet_id = 0x11 ∨ packet_id = 0x02 ∨ packet_id = 0x18)
    then handle_sio_event st peer_ok packet_id param1 param2 payload_data
    else if decide (packet_id = 0x53)
    then respond_sio_status st peer_ok (Z.land param2 0xFF) 0
    else (st, [], false) in
  if raised
  then (mk false (sio_command_buffer st1) (current_device_id st1), written)
  else (st1, written).

(** The loop of [handle] for a peer that sends [stream] and closes:
    [recv(n, MSG_WAITALL)] returns the next [n] bytes, or what is left of
    the stream.  At most [fuel] turns. *)
Fixpoint handle (fuel : nat) (st : t) (peer_ok : bool) (stream : list Z)
  : t * list (list Z) :=
  match fuel with
  | O => (st, [])
  | S fuel' =>
      if negb (client_connected st) then (st, [])
      else
        let header_data := take 17 stream in
        let stream1 := drop 17 stream in
        match header_data with
        | [] => (mk false (sio_command_buffer st) (current_device_id st), [])
        | _ :: _ =>
            match Struct.unpack_BIIQ header_data with
            | None => handle fuel' st peer_ok stream1
            | Some (packet_id, param1, param2, ts) =>
                let actual_data_len :=
                  if decide (packet_id = 0x02) then param2
                  else if decide (packet_id = 0x18) then 1
                  else 0 in
                if 0 <? actual_data_len then
                  if 4096 <? actual_data_len then handle fuel' st peer_ok stream1
                  else
                    let payload_data := take (Z.to_nat actual_data_len) stream1 in
                    if Z.of_nat (length payload_data) <? actual_data_len
                    then (mk false (sio_command_buffer st) (current_device_id st), [])
                    else
                      let '(st1, w1) :=
                        handle_packet st peer_ok packet_id param1 param2
                                      payload_data in
                      let '(st2, w2) :=
                        handle fuel' st1 peer_ok
                               (drop (Z.to_nat actual_data_len) stream1) in
                      (st2, w1 ++ w2)
                else
                  let '(st1, w1) :=
                    handle_packet st peer_ok packet_id param1 param2 [] in
                  let '(st2, w2) := handle fuel' st1 peer_ok stream1 in
                  (st2, w1 ++ w2)
            end
        end
  end.

(** Every turn takes at least one byte off the stream or ends the loop,
    so one turn more than the stream has bytes runs it to its end. *)
Definition handle_all (st : t) (peer_ok : bool) (stream : list Z)
  : t * list (list Z) :=
  handle (S (length stream)) st peer_ok stream.
End SioHandler.

(** ** The framed byte stream of [netsio_client.py]: [NetInBuffer] *)

Module FrameBuffer.
(** The argument [extend] passes to [NetSIOMsg]: [None], one byte, or a
    list of bytes. *)
Inductive raw_arg :=
| ArgNone
| ArgByte (b : Z)
| ArgList (bs : list Z).

Record raw_msg := mk_raw { raw_id : Z; raw_args : raw_arg }.

Record t := mk { data : list Z; messages : list raw_msg }.

(** [__init__] *)
Definition init : t := mk [] [].

(** The argument [extend] builds for a message of length [msg_len] from
    [after_id], the bytes [data[3:]]: [None], [data[3]] or
    [list(data[3:msg_len+2])].  With [msg_len] 2 the message is complete
    only when [data[3]] is there. *)
Definition frame_arg (msg_len : Z) (after_id : list Z) : raw_arg :=
  if msg_len =? 1 then ArgNone
  else if msg_len =? 2 then
    match after_id with
    | b :: _ => ArgByte b
    | [] => ArgNone
    end
  else ArgList (take (Z.to_nat (msg_len - 1)) after_id).

(** The loop of [extend], at most [fuel] turns: the messages taken off
    the front of [data], what is left of [data], and whether [data[2]]
    raised [IndexError]. *)
Fixpoint parse (fuel : nat) (data : list Z) : list raw_msg * list Z * bool :=
  match fuel with
  | O => ([], data, false)
  | S fuel' =>
      match data with
      | d0 :: d1 :: rest =>
          let msg_len := d0 + 256 * d1 in
          if msg_len + 2 <=? Z.of_nat (length data) then
            match rest with
            | [] => ([], data, true)
            | msg_id :: after_id =>
                let '(msgs, remaining, raised) :=
                  parse fuel' (drop (Z.to_nat (msg_len + 2)) data) in
                (mk_raw msg_id (frame_arg msg_len after_id) :: msgs,
                 remaining, raised)
            end
          else ([], data, false)
      | _ => ([], data, false)
      end
  end.

(** [extend(b)]: every turn of the loop removes at least two bytes, so
    the length of the data bounds the number of turns. *)
Definition extend (b : t) (bytes : list Z) : t * bool :=
  let d := data b ++ bytes in
  let '(msgs, remaining, raised) := parse (length d) d in
  (mk remaining (messages b ++ msgs), raised).

(** The bytes of one message on the wire, as [extend] takes them: the
    length of identifier and argument in two bytes, low byte first, the
    identifier, the argument. *)
Definition frame (msg_id : Z) (args : list Z) : list Z :=
  let n := 1 + Z.of_nat (length args) in
  [n mod 256; n / 256; msg_id] ++ args.

(** The argument [extend] builds for the argument bytes [args]. *)
Definition arg_of (args : list Z) : raw_arg :=
  match args with
  | [] => ArgNone
  | [b] => ArgByte b
  | _ => ArgList args
  end.
End FrameBuffer.

(** ** Constants for the examples *)

(** Values for the names the sources leave open, used where a statement is
    run on a concrete input: connection management identifiers from 0xC0
    up, [ATDEV_EMPTY_SYNC] as in [netsio_protocol.py], twenty seconds of
    [ALIVE_EXPIRATION]. *)
Definition example_constants : NetsioConstants := {|
  NETSIO_DATA_BYTE_SYNC := 0x09;
  NETSIO_EMPTY_SYNC := 0x00;
  ATDEV_EMPTY_SYNC := 0x00;
  NETSIO_CONN_MGMT := 0xC0;
  NETSIO_DEVICE_DISCONNECT := 0xC0;
  NETSIO_DEVICE_CONNECT := 0xC1;
  NETSIO_PING_REQUEST := 0xC2;
  NETSIO_PING_RESPONSE := 0xC3;
  NETSIO_ALIVE_REQUEST := 0xC4;
  NETSIO_ALIVE_RESPONSE := 0xC5;
  NETSIO_CREDIT_STATUS := 0xC6;
  NETSIO_CREDIT_UPDATE := 0xC7;
  ALIVE_EXPIRATION := 20000000;
  NETSIO_PING_RESPONSE_byte := ltac:(lia);
  NETSIO_ALIVE_RESPONSE_byte := ltac:(lia);
  NETSIO_CREDIT_UPDATE_byte := ltac:(lia)
|}.

(** The peripheral of the examples. *)
Definition example_peer : Address := ("127.0.0.1"%string, 40000).

(** The server after the datagrams [ds] have come from [example_peer],
    all at time 0 and with an empty host queue. *)
Definition server_after (ds : list (list Byte.byte)) : NetSIOServer.t :=
  foldl (λ s d,
           match @NetSIOServer.handle example_constants s (Queue.mk 8 [])
                   example_peer d 0 with
           | Some (s', _) => s'
           | None => s
           end)
        NetSIOServer.init ds.

(** A server whose only client has used up its credit. *)
Definition server_with_waiting_client : NetSIOServer.t :=
  NetSIOServer.mk
    {[ example_peer := NetSIOClient.mk example_peer 20000000 0 ]}
    0 NetInBuffer.init.

(** The hub after a peripheral has connected and the emulator has
    attached: the DEVICE_CONNECT of the peripheral came while no host was
    attached and was discarded by [handle_device_msg]. *)
Definition hub_attached : NetSIOHub.t :=
  NetSIOHub.host_connected
    (NetSIOHub.set_device_manager NetSIOHub.init
       (NetSIOManager.mk (Queue.mk 16 []) (server_after [[Byte.xc1]])))
    (AtDevHandler.mk true).

(** The same hub when the emulator has sent COMMAND_OFF_SYNC and is in
    the wait of [get_response]: the first request is in flight. *)
Definition hub_waiting : NetSIOHub.t :=
  (@NetSIOHub.handle_host_msg_sync_send example_constants hub_attached
     (mkMsg NETSIO_COMMAND_OFF_SYNC [0x53])).1.1.

(** ** Runs of the UDP side *)

(** A step of the UDP side is the handling of one datagram, a credit
    recomputation, a broadcast, or a wake-up of the buffer monitor. *)
Inductive server_step `{NetsioConstants}
  : NetSIOServer.t → NetSIOServer.t → Prop :=
| step_handle s host_queue ca data now s' eff :
    NetSIOServer.handle s host_queue ca data now = Some (s', eff) →
    server_step s s'
| step_credit_clients s host_queue :
    server_step s (fst (NetSIOServer.credit_clients s host_queue))
| step_send_to_all s msg now now' :
    server_step s (fst (NetSIOServer.send_to_all s msg now now'))
| step_buffer_monitor s now :
    server_step s
      (NetSIOServer.set_inbuffer s
         (fst (NetInBuffer.buffer_monitor (NetSIOServer.inbuffer s) now))).

(** The states the server can be in: those a run from [__init__] leads to. *)
Definition reachable `{NetsioConstants} (s : NetSIOServer.t) : Prop :=
  rtc server_step NetSIOServer.init s.

(** The bound on the stored credit: what [DEFAULT_CREDIT] or one byte of
    a datagram can hold. *)
Definition credit_bounded (c : NetSIOClient.t) : Prop :=
  0 ≤ NetSIOClient.credit c ≤ Z.max DEFAULT_CREDIT 255.

Definition credits_bounded (s : NetSIOServer.t) : Prop :=
  map_Forall (λ _ c, credit_bounded c) (NetSIOServer.clients s).

(** Every client is stored under its own address. *)
Definition keys_match (s : NetSIOServer.t) : Prop :=
  map_Forall (λ a c, NetSIOClient.address c = a) (NetSIOServer.clients s).

(** ** Runs of the inbound byte buffer *)




(** The bytes handed to the hub by a list of effects, in order. *)
Definition bytes_to_hub (eff : list effect) : list Z :=
  flat_map (λ e, match e with ToHub msg _ => arg msg | _ => [] end) eff.


(** ** What reaches the host queue *)

(** The message [handle_device_msg] puts on the host queue for a message
    [msg] it passes on: [msg] itself, or, for a SYNC_RESPONSE whose second
    argument byte is not the empty marker, a DATA_BYTE that carries the
    third argument byte; [None] when [msg.arg[1]] or [msg.arg[2]] raises
    [IndexError]. *)
Definition host_bound `{NetsioConstants} (msg : NetSIOMsg) : option NetSIOMsg :=
  if decide (id msg = NETSIO_SYNC_RESPONSE) then
    match arg msg !! 1%nat with
    | None => None
    | Some a1 =>
        if decide (a1 = NETSIO_EMPTY_SYNC) then Some msg
        else match arg msg !! 2%nat with
             | None => None
             | Some a2 => Some (mkMsg NETSIO_DATA_BYTE [a2])
             end
    end
  else Some msg.

(** The two ways a call made on the hub [h] ends when it gets to
    [self.host_queue.put(m)]: with room in the queue it returns and [m]
    is at the tail; with the queue full it has printed that the queue is
    full and sleeps in [put] holding [m], the hub as it was. *)
Definition handed_to_host (h : NetSIOHub.t)
    (r : NetSIOHub.t * list log_line * status) (m : NetSIOMsg) : Prop :=
  if Queue.full (NetSIOHub.host_queue h)
  then r.1.1 = h ∧ r.2 = BlockedOnPut m ∧ LogHostQueueFull ∈ r.1.2
  else r.1.1 = NetSIOHub.set_host_queue h
                 (Queue.mk (Queue.maxsize (NetSIOHub.host_queue h))
                           (Queue.items (NetSIOHub.host_queue h) ++ [m]))
       ∧ r.2 = Finished.

(** ** The thread that serves the emulator *)

(** The emulator is served by one thread, which calls into the hub one
    call after the other.  A state is the hub together with a flag that
    says whether that thread is inside [handle_host_msg_sync], between
    [set_request] and the return of [get_response].  The messages of the
    peripherals are handled at any time.  Everything else (the sender
    thread and the thread that empties the host queue taking a message,
    a [put] that wakes up, the table of the server) changes the queues
    and the device manager, not the sync slot nor the attachment of the
    host. *)
Inductive hub_step `{NetsioConstants}
  : bool * NetSIOHub.t → bool * NetSIOHub.t → Prop :=
| step_host_connected h hh :
    hub_step (false, h) (false, NetSIOHub.host_connected h hh)
| step_host_disconnected h :
    hub_step (false, h) (false, NetSIOHub.host_disconnected h)
| step_host_msg h msg :
    hub_step (false, h) (false, (NetSIOHub.handle_host_msg h msg).1.1)
| step_host_msg_sync h msg :
    hub_step (false, h)
             (bool_decide (id msg ≠ NETSIO_DATA_BLOCK),
              (NetSIOHub.handle_host_msg_sync_send h msg).1.1)
| step_sync_returns h :
    hub_step (true, h) (false, (NetSIOHub.handle_host_msg_sync_wait h).1)
| step_device_msg b h msg :
    hub_step (b, h) (b, (NetSIOHub.handle_device_msg h msg).1.1)
| step_elsewhere b h h' :
    NetSIOHub.sync h' = NetSIOHub.sync h →
    NetSIOHub.host_ready h' = NetSIOHub.host_ready h →
    NetSIOHub.host_handler h' = NetSIOHub.host_handler h →
    hub_step (b, h) (b, h').

(** The hub can be in the state [h] while the thread that serves the
    emulator is between two calls. *)
Definition between_host_calls `{NetsioConstants} (h : NetSIOHub.t) : Prop :=
  rtc hub_step (false, NetSIOHub.init) (false, h).

(** ** Full queues of the examples *)

(** A device queue that holds sixteen COMMAND_ON messages. *)
Definition full_device_queue : Queue.t :=
  Queue.mk 16 (repeat (mkMsg NETSIO_COMMAND_ON [0x31]) 16).

(** A host queue that holds eight DATA_BYTE messages. *)
Definition full_host_queue : Queue.t :=
  Queue.mk 8 (repeat (mkMsg NETSIO_DATA_BYTE [0x43]) 8).

(** * Properties *)

(** ** The synchronous request slot *)

(** C1: [set_response value sn'] leaves the slot, and so the stored
    response and the completion flag, as they were when no request is in
    flight or [sn'] is not the serial number of the request in flight;
    it stores [value] and signals completion exactly when a request is in
    flight and [sn'] is its serial number. *)
Theorem set_response_only_for_matching_sn (s : SyncRequest.t) (value sn' : Z) :
  let s' := SyncRequest.set_response s value sn' in
  let matching := is_Some (SyncRequest.request s) ∧ SyncRequest.sn s = sn' in
  (¬ matching →
     s' = s
     ∧ SyncRequest.response s' = SyncRequest.response s
     ∧ SyncRequest.completed s' = SyncRequest.completed s)
  ∧ (matching →
     SyncRequest.response s' = Some value
     ∧ SyncRequest.completed s' = true
     ∧ SyncRequest.request s' = None
     ∧ SyncRequest.sn s' = SyncRequest.sn s).
Proof.
  unfold SyncRequest.set_response.
  destruct s as [n [r|] resp c]; simpl.
  - destruct (decide (n = sn')) as [->|Hne]; simpl.
    + split; [intros Hn; exfalso; apply Hn; eauto | auto].
    + split; [auto | intros [_ ?]; contradiction].
  - split; [auto | intros [[x Hx] _]; discriminate].
Qed.

Lemma set_response_only_for_matching_sn_witness :
  SyncRequest.set_response (SyncRequest.mk 7 (Some NETSIO_COMMAND_OFF_SYNC) None false)
                           0x4181 6
  = SyncRequest.mk 7 (Some NETSIO_COMMAND_OFF_SYNC) None false
  ∧ SyncRequest.response
      (SyncRequest.set_response
         (SyncRequest.mk 7 (Some NETSIO_COMMAND_OFF_SYNC) None false) 0x4181 7)
    = Some 0x4181.
Proof.
  split.
  - apply (proj1 (set_response_only_for_matching_sn
                    (SyncRequest.mk 7 (Some NETSIO_COMMAND_OFF_SYNC) None false)
                    0x4181 6)).
    simpl. intros [_ ?]. discriminate.
  - apply (proj2 (set_response_only_for_matching_sn
                    (SyncRequest.mk 7 (Some NETSIO_COMMAND_OFF_SYNC) None false)
                    0x4181 7)).
    simpl. split; [eauto | reflexivity].
Defined.

(** ** Credit of a client *)

(** C10: [update_credit credit threshold] stores [credit] and returns
    [True] exactly when the stored credit is at most [threshold] at the
    time of the call; otherwise the client is left as it was and the
    call returns [False]. *)
Theorem update_credit_iff_at_most_threshold
    (c : NetSIOClient.t) (credit threshold : Z) :
  let c' := fst (NetSIOClient.update_credit c credit threshold) in
  let updated := snd (NetSIOClient.update_credit c credit threshold) in
  (updated = true ↔ NetSIOClient.credit c ≤ threshold)
  ∧ (updated = true →
       NetSIOClient.credit c' = credit
       ∧ NetSIOClient.address c' = NetSIOClient.address c
       ∧ NetSIOClient.expire_time c' = NetSIOClient.expire_time c)
  ∧ (updated = false → c' = c).
Proof.
  unfold NetSIOClient.update_credit.
  destruct (Z.leb_spec (NetSIOClient.credit c) threshold); simpl.
  - repeat split; auto. discriminate.
  - repeat split; auto; try discriminate. lia.
Qed.

Lemma update_credit_iff_at_most_threshold_witness :
  NetSIOClient.credit
    (fst (NetSIOClient.update_credit
            (NetSIOClient.mk example_peer 20000000 3) 200 10)) = 200
  ∧ fst (NetSIOClient.update_credit
           (NetSIOClient.mk example_peer 20000000 3) 2 0)
    = NetSIOClient.mk example_peer 20000000 3.
Proof.
  split.
  - apply (proj1 (proj2 (update_credit_iff_at_most_threshold
                           (NetSIOClient.mk example_peer 20000000 3) 200 10))).
    reflexivity.
  - apply (proj2 (proj2 (update_credit_iff_at_most_threshold
                           (NetSIOClient.mk example_peer 20000000 3) 2 0))).
    reflexivity.
Defined.

(** ** The packed result of a synchronous request *)

Lemma lor_shiftl_disjoint (x a k : Z) :
  0 ≤ k → 0 ≤ x < 2 ^ k → Z.lor x (Z.shiftl a k) = x + a * 2 ^ k.
Proof.
  intros Hk Hx.
  assert (Hland : Z.land x (Z.shiftl a k) = 0).
  { apply Z.bits_inj'. intros n Hn.
    rewrite Z.land_spec, Z.bits_0.
    destruct (Z.lt_ge_cases n k) as [Hlt|Hge].
    - rewrite Z.shiftl_spec_low by assumption. apply andb_false_r.
    - assert (Hbit : Z.testbit x n = false).
      { apply Z.testbit_false; [assumption|].
        rewrite Z.div_small; [reflexivity|].
        split; [lia|].
        apply Z.lt_le_trans with (2 ^ k); [lia|].
        apply Z.pow_le_mono_r; lia. }
      rewrite Hbit. reflexivity. }
  pose proof (Z.add_lor_land x (Z.shiftl a k)) as Hadd.
  rewrite Hland, Z.shiftl_mul_pow2 in Hadd by assumption.
  rewrite Z.shiftl_mul_pow2 by assumption. lia.
Qed.

Lemma pack_sync_response_sum (ack lo hi : Z) :
  0 ≤ ack < 256 → 0 ≤ lo < 256 → 0 ≤ hi < 256 →
  Z.lor (Z.lor (Z.lor NETSIO_SYNC_RESPONSE (Z.shiftl ack 8)) (Z.shiftl lo 16))
        (Z.shiftl hi 24)
  = 0x81 + ack * 2 ^ 8 + lo * 2 ^ 16 + hi * 2 ^ 24.
Proof.
  intros Hack Hlo Hhi. unfold NETSIO_SYNC_RESPONSE.
  rewrite (lor_shiftl_disjoint 0x81 ack 8) by lia.
  rewrite (lor_shiftl_disjoint _ lo 16) by lia.
  rewrite (lor_shiftl_disjoint _ hi 24) by lia.
  reflexivity.
Qed.

(** C8: a SYNC_RESPONSE that answers the request in flight and is not
    marked empty stores, for the emulator, a 32-bit value with the event
    tag 0x81 in bits 0-7, the ack byte in bits 8-15 and the next write
    size, low byte first, in bits 16-31; the waiting call then returns
    it.  For the reply [sn, 0x01, 0x41, 0x00, 0x00] the value is
    0x00004181. *)
Theorem sync_response_packed_result `{NetsioConstants}
    (h : NetSIOHub.t) (msg : NetSIOMsg) (req sn a1 ack lo hi : Z)
    (rest : list Z) :
  NetSIOHub.host_ready h = true →
  is_Some (NetSIOHub.host_handler h) →
  SyncRequest.request (NetSIOHub.sync h) = Some req →
  SyncRequest.sn (NetSIOHub.sync h) = sn →
  id msg = NETSIO_SYNC_RESPONSE →
  arg msg = sn :: a1 :: ack :: lo :: hi :: rest →
  a1 ≠ NETSIO_EMPTY_SYNC →
  0 ≤ ack < 256 → 0 ≤ lo < 256 → 0 ≤ hi < 256 →
  ∃ h' logs v,
    NetSIOHub.handle_device_msg h msg = (h', logs, Finished)
    ∧ SyncRequest.response (NetSIOHub.sync h') = Some v
    ∧ SyncRequest.completed (NetSIOHub.sync h') = true
    ∧ snd (NetSIOHub.handle_host_msg_sync_wait h') = Some v
    ∧ NetSIOHub.host_queue h' = NetSIOHub.host_queue h
    ∧ 0 ≤ v < 2 ^ 32
    ∧ Z.land v 0xFF = 0x81
    ∧ Z.land (Z.shiftr v 8) 0xFF = ack
    ∧ Z.land (Z.shiftr v 16) 0xFFFF = lo + 256 * hi
    ∧ (ack = 0x41 → lo = 0 → hi = 0 → v = 0x00004181).
Proof.
  intros Hready [hh Hhh] Hreq Hsn Hid Harg Ha1 Hack Hlo Hhi.
  unfold NetSIOHub.handle_device_msg, SyncRequest.check_request.
  rewrite Hready, Hreq, Hsn, Harg, Hhh. simpl.
  destruct (decide (id msg = NETSIO_SYNC_RESPONSE)); [|contradiction].
  destruct (decide (sn = sn)); [|contradiction].
  destruct (decide (a1 = NETSIO_EMPTY_SYNC)); [contradiction|].
  unfold SyncRequest.set_response; simpl. rewrite Hreq, Hsn.
  destruct (decide (sn = sn)); [|contradiction].
  rewrite pack_sync_response_sum by assumption.
  eexists _, _, _. split; [reflexivity|]. simpl.
  repeat split; try reflexivity; try lia.
  - change 0xFF with (Z.ones 8). rewrite Z.land_ones by lia.
    change (2 ^ 8) with 256. change (2 ^ 16) with 65536.
    change (2 ^ 24) with 16777216. Z.div_mod_to_equations. lia.
  - change 0xFF with (Z.ones 8). rewrite Z.land_ones, Z.shiftr_div_pow2 by lia.
    change (2 ^ 8) with 256. change (2 ^ 16) with 65536.
    change (2 ^ 24) with 16777216. Z.div_mod_to_equations. lia.
  - change 0xFFFF with (Z.ones 16).
    rewrite Z.land_ones, Z.shiftr_div_pow2 by lia.
    change (2 ^ 8) with 256. change (2 ^ 16) with 65536.
    change (2 ^ 24) with 16777216. Z.div_mod_to_equations. lia.
Qed.

Lemma sync_response_packed_result_witness :
  ∃ h' logs v,
    @NetSIOHub.handle_device_msg example_constants
      (NetSIOHub.mk NetSIOManager.init (Queue.mk 8 []) true
         (Some (AtDevHandler.mk true))
         (SyncRequest.mk 7 (Some NETSIO_COMMAND_OFF_SYNC) None false))
      (mkMsg NETSIO_SYNC_RESPONSE [7; 0x01; 0x41; 0x00; 0x00])
    = (h', logs, Finished)
    ∧ SyncRequest.response (NetSIOHub.sync h') = Some v
    ∧ SyncRequest.completed (NetSIOHub.sync h') = true
    ∧ snd (@NetSIOHub.handle_host_msg_sync_wait example_constants h') = Some v
    ∧ NetSIOHub.host_queue h' = Queue.mk 8 []
    ∧ 0 ≤ v < 2 ^ 32
    ∧ Z.land v 0xFF = 0x81
    ∧ Z.land (Z.shiftr v 8) 0xFF = 0x41
    ∧ Z.land (Z.shiftr v 16) 0xFFFF = 0 + 256 * 0
    ∧ (0x41 = 0x41 → 0 = 0 → 0 = 0 → v = 0x00004181).
Proof.
  apply (@sync_response_packed_result example_constants
           (NetSIOHub.mk NetSIOManager.init (Queue.mk 8 []) true
              (Some (AtDevHandler.mk true))
              (SyncRequest.mk 7 (Some NETSIO_COMMAND_OFF_SYNC) None false))
           (mkMsg NETSIO_SYNC_RESPONSE [7; 0x01; 0x41; 0x00; 0x00])
           NETSIO_COMMAND_OFF_SYNC 7 0x01 0x41 0x00 0x00 []);
    simpl; try reflexivity; try lia; eauto.
Defined.

(** ** Responses that come after the timeout *)

Lemma enqueue_for_host_keeps_sync `{NetsioConstants}
    (h : NetSIOHub.t) (msg : NetSIOMsg) (logs : list log_line) :
  NetSIOHub.sync (fst (fst (NetSIOHub.enqueue_for_host h msg logs)))
  = NetSIOHub.sync h.
Proof.
  unfold NetSIOHub.enqueue_for_host, Queue.put.
  repeat (case_match; simpl in * ); simplify_eq; reflexivity.
Qed.

(** A message that gets to the end of [handle_device_msg] is put on the
    host queue, replaced first when it is a SYNC_RESPONSE that carries a
    byte, or the replacement raises; nothing else happens to it. *)
Lemma enqueue_for_host_outcome `{NetsioConstants}
    (h : NetSIOHub.t) (msg : NetSIOMsg) (logs : list log_line) :
  let r := NetSIOHub.enqueue_for_host h msg logs in
  match host_bound msg with
  | Some m => handed_to_host h r m
  | None => r.1.1 = h ∧ r.2 = Raised IndexError
  end.
Proof.
  unfold NetSIOHub.enqueue_for_host, host_bound, handed_to_host, Queue.put.
  destruct (decide (id msg = NETSIO_SYNC_RESPONSE)) as [Hid|Hid].
  - destruct (arg msg !! 1%nat) as [a1|]; [|split; reflexivity].
    destruct (decide (a1 = NETSIO_EMPTY_SYNC)) as [He|He].
    + destruct (decide (a1 ≠ NETSIO_EMPTY_SYNC)); [contradiction|].
      destruct (Queue.full (NetSIOHub.host_queue h)); cbn.
      * split; [reflexivity|]. split; [reflexivity|].
        apply list_elem_of_In. repeat rewrite in_app_iff. simpl. auto 8.
      * split; reflexivity.
    + destruct (decide (a1 ≠ NETSIO_EMPTY_SYNC)); [|contradiction].
      destruct (arg msg !! 2%nat) as [a2|]; [|split; reflexivity].
      destruct (Queue.full (NetSIOHub.host_queue h)); cbn.
      * split; [reflexivity|]. split; [reflexivity|].
        apply list_elem_of_In. repeat rewrite in_app_iff. simpl. auto 8.
      * split; reflexivity.
  - destruct (Queue.full (NetSIOHub.host_queue h)); cbn.
    + split; [reflexivity|]. split; [reflexivity|].
      apply list_elem_of_In. repeat rewrite in_app_iff. simpl. auto 8.
    + split; reflexivity.
Qed.

(** C2, as the code has it: when the wait of a sync request ends with no
    matching response, the call returns the empty indicator and clears
    the request; a SYNC_RESPONSE handled after that leaves the slot as it
    is (stored response and completion flag included), but it is
    discarded only when no host is attached.  With the host attached it
    goes the way of every message that is passed on: one marked empty is
    put on the host queue as it is, one that is not is put there as a
    DATA_BYTE that carries its third argument byte, and one too short for
    that ([arg[1]] or [arg[2]] missing) raises [IndexError]; the [put]
    appends at once when the queue has room and sleeps holding the
    message when it is full. *)
Theorem late_sync_response_keeps_slot_reaches_host `{NetsioConstants}
    (h : NetSIOHub.t) (msg : NetSIOMsg) :
  SyncRequest.completed (NetSIOHub.sync h) = false →
  id msg = NETSIO_SYNC_RESPONSE →
  let h1 := fst (NetSIOHub.handle_host_msg_sync_wait h) in
  let r := NetSIOHub.handle_device_msg h1 msg in
  let h2 := r.1.1 in
  snd (NetSIOHub.handle_host_msg_sync_wait h) = Some ATDEV_EMPTY_SYNC
  ∧ SyncRequest.request (NetSIOHub.sync h1) = None
  ∧ NetSIOHub.sync h2 = NetSIOHub.sync h1
  ∧ SyncRequest.response (NetSIOHub.sync h2)
    = SyncRequest.response (NetSIOHub.sync h)
  ∧ SyncRequest.completed (NetSIOHub.sync h2) = false
  ∧ (if NetSIOHub.host_ready h
     then match arg msg !! 1%nat, arg msg !! 2%nat with
          | None, _ => h2 = h1 ∧ r.2 = Raised IndexError
          | Some a1, a2 =>
              if decide (a1 = NETSIO_EMPTY_SYNC) then handed_to_host h1 r msg
              else match a2 with
                   | None => h2 = h1 ∧ r.2 = Raised IndexError
                   | Some a2 =>
                       handed_to_host h1 r (mkMsg NETSIO_DATA_BYTE [a2])
                   end
          end
     else r = (h1, [], Finished)).
Proof.
  intros Hc Hid h1 r h2.
  assert (Hh1 : h1 = NetSIOHub.set_sync h
                  (SyncRequest.mk (SyncRequest.sn (NetSIOHub.sync h)) None
                     (SyncRequest.response (NetSIOHub.sync h)) false)).
  { subst h1. unfold NetSIOHub.handle_host_msg_sync_wait,
      SyncRequest.get_response. rewrite Hc. reflexivity. }
  assert (Hr : snd (NetSIOHub.handle_host_msg_sync_wait h)
               = Some ATDEV_EMPTY_SYNC).
  { unfold NetSIOHub.handle_host_msg_sync_wait, SyncRequest.get_response.
    rewrite Hc. reflexivity. }
  assert (Hdev : r = if negb (NetSIOHub.host_ready h) then (h1, [], Finished)
                     else NetSIOHub.enqueue_for_host h1 msg []).
  { subst r. rewrite Hh1. unfold NetSIOHub.handle_device_msg. simpl.
    destruct (NetSIOHub.host_ready h); reflexivity. }
  assert (Hsync : NetSIOHub.sync h2 = NetSIOHub.sync h1).
  { subst h2. rewrite Hdev. destruct (NetSIOHub.host_ready h); simpl.
    - apply enqueue_for_host_keeps_sync.
    - reflexivity. }
  split; [exact Hr|]. split; [rewrite Hh1; reflexivity|].
  split; [exact Hsync|].
  split; [rewrite Hsync, Hh1; reflexivity|].
  split; [rewrite Hsync, Hh1; reflexivity|].
  destruct (NetSIOHub.host_ready h); [|exact Hdev].
  pose proof (enqueue_for_host_outcome h1 msg []) as Hout.
  cbn [negb] in Hdev. subst h2. rewrite Hdev. clear Hdev.
  unfold host_bound in Hout.
  destruct (decide (id msg = NETSIO_SYNC_RESPONSE)); [|contradiction].
  destruct (arg msg !! 1%nat) as [a1|]; [|exact Hout].
  destruct (decide (a1 = NETSIO_EMPTY_SYNC)); [exact Hout|].
  destruct (arg msg !! 2%nat) as [a2|]; exact Hout.
Qed.

Lemma late_sync_response_keeps_slot_reaches_host_witness :
  let late := mkMsg NETSIO_SYNC_RESPONSE [1; 0x00] in
  let h1 := fst (@NetSIOHub.handle_host_msg_sync_wait example_constants
                   hub_waiting) in
  let r := @NetSIOHub.handle_device_msg example_constants h1 late in
  snd (@NetSIOHub.handle_host_msg_sync_wait example_constants hub_waiting)
  = Some 0
  ∧ NetSIOHub.sync r.1.1 = NetSIOHub.sync h1
  ∧ r.1.1 = NetSIOHub.set_host_queue h1 (Queue.mk 8 [late])
  ∧ r.2 = Finished.
Proof.
  pose proof (@late_sync_response_keeps_slot_reaches_host example_constants
                hub_waiting (mkMsg NETSIO_SYNC_RESPONSE [1; 0x00])
                eq_refl eq_refl) as (Hr & _ & Hs & _ & _ & Hq).
  split; [exact Hr|]. split; [exact Hs|exact Hq].
Defined.

(** C2 as stated fails.  A peripheral is registered and the emulator
    attached; the emulator's first sync request, serial number 1, times
    out and the emulator gets the empty indicator; the reply
    [1, 1, 0x41, 0, 0] comes from the peripheral afterwards, the UDP
    handler passes it to the hub, and its ack byte is put on the empty
    host queue as a DATA_BYTE. *)
Lemma late_sync_response_is_not_discarded :
  let late := mkMsg NETSIO_SYNC_RESPONSE [1; 0x01; 0x41; 0x00; 0x00] in
  let h1 := fst (@NetSIOHub.handle_host_msg_sync_wait example_constants
                   hub_waiting) in
  let h2 := fst (fst (@NetSIOHub.handle_device_msg example_constants h1 late)) in
  SyncRequest.request (NetSIOHub.sync hub_waiting) = Some NETSIO_COMMAND_OFF_SYNC
  ∧ SyncRequest.sn (NetSIOHub.sync hub_waiting) = 1
  ∧ snd (@NetSIOHub.handle_host_msg_sync_wait example_constants hub_waiting)
    = Some (@ATDEV_EMPTY_SYNC example_constants)
  ∧ (snd <$> @NetSIOServer.handle example_constants
               (NetSIOManager.server (NetSIOHub.device_manager h1))
               (NetSIOHub.host_queue h1) example_peer
               [Byte.x81; Byte.x01; Byte.x01; Byte.x41; Byte.x00; Byte.x00] 100)
    = Some [ToHub late (Some example_peer)]
  ∧ Queue.items (NetSIOHub.host_queue h1) = []
  ∧ Queue.items (NetSIOHub.host_queue h2) = [mkMsg NETSIO_DATA_BYTE [0x41]]
  ∧ NetSIOHub.host_queue h2 ≠ NetSIOHub.host_queue h1.
Proof.
  vm_compute. repeat split; discriminate.
Qed.

(** ** Full queues *)

Lemma put_when_room (q : Queue.t) (x : NetSIOMsg) :
  Queue.full q = false →
  Queue.put q x = Queue.Done (Queue.mk (Queue.maxsize q) (Queue.items q ++ [x])).
Proof. intros Hq. unfold Queue.put. rewrite Hq. reflexivity. Qed.

Lemma put_when_full (q : Queue.t) (x : NetSIOMsg) :
  Queue.full q = true → Queue.put q x = Queue.Blocked q x.
Proof. intros Hq. unfold Queue.put. rewrite Hq. reflexivity. Qed.

Lemma clear_queue_has_room (q : Queue.t) : Queue.full (clear_queue q) = false.
Proof.
  unfold Queue.full, clear_queue, Queue.qsize. simpl.
  rewrite andb_false_iff, Z.ltb_ge, Z.leb_gt. lia.
Qed.




(** ** Reset from the host *)

Lemma handle_host_msg_keeps_sync (h : NetSIOHub.t) (msg : NetSIOMsg) :
  NetSIOHub.sync (NetSIOHub.handle_host_msg h msg).1.1 = NetSIOHub.sync h.
Proof.
  unfold NetSIOHub.handle_host_msg, NetSIOManager.to_peripheral, Queue.put.
  repeat (case_match; simpl in * ); simplify_eq; reflexivity.
Qed.

Lemma handle_device_msg_no_new_request `{NetsioConstants}
    (h : NetSIOHub.t) (msg : NetSIOMsg) :
  SyncRequest.request (NetSIOHub.sync h) = None →
  SyncRequest.request (NetSIOHub.sync (NetSIOHub.handle_device_msg h msg).1.1)
  = None.
Proof.
  intros Hreq. unfold NetSIOHub.handle_device_msg, SyncRequest.check_request.
  rewrite Hreq. destruct (negb (NetSIOHub.host_ready h)); [exact Hreq|].
  change (NetSIOHub.enqueue_for_host h msg []).1.1
    with (fst (fst (NetSIOHub.enqueue_for_host h msg []))).
  rewrite enqueue_for_host_keeps_sync. exact Hreq.
Qed.

(** A request is in the slot only while the thread that serves the
    emulator is inside [handle_host_msg_sync]: [set_request] is the one
    place that puts a request there, and [get_response] takes it out
    before the call returns. *)
Lemma no_request_between_host_calls `{NetsioConstants} (h : NetSIOHub.t) :
  between_host_calls h → SyncRequest.request (NetSIOHub.sync h) = None.
Proof.
  unfold between_host_calls. intros Hrun.
  cut (∀ st, rtc hub_step (false, NetSIOHub.init) st →
             st.1 = false → SyncRequest.request (NetSIOHub.sync st.2) = None).
  { intros Hall. exact (Hall (false, h) Hrun eq_refl). }
  clear h Hrun. intros st Hrun.
  apply (rtc_ind_r (R := hub_step)
           (λ st, st.1 = false → SyncRequest.request (NetSIOHub.sync st.2) = None)
           (false, NetSIOHub.init)); [reflexivity| |exact Hrun].
  clear st Hrun. intros st st' _ Hstep IH.
  destruct Hstep as [h hh|h|h msg|h msg|h|b h msg|b h h' Hs _ _];
    cbn [fst snd] in *.
  - intros _. apply IH. reflexivity.
  - intros _. apply IH. reflexivity.
  - intros _. rewrite handle_host_msg_keeps_sync. apply IH. reflexivity.
  - intros Hflag. apply bool_decide_eq_false in Hflag.
    assert (Hid : id msg = NETSIO_DATA_BLOCK).
    { destruct (decide (id msg = NETSIO_DATA_BLOCK)); [assumption|contradiction]. }
    unfold NetSIOHub.handle_host_msg_sync_send.
    destruct (decide (id msg = NETSIO_DATA_BLOCK)); [|contradiction].
    pose proof (handle_host_msg_keeps_sync h msg) as Hk.
    destruct (NetSIOHub.handle_host_msg h msg) as [[h1 logs] st1].
    cbn [fst snd] in *. rewrite Hk. apply IH. reflexivity.
  - intros _. unfold NetSIOHub.handle_host_msg_sync_wait,
      SyncRequest.get_response.
    destruct (SyncRequest.completed (NetSIOHub.sync h)); reflexivity.
  - intros Hb. apply handle_device_msg_no_new_request, IH, Hb.
  - intros Hb. rewrite Hs. apply IH, Hb.
Qed.

(** C4, as the code has it: when COLD_RESET or WARM_RESET comes from the
    host, the device queue is emptied before the reset is enqueued, so
    the call returns with the reset as the only message queued and the
    reset is the next message the sender thread takes; a message that
    thread has taken before is still broadcast, with the reset waiting in
    the queue.  The reset does not touch the SyncRequest slot, the host
    queue or the attachment of the host; the slot holds no request at
    that point, because a reset comes between two calls of the thread
    that serves the emulator. *)
Theorem reset_flushes_device_queue_only `{NetsioConstants}
    (h : NetSIOHub.t) (msg : NetSIOMsg) :
  id msg = NETSIO_COLD_RESET ∨ id msg = NETSIO_WARM_RESET →
  ∃ h' logs,
    NetSIOHub.handle_host_msg h msg = (h', logs, Finished)
    ∧ In LogClearDevQueue logs
    ∧ Queue.items (NetSIOManager.device_queue (NetSIOHub.device_manager h'))
      = [msg]
    ∧ NetSIOManager.net_out_get (NetSIOHub.device_manager h')
      = Some (msg,
              NetSIOManager.mk
                (clear_queue (NetSIOManager.device_queue (NetSIOHub.device_manager h)))
                (NetSIOManager.server (NetSIOHub.device_manager h)))
    ∧ (∀ taken now now',
         Queue.items
           (NetSIOManager.device_queue
              (NetSIOManager.net_out_send (NetSIOHub.device_manager h')
                                          taken now now').1)
         = [msg])
    ∧ NetSIOHub.sync h' = NetSIOHub.sync h
    ∧ NetSIOHub.host_queue h' = NetSIOHub.host_queue h
    ∧ NetSIOHub.host_ready h' = NetSIOHub.host_ready h
    ∧ NetSIOHub.host_handler h' = NetSIOHub.host_handler h
    ∧ (between_host_calls h →
       SyncRequest.request (NetSIOHub.sync h') = None).
Proof.
  intros Hreset.
  unfold NetSIOHub.handle_host_msg, NetSIOManager.to_peripheral.
  destruct (decide _) as [_|?]; [|contradiction].
  assert (Hroom : Queue.full
                    (clear_queue (NetSIOManager.device_queue (NetSIOHub.device_manager h)))
                  = false).
  { apply clear_queue_has_room. }
  rewrite Hroom, put_when_room by exact Hroom.
  eexists _, _. split; [reflexivity|]. simpl.
  split; [auto|]. split; [reflexivity|]. split; [reflexivity|].
  split.
  { intros taken now now'. unfold NetSIOManager.net_out_send. simpl.
    destruct (NetSIOServer.send_to_all _ taken now now'). reflexivity. }
  split; [reflexivity|]. split; [reflexivity|]. split; [reflexivity|].
  split; [reflexivity|].
  apply no_request_between_host_calls.
Qed.

Lemma reset_flushes_device_queue_only_witness :
  ∃ h' logs,
    NetSIOHub.handle_host_msg
      (NetSIOHub.mk (NetSIOManager.mk full_device_queue NetSIOServer.init)
         (Queue.mk 8 []) true (Some (AtDevHandler.mk true))
         SyncRequest.init)
      (mkMsg NETSIO_COLD_RESET []) = (h', logs, Finished)
    ∧ Queue.items (NetSIOManager.device_queue (NetSIOHub.device_manager h'))
      = [mkMsg NETSIO_COLD_RESET []]
    ∧ NetSIOHub.sync h' = SyncRequest.init.
Proof.
  destruct (@reset_flushes_device_queue_only example_constants
              (NetSIOHub.mk (NetSIOManager.mk full_device_queue NetSIOServer.init)
                 (Queue.mk 8 []) true (Some (AtDevHandler.mk true))
                 SyncRequest.init)
              (mkMsg NETSIO_COLD_RESET []) (or_introl eq_refl))
    as (h' & logs & Hrun & _ & Hitems & _ & _ & Hsync & _).
  exists h', logs. split; [exact Hrun|]. split; [exact Hitems|exact Hsync].
Defined.

(** C4 as stated fails.  From the start: a peripheral connects, the
    emulator attaches and sends COMMAND_ON for device 0x31, and the
    sender thread takes the COMMAND_ON from the device queue.  Before
    that thread gets to [send_to_all], COLD_RESET comes from the host:
    the queue, empty by then, is emptied and holds the reset alone.  The
    message broadcast next is the COMMAND_ON, not the reset, which is
    taken and broadcast after it. *)
Lemma reset_is_not_the_next_broadcast :
  let taken := mkMsg NETSIO_COMMAND_ON [0x31] in
  let reset := mkMsg NETSIO_COLD_RESET [] in
  let queued := (NetSIOHub.handle_host_msg hub_attached taken).1.1 in
  let h :=
    NetSIOHub.set_device_manager queued
      (NetSIOManager.mk (Queue.mk 16 [])
         (NetSIOManager.server (NetSIOHub.device_manager queued))) in
  let h' := (NetSIOHub.handle_host_msg h reset).1.1 in
  let sent :=
    @NetSIOManager.net_out_send example_constants
      (NetSIOHub.device_manager h') taken 10 10 in
  @between_host_calls example_constants h
  ∧ NetSIOManager.net_out_get (NetSIOHub.device_manager queued)
    = Some (taken, NetSIOHub.device_manager h)
  ∧ Queue.items (NetSIOManager.device_queue (NetSIOHub.device_manager h'))
    = [reset]
  ∧ sent.2
    = [Log (LogSendToClient example_peer (mkMsg NETSIO_COMMAND_ON [0x31; 0x00]));
       SendTo example_peer [0x11; 0x31; 0x00]]
  ∧ (SendTo example_peer [0xFF; 0x00] ∉ sent.2)
  ∧ (snd <$> @NetSIOManager.net_out_step example_constants sent.1 20 20)
    = Some [Log (LogSendToClient example_peer (mkMsg NETSIO_COLD_RESET [0x01]));
            SendTo example_peer [0xFF; 0x01]].
Proof.
  split.
  - unfold between_host_calls.
    eapply rtc_l.
    { apply (@step_elsewhere example_constants false NetSIOHub.init
               (NetSIOHub.set_device_manager NetSIOHub.init
                  (NetSIOManager.mk (Queue.mk 16 []) (server_after [[Byte.xc1]]))));
        reflexivity. }
    eapply rtc_l.
    { apply (@step_host_connected example_constants _ (AtDevHandler.mk true)). }
    eapply rtc_l.
    { apply (@step_host_msg example_constants hub_attached
               (mkMsg NETSIO_COMMAND_ON [0x31])). }
    eapply rtc_l; [|apply rtc_refl].
    apply (@step_elsewhere example_constants); reflexivity.
  - vm_compute. repeat split.
    intros Hin. apply list_elem_of_In in Hin.
    destruct Hin as [Hin|[Hin|[]]]; discriminate.
Qed.

(** ** Credit recomputation *)

Lemma byte_check (v : Z) :
  0 ≤ v < 256 → (0 <=? v) && (v <? 256) = true.
Proof. intros Hv. rewrite andb_true_iff, Z.leb_le, Z.ltb_lt. exact Hv. Qed.

Lemma send_to_client_sends `{NetsioConstants}
    (c : NetSIOClient.t) (msg : NetSIOMsg) :
  0 ≤ id msg < 256 →
  SendTo (NetSIOClient.address c) (id msg :: arg msg)
  ∈ NetSIOServer.send_to_client c msg.
Proof.
  intros Hb. unfold NetSIOServer.send_to_client. rewrite (byte_check _ Hb).
  apply elem_of_app. right. apply list_elem_of_singleton. reflexivity.
Qed.

Lemma send_to_client_only `{NetsioConstants}
    (c : NetSIOClient.t) (msg : NetSIOMsg) (a : Address) (d : list Z) :
  SendTo a d ∈ NetSIOServer.send_to_client c msg →
  a = NetSIOClient.address c ∧ d = id msg :: arg msg.
Proof.
  unfold NetSIOServer.send_to_client.
  rewrite elem_of_app.
  intros [Hlog|Heq].
  - destruct (decide _); [inversion Hlog|].
    apply list_elem_of_singleton in Hlog. discriminate.
  - destruct (_ && _); apply list_elem_of_singleton in Heq;
      [inversion Heq; auto|discriminate].
Qed.






Lemma effects_until_raise_sub (eff : list effect) (e : effect) :
  e ∈ effects_until_raise eff → e ∈ eff.
Proof.
  induction eff as [|x eff IH]; [intros Hin; exact Hin|].
  destruct x; cbn; intros Hin; apply elem_of_cons in Hin as [->|Hin];
    try (apply elem_of_cons; left; reflexivity);
    try (apply elem_of_cons; right; apply IH, Hin).
  inversion Hin.
Qed.



Lemma client_in_values (m : gmap Address NetSIOClient.t)
    (a : Address) (c : NetSIOClient.t) :
  m !! a = Some c → c ∈ (snd <$> map_to_list m).
Proof.
  intros Hc. apply (list_elem_of_fmap_2' snd _ (a, c)); [|reflexivity].
  apply elem_of_map_to_list, Hc.
Qed.

Lemma value_has_key (m : gmap Address NetSIOClient.t) (c : NetSIOClient.t) :
  c ∈ (snd <$> map_to_list m) → ∃ k, m !! k = Some c.
Proof.
  intros Hc. apply list_elem_of_fmap in Hc as [[k c'] [-> Hin]].
  exists k. apply elem_of_map_to_list, Hin.
Qed.

(** C5, as the code has it: when credit is recomputed as [DEFAULT_CREDIT]
    minus the size of the host queue, a registered client gets the new
    value, and a CREDIT_UPDATE that carries it, when the value is at least
    2 and the client's stored credit is 0 or less; a client with a stored
    credit above 0 keeps it, and no CREDIT_UPDATE goes out other than
    those. *)
Theorem credit_clients_tops_up_clients_at_zero `{NetsioConstants}
    (s : NetSIOServer.t) (hq : Queue.t) (a : Address) (c : NetSIOClient.t) :
  NetSIOServer.clients s !! a = Some c →
  let credit := DEFAULT_CREDIT - Queue.qsize hq in
  let s' := fst (NetSIOServer.credit_clients s hq) in
  let eff := snd (NetSIOServer.credit_clients s hq) in
  (2 ≤ credit → NetSIOClient.credit c ≤ 0 →
     NetSIOServer.clients s' !! a
     = Some (NetSIOClient.mk (NetSIOClient.address c)
                             (NetSIOClient.expire_time c) credit)
     ∧ SendTo (NetSIOClient.address c) [NETSIO_CREDIT_UPDATE; credit] ∈ eff)
  ∧ (credit < 2 ∨ 0 < NetSIOClient.credit c →
     NetSIOServer.clients s' !! a = Some c)
  ∧ (∀ a' d, SendTo a' d ∈ eff →
       2 ≤ credit ∧ d = [NETSIO_CREDIT_UPDATE; credit]
       ∧ ∃ k c', NetSIOServer.clients s !! k = Some c'
                 ∧ NetSIOClient.address c' = a'
                 ∧ NetSIOClient.credit c' ≤ 0).
Proof.
  intros Hc credit s' eff. subst s' eff.
  unfold NetSIOServer.credit_clients. fold credit.
  destruct (Z.leb_spec 2 credit) as [Hge|Hlt]; simpl.
  - split; [|split].
    + intros _ Hzero. split.
      * rewrite lookup_fmap, Hc. simpl.
        unfold NetSIOClient.update_credit.
        destruct (Z.leb_spec (NetSIOClient.credit c) 0); [reflexivity|lia].
      * apply list_elem_of_In, in_flat_map. exists c. split.
        { apply list_elem_of_In, (client_in_values _ a), Hc. }
        unfold NetSIOClient.update_credit.
        destruct (Z.leb_spec (NetSIOClient.credit c) 0); [|lia].
        simpl. apply list_elem_of_In.
        apply (send_to_client_sends c (mkMsg NETSIO_CREDIT_UPDATE [credit])).
        apply NETSIO_CREDIT_UPDATE_byte.
    + intros [?|Hpos]; [lia|].
      rewrite lookup_fmap, Hc. simpl.
      unfold NetSIOClient.update_credit.
      destruct (Z.leb_spec (NetSIOClient.credit c) 0); [lia|reflexivity].
    + intros a' d Hin.
      apply list_elem_of_In, in_flat_map in Hin as (c' & Hc' & Hin).
      apply list_elem_of_In, value_has_key in Hc' as [k Hk].
      revert Hin. unfold NetSIOClient.update_credit.
      destruct (Z.leb_spec (NetSIOClient.credit c') 0) as [Hle|?]; simpl;
        [|intros []].
      intros Hin. apply list_elem_of_In, send_to_client_only in Hin as [-> ->].
      split; [assumption|]. split; [reflexivity|]. eauto.
  - split; [|split].
    + intros ?; lia.
    + intros _. exact Hc.
    + intros a' d Hin. inversion Hin.
Qed.

Lemma credit_clients_tops_up_clients_at_zero_witness :
  NetSIOServer.clients
    (fst (@NetSIOServer.credit_clients example_constants
            server_with_waiting_client (Queue.mk 8 [])))
    !! example_peer
  = Some (NetSIOClient.mk example_peer 20000000 3).
Proof.
  apply (proj1 (@credit_clients_tops_up_clients_at_zero example_constants
                  server_with_waiting_client (Queue.mk 8 []) example_peer
                  (NetSIOClient.mk example_peer 20000000 0)
                  ltac:(vm_compute; reflexivity))
               ltac:(vm_compute; discriminate)
               ltac:(vm_compute; discriminate)).
Defined.

(** C5 as stated fails: the peripheral connects and announces a credit of
    1 with CREDIT_STATUS; with the host queue empty the recomputed credit
    is 3, which is at least 2 and more than the stored 1, but
    [credit_clients] neither updates the client nor sends anything. *)
Lemma credit_clients_skips_client_with_credit :
  let s := server_after [[Byte.xc1]; [Byte.xc6; Byte.x01]] in
  let hq := Queue.mk 8 [] in
  NetSIOServer.clients s !! example_peer
  = Some (NetSIOClient.mk example_peer 20000000 1)
  ∧ DEFAULT_CREDIT - Queue.qsize hq = 3
  ∧ NetSIOServer.clients (fst (@NetSIOServer.credit_clients example_constants s hq))
    !! example_peer
    = Some (NetSIOClient.mk example_peer 20000000 1)
  ∧ snd (@NetSIOServer.credit_clients example_constants s hq) = [].
Proof.
  vm_compute. repeat split; reflexivity.
Qed.


(** ** The range of the stored credit *)

Lemma byte_to_Z_range (b : Byte.byte) : 0 ≤ NetSIOServer.byte_to_Z b ≤ 255.
Proof.
  unfold NetSIOServer.byte_to_Z.
  pose proof (Byte.to_N_bounded b). lia.
Qed.

Lemma update_credit_bounded (c : NetSIOClient.t) (v threshold : Z) :
  credit_bounded c → 0 ≤ v ≤ 255 →
  credit_bounded (fst (NetSIOClient.update_credit c v threshold)).
Proof.
  unfold credit_bounded, NetSIOClient.update_credit, DEFAULT_CREDIT.
  intros Hc Hv. destruct (_ <=? _); simpl; lia.
Qed.

Lemma init_bounded `{NetsioConstants} (a : Address) (now : Z) :
  credit_bounded (NetSIOClient.init a now).
Proof. unfold credit_bounded, DEFAULT_CREDIT. simpl. lia. Qed.

Lemma refresh_bounded `{NetsioConstants} (c : NetSIOClient.t) (now : Z) :
  credit_bounded c → credit_bounded (NetSIOClient.refresh c now).
Proof. unfold credit_bounded. simpl. auto. Qed.

Lemma register_client_bounded `{NetsioConstants}
    (s : NetSIOServer.t) (a : Address) (now : Z) :
  credits_bounded s →
  credits_bounded (fst (NetSIOServer.register_client s a now)).
Proof.
  intros Hs. unfold NetSIOServer.register_client, credits_bounded.
  destruct (NetSIOServer.clients s !! a) as [c|] eqn:Hc;
    cbn [fst NetSIOServer.clients NetSIOServer.set_clients];
    apply map_Forall_insert_2; try exact Hs;
    apply update_credit_bounded; try (unfold DEFAULT_CREDIT; lia).
  - apply refresh_bounded. exact (Hs a c Hc).
  - apply init_bounded.
Qed.

Lemma deregister_client_bounded `{NetsioConstants}
    (s : NetSIOServer.t) (a : Address) (expired : bool) :
  credits_bounded s →
  credits_bounded (fst (NetSIOServer.deregister_client s a expired)).
Proof.
  intros Hs. unfold NetSIOServer.deregister_client, credits_bounded.
  destruct (NetSIOServer.clients s !! a); simpl; [|exact Hs].
  apply map_Forall_delete, Hs.
Qed.

Lemma expire_clients_bounded `{NetsioConstants} (s : NetSIOServer.t) (now : Z) :
  credits_bounded s →
  credits_bounded (fst (NetSIOServer.expire_clients s now)).
Proof.
  unfold NetSIOServer.expire_clients.
  generalize (filter (λ c, NetSIOClient.expired c now = true)
                     (snd <$> map_to_list (NetSIOServer.clients s))).
  generalize (@nil effect).
  intros eff l. revert s eff.
  induction l as [|c l IH]; intros s eff Hs; simpl; [exact Hs|].
  destruct (NetSIOServer.deregister_client s (NetSIOClient.address c) true)
    as [s1 eff1] eqn:Hd.
  apply IH.
  change s1 with (fst (s1, eff1)). rewrite <- Hd.
  apply deregister_client_bounded, Hs.
Qed.

Lemma send_to_all_bounded `{NetsioConstants}
    (s : NetSIOServer.t) (msg : NetSIOMsg) (now now' : Z) :
  credits_bounded s →
  credits_bounded (fst (NetSIOServer.send_to_all s msg now now')).
Proof.
  intros Hs. unfold NetSIOServer.send_to_all.
  destruct (raised _); [exact Hs|].
  destruct (existsb _ _); [|exact Hs].
  destruct (NetSIOServer.expire_clients _ now') as [s2 eff] eqn:He.
  change s2 with (fst (s2, eff)). rewrite <- He.
  apply expire_clients_bounded. exact Hs.
Qed.

Lemma credit_clients_bounded `{NetsioConstants}
    (s : NetSIOServer.t) (hq : Queue.t) :
  credits_bounded s →
  credits_bounded (fst (NetSIOServer.credit_clients s hq)).
Proof.
  intros Hs. unfold NetSIOServer.credit_clients.
  destruct (Z.leb_spec 2 (DEFAULT_CREDIT - Queue.qsize hq)); [|exact Hs].
  unfold credits_bounded. simpl. apply map_Forall_fmap.
  intros a c Hc. simpl. apply update_credit_bounded; [exact (Hs a c Hc)|].
  unfold DEFAULT_CREDIT, Queue.qsize in *. lia.
Qed.

Lemma handle_bounded `{NetsioConstants}
    (s : NetSIOServer.t) (hq : Queue.t) (ca : Address)
    (data : list Byte.byte) (now : Z) (s' : NetSIOServer.t) (eff : list effect) :
  credits_bounded s →
  NetSIOServer.handle s hq ca data now = Some (s', eff) →
  credits_bounded s'.
Proof.
  intros Hs Hh. unfold NetSIOServer.handle in Hh.
  destruct data as [|b rest]; [discriminate|].
  injection Hh as Hh. cbn [id arg] in Hh.
  revert Hh. unfold NetSIOServer.get_client.
  assert (Hins : ∀ c b', credit_bounded c →
            credits_bounded
              (NetSIOServer.set_inbuffer
                 (NetSIOServer.set_clients s (<[ca:=c]> (NetSIOServer.clients s)))
                 b')).
  { intros c b' Hc. unfold credits_bounded. simpl.
    apply map_Forall_insert_2; [exact Hc | exact Hs]. }
  assert (Hset : ∀ c, credit_bounded c →
            credits_bounded
              (NetSIOServer.set_clients s (<[ca:=c]> (NetSIOServer.clients s)))).
  { intros c Hc. unfold credits_bounded. simpl.
    apply map_Forall_insert_2; [exact Hc | exact Hs]. }
  assert (Hfst : ∀ r : NetSIOServer.t * list effect,
            credits_bounded (fst r) → r = (s', eff) → credits_bounded s').
  { intros r Hr ->. exact Hr. }
  destruct (_ <? NETSIO_CONN_MGMT).
  - destruct (NetSIOServer.clients s !! ca) as [client|] eqn:Hc.
    + destruct (NetSIOClient.expired client now).
      * apply Hfst, deregister_client_bounded, Hs.
      * pose proof (refresh_bounded client now (Hs ca client Hc)) as Hr.
        destruct (decide _).
        -- destruct (NetInBuffer.extend _ _ _) as [b' eb]. apply Hfst, Hins, Hr.
        -- destruct (NetInBuffer.flush _) as [b' eb]. apply Hfst, Hins, Hr.
    + apply Hfst, Hs.
  - destruct (decide _); [apply Hfst, deregister_client_bounded, Hs|].
    destruct (decide _); [apply Hfst, register_client_bounded, Hs|].
    destruct (decide _); [apply Hfst, Hs|].
    destruct (decide _).
    { destruct (NetSIOServer.clients s !! ca) as [client|] eqn:Hc;
        [|apply Hfst, Hs].
      pose proof (refresh_bounded client now (Hs ca client Hc)) as Hr.
      apply Hfst. cbn [fst]. apply Hset.
      destruct rest as [|b0 rest]; [exact Hr|].
      apply update_credit_bounded; [exact Hr | apply byte_to_Z_range]. }
    destruct (decide _); [|apply Hfst, Hs].
    destruct (NetSIOServer.clients s !! ca) as [client|] eqn:Hc;
      [|apply Hfst, Hs].
    destruct rest as [|b0 rest]; [apply Hfst, Hs|].
    cbn [fmap list_fmap].
    pose proof (update_credit_bounded client (NetSIOServer.byte_to_Z b0) 10
                  (Hs ca client Hc) (byte_to_Z_range b0)) as H1.
    destruct (Z.leb_spec 2 (DEFAULT_CREDIT - Queue.qsize hq)) as [Hge|Hlt].
    + destruct (NetSIOClient.update_credit _ (DEFAULT_CREDIT - Queue.qsize hq) 0)
        as [c2 updated] eqn:Hu.
      apply Hfst. cbn [fst]. apply Hset.
      change c2 with (fst (c2, updated)). rewrite <- Hu.
      apply update_credit_bounded; [exact H1|].
      unfold DEFAULT_CREDIT, Queue.qsize in *. lia.
    + apply Hfst. cbn [fst]. apply Hset, H1.
Qed.

Lemma server_step_bounded `{NetsioConstants} (s s' : NetSIOServer.t) :
  server_step s s' → credits_bounded s → credits_bounded s'.
Proof.
  intros Hstep Hs. destruct Hstep.
  - eapply handle_bounded; eassumption.
  - apply credit_clients_bounded, Hs.
  - apply send_to_all_bounded, Hs.
  - exact Hs.
Qed.

Lemma reachable_bounded `{NetsioConstants} (s : NetSIOServer.t) :
  reachable s → credits_bounded s.
Proof.
  unfold reachable.
  apply (rtc_ind_r credits_bounded NetSIOServer.init).
  - unfold credits_bounded. apply map_Forall_empty.
  - intros y z _ Hstep IH. eapply server_step_bounded; eassumption.
Qed.

(** C6, as the code has it: in every state the server can be in, that
    is, after any sequence of registrations, credit recomputations,
    CREDIT_STATUS and ALIVE_REQUEST announcements and the other steps of
    the UDP side, the stored credit of every registered client is at
    least 0 and at most the larger of [DEFAULT_CREDIT] and 255, the
    largest credit an announcement can carry. *)
Theorem client_credit_within_byte `{NetsioConstants}
    (s : NetSIOServer.t) (a : Address) (c : NetSIOClient.t) :
  reachable s →
  NetSIOServer.clients s !! a = Some c →
  0 ≤ NetSIOClient.credit c ≤ Z.max DEFAULT_CREDIT 255.
Proof.
  intros Hreach Hc. exact (reachable_bounded s Hreach a c Hc).
Qed.

Lemma client_credit_within_byte_witness :
  0 ≤ 200 ≤ Z.max DEFAULT_CREDIT 255.
Proof.
  apply (@client_credit_within_byte example_constants
           (server_after [[Byte.xc1]; [Byte.xc6; Byte.xc8]]) example_peer
           (NetSIOClient.mk example_peer 20000000 200)).
  - unfold reachable.
    apply rtc_l with (server_after [[Byte.xc1]]).
    { apply (@step_handle example_constants NetSIOServer.init (Queue.mk 8 [])
               example_peer [Byte.xc1] 0 _
               (snd (default (NetSIOServer.init, [])
                       (@NetSIOServer.handle example_constants NetSIOServer.init
                          (Queue.mk 8 []) example_peer [Byte.xc1] 0)))).
      vm_compute. reflexivity. }
    apply rtc_once.
    apply (@step_handle example_constants _ (Queue.mk 8 [])
             example_peer [Byte.xc6; Byte.xc8] 0 _ []).
    vm_compute. reflexivity.
  - vm_compute. reflexivity.
Defined.

(** C6 as stated fails: a registered peripheral announces a credit of 200
    with CREDIT_STATUS; the hub stores it, and the stored credit is above
    [DEFAULT_CREDIT]. *)
Lemma announced_credit_exceeds_default :
  let s := server_after [[Byte.xc1]; [Byte.xc6; Byte.xc8]] in
  NetSIOServer.clients s !! example_peer
  = Some (NetSIOClient.mk example_peer 20000000 200)
  ∧ ¬ (200 ≤ DEFAULT_CREDIT).
Proof.
  split; [vm_compute; reflexivity | unfold DEFAULT_CREDIT; lia].
Qed.

(** ** The inbound byte buffer *)

Lemma flush_nonempty (b : NetInBuffer.t) :
  NetInBuffer.data b ≠ [] →
  NetInBuffer.flush b
  = (let msg :=
       if 1 <? Z.of_nat (length (NetInBuffer.data b))
       then mkMsg NETSIO_DATA_BLOCK (NetInBuffer.data b)
       else mkMsg NETSIO_DATA_BYTE (NetInBuffer.data b) in
     (NetInBuffer.mk [] (NetInBuffer.monitor b),
      [Log (LogNetFlush msg); ToHub msg None])).
Proof.
  unfold NetInBuffer.flush. destruct (NetInBuffer.data b); [contradiction|].
  reflexivity.
Qed.

(** C7, as the code has it: the bytes of a DATA_BYTE from a registered
    peripheral are appended to the buffer.  When that brings the buffer
    to 130 bytes or more it is flushed at once, all of it in one
    DATA_BLOCK; otherwise the bytes stay and the monitor's wait is
    started again, to run out 5 ms after this append.  When the wait runs
    out the buffer is flushed.  A flush of an empty buffer emits nothing,
    a flush of one byte a DATA_BYTE, a flush of two or more bytes a single
    DATA_BLOCK. *)
Theorem inbuffer_flushes_on_size_or_quiet `{NetsioConstants}
    (b : NetInBuffer.t) (bytes : list Z) (now : Z) :
  let all := NetInBuffer.data b ++ bytes in
  let block := mkMsg NETSIO_DATA_BLOCK all in
  (∀ s hq ca rest client,
     NetSIOServer.inbuffer s = b →
     NetSIOServer.byte_to_Z <$> rest = bytes →
     NetSIOServer.clients s !! ca = Some client →
     NetSIOClient.expired client now = false →
     NETSIO_DATA_BYTE < NETSIO_CONN_MGMT →
     ∃ s' eff,
       NetSIOServer.handle s hq ca (Byte.x01 :: rest) now = Some (s', eff)
       ∧ NetSIOServer.inbuffer s' = fst (NetInBuffer.extend b bytes now)
       ∧ eff = snd (NetInBuffer.extend b bytes now))
  ∧ (130 ≤ Z.of_nat (length all) →
     NetInBuffer.extend b bytes now
     = (NetInBuffer.mk [] (NetInBuffer.monitor b),
        [Log (LogNetFlush block); ToHub block None]))
  ∧ (Z.of_nat (length all) < 130 →
     NetInBuffer.extend b bytes now
     = (NetInBuffer.mk all (NetInBuffer.Timed (now + 5000)), []))
  ∧ (∀ deadline t,
       NetInBuffer.monitor b = NetInBuffer.Timed deadline →
       (t < deadline → NetInBuffer.buffer_monitor b t = (b, []))
       ∧ (deadline ≤ t →
          NetInBuffer.buffer_monitor b t
          = NetInBuffer.flush (NetInBuffer.mk (NetInBuffer.data b) NetInBuffer.Idle)))
  ∧ (NetInBuffer.monitor b = NetInBuffer.Idle →
     ∀ t, NetInBuffer.buffer_monitor b t = (b, []))
  ∧ (NetInBuffer.data b = [] → NetInBuffer.flush b = (b, []))
  ∧ (∀ x, NetInBuffer.data b = [x] →
       NetInBuffer.flush b
       = (NetInBuffer.mk [] (NetInBuffer.monitor b),
          [Log (LogNetFlush (mkMsg NETSIO_DATA_BYTE [x]));
           ToHub (mkMsg NETSIO_DATA_BYTE [x]) None]))
  ∧ (∀ x y rest, NetInBuffer.data b = x :: y :: rest →
       NetInBuffer.flush b
       = (NetInBuffer.mk [] (NetInBuffer.monitor b),
          [Log (LogNetFlush (mkMsg NETSIO_DATA_BLOCK (x :: y :: rest)));
           ToHub (mkMsg NETSIO_DATA_BLOCK (x :: y :: rest)) None])).
Proof.
  intros all block. repeat apply conj.
  - intros s hq ca rest client Hb Hrest Hc Hexp Hid.
    unfold NetSIOServer.handle, NetSIOServer.get_client. cbn [id arg].
    change (NetSIOServer.byte_to_Z Byte.x01) with NETSIO_DATA_BYTE.
    destruct (Z.ltb_spec NETSIO_DATA_BYTE NETSIO_CONN_MGMT); [|lia].
    rewrite Hc, Hexp, Hrest.
    destruct (decide (NETSIO_DATA_BYTE = NETSIO_DATA_BYTE)); [|contradiction].
    cbn [NetSIOServer.inbuffer NetSIOServer.set_clients]. rewrite Hb.
    destruct (NetInBuffer.extend b bytes now) as [b' eff'].
    eexists _, _. split; [reflexivity|]. split; reflexivity.
  - intros Hlen. unfold NetInBuffer.extend, NetInBuffer.BUFFER_SIZE.
    cbn [NetInBuffer.data]. fold all.
    destruct (Z.leb_spec 130 (Z.of_nat (length all))); [|lia].
    rewrite flush_nonempty.
    + cbn [NetInBuffer.data NetInBuffer.monitor]. fold all.
      destruct (Z.ltb_spec 1 (Z.of_nat (length all))); [reflexivity|lia].
    + cbn [NetInBuffer.data]. fold all. intros Hnil. rewrite Hnil in Hlen.
      simpl in Hlen. lia.
  - intros Hlen. unfold NetInBuffer.extend, NetInBuffer.BUFFER_SIZE,
      NetInBuffer.set_delay, NetInBuffer.BUFFER_MAX_AGE.
    cbn [NetInBuffer.data]. fold all.
    destruct (Z.leb_spec 130 (Z.of_nat (length all))); [lia|reflexivity].
  - intros deadline t Hm. unfold NetInBuffer.buffer_monitor. rewrite Hm.
    split; intros Ht; destruct (Z.leb_spec deadline t); try lia; reflexivity.
  - intros Hm t. unfold NetInBuffer.buffer_monitor. rewrite Hm. reflexivity.
  - intros Hd. unfold NetInBuffer.flush. rewrite Hd. reflexivity.
  - intros x Hd. unfold NetInBuffer.flush. rewrite Hd. reflexivity.
  - intros x y rest Hd. unfold NetInBuffer.flush. rewrite Hd.
    cbn [length]. destruct (Z.ltb_spec 1 (Z.of_nat (S (S (length rest)))));
      [reflexivity|lia].
Qed.

Lemma inbuffer_flushes_on_size_or_quiet_witness :
  NetInBuffer.extend (NetInBuffer.mk (repeat 0x41 129) (NetInBuffer.Timed 5000))
                     [0x42] 100
  = (NetInBuffer.mk [] (NetInBuffer.Timed 5000),
     [Log (LogNetFlush (mkMsg NETSIO_DATA_BLOCK (repeat 0x41 129 ++ [0x42])));
      ToHub (mkMsg NETSIO_DATA_BLOCK (repeat 0x41 129 ++ [0x42])) None])
  ∧ NetInBuffer.extend (NetInBuffer.mk [0x41] (NetInBuffer.Timed 5000)) [0x42] 100
    = (NetInBuffer.mk [0x41; 0x42] (NetInBuffer.Timed 5100), []).
Proof.
  split.
  - apply (proj1 (proj2 (@inbuffer_flushes_on_size_or_quiet example_constants
             (NetInBuffer.mk (repeat 0x41 129) (NetInBuffer.Timed 5000))
             [0x42] 100))).
    vm_compute. discriminate.
  - apply (proj1 (proj2 (proj2 (@inbuffer_flushes_on_size_or_quiet example_constants
             (NetInBuffer.mk [0x41] (NetInBuffer.Timed 5000)) [0x42] 100)))).
    vm_compute. reflexivity.
Defined.

(** C7 as stated fails: a byte is buffered at time 0 and another one 4 ms
    later.  5 ms after the first byte the monitor is still waiting and
    both bytes are in the buffer; the flush comes 9 ms after the first
    byte, 5 ms after the second. *)
Lemma inbuffer_wait_restarts_on_each_byte :
  let b1 := fst (NetInBuffer.extend NetInBuffer.init [0x41] 0) in
  let b2 := fst (NetInBuffer.extend b1 [0x42] 4000) in
  NetInBuffer.monitor b1 = NetInBuffer.Timed 5000
  ∧ NetInBuffer.buffer_monitor b2 5000 = (b2, [])
  ∧ NetInBuffer.data (fst (NetInBuffer.buffer_monitor b2 5000)) = [0x41; 0x42]
  ∧ NetInBuffer.buffer_monitor b2 8999 = (b2, [])
  ∧ NetInBuffer.buffer_monitor b2 9000
    = (NetInBuffer.init,
       [Log (LogNetFlush (mkMsg NETSIO_DATA_BLOCK [0x41; 0x42]));
        ToHub (mkMsg NETSIO_DATA_BLOCK [0x41; 0x42]) None]).
Proof.
  repeat split.
Qed.

(** ** The byte appended on broadcast *)

Lemma send_to_all_datagrams `{NetsioConstants}
    (s : NetSIOServer.t) (msg : NetSIOMsg) (now now' : Z)
    (a : Address) (d : list Z) :
  SendTo a d ∈ snd (NetSIOServer.send_to_all s msg now now') →
  d = id msg :: arg msg ++ [NetSIOServer.sn s].
Proof.
  unfold NetSIOServer.send_to_all.
  set (sends := flat_map _ _).
  assert (Hsends : SendTo a d ∈ sends →
                   d = id msg :: arg msg ++ [NetSIOServer.sn s]).
  { subst sends. intros Hin.
    apply list_elem_of_In, in_flat_map in Hin as (c & _ & Hin).
    destruct (NetSIOClient.expired c now); [destruct Hin|].
    apply list_elem_of_In, send_to_client_only in Hin as [_ ->]. reflexivity. }
  assert (Hcut : SendTo a d ∈ effects_until_raise sends →
                 d = id msg :: arg msg ++ [NetSIOServer.sn s]).
  { intros Hin. apply Hsends, effects_until_raise_sub, Hin. }
  destruct (raised _); [exact Hcut|].
  destruct (existsb _ _); [|exact Hcut].
  destruct (NetSIOServer.expire_clients _ now') as [s2 eff] eqn:He.
  cbn [snd]. rewrite elem_of_app. intros [Hin|Hin]; [auto|].
  exfalso. revert He Hin. unfold NetSIOServer.expire_clients.
  generalize (filter (λ c, NetSIOClient.expired c now' = true)
    (snd <$> map_to_list
       (NetSIOServer.clients
          (NetSIOServer.mk (NetSIOServer.clients s)
             (Z.land (1 + NetSIOServer.sn s) 255) (NetSIOServer.inbuffer s))))).
  intros l.
  assert (Hgen : ∀ (l : list NetSIOClient.t) (acc : NetSIOServer.t * list effect),
            SendTo a d ∉ snd acc →
            SendTo a d ∉ snd (foldl
              (λ acc c,
                 let '(s', eff) :=
                   NetSIOServer.deregister_client (fst acc)
                     (NetSIOClient.address c) true in
                 (s', snd acc ++ eff)) acc l)).
  { clear. intros l. induction l as [|c l IH]; intros acc Hacc; [exact Hacc|].
    cbn [foldl]. apply IH.
    unfold NetSIOServer.deregister_client.
    destruct (NetSIOServer.clients (fst acc) !! NetSIOClient.address c);
      cbn [snd]; rewrite elem_of_app; intros [?|Hin]; try contradiction.
    - apply elem_of_cons in Hin as [?|Hin]; [discriminate|].
      apply list_elem_of_singleton in Hin. discriminate.
    - inversion Hin. }
  intros He Hin.
  eapply (Hgen l); [|rewrite He; exact Hin].
  cbn [snd]. intros Hnil. inversion Hnil.
Qed.

(** C9 against the code: the host sends COMMAND_ON for device 0x31 while
    one peripheral is registered.  [handle_host_msg] queues the message
    with its argument as it is, and the sender thread then broadcasts it
    with the counter of [send_to_all] appended: the datagram is
    [0x11, 0x31, 0x00], not [0x11, 0x31]. *)
Theorem broadcast_appends_byte_to_command_on :
  let s := server_after [[Byte.xc1]] in
  let h := NetSIOHub.mk (NetSIOManager.mk (Queue.mk 16 []) s) (Queue.mk 8 [])
             true (Some (AtDevHandler.mk true)) SyncRequest.init in
  let h1 := fst (fst (NetSIOHub.handle_host_msg h (mkMsg NETSIO_COMMAND_ON [0x31]))) in
  Queue.items (NetSIOManager.device_queue (NetSIOHub.device_manager h1))
  = [mkMsg NETSIO_COMMAND_ON [0x31]]
  ∧ snd <$> @NetSIOManager.net_out_step example_constants
              (NetSIOHub.device_manager h1) 10 10
    = Some [Log (LogSendToClient example_peer (mkMsg NETSIO_COMMAND_ON [0x31; 0x00]));
            SendTo example_peer [0x11; 0x31; 0x00]].
Proof.
  vm_compute. split; reflexivity.
Qed.

(** What the hub itself appends: [handle_host_msg] queues a message as it
    is, and [handle_host_msg_sync] appends the serial number of the new
    request to a message that is not a DATA_BLOCK. *)
Lemma host_msg_queued_unchanged (h : NetSIOHub.t) (msg : NetSIOMsg) :
  ¬ (id msg = NETSIO_COLD_RESET ∨ id msg = NETSIO_WARM_RESET) →
  Queue.full (NetSIOManager.device_queue (NetSIOHub.device_manager h)) = false →
  snd (NetSIOHub.handle_host_msg h msg) = Finished
  ∧ Queue.items (NetSIOManager.device_queue
                   (NetSIOHub.device_manager (fst (fst (NetSIOHub.handle_host_msg h msg)))))
    = Queue.items (NetSIOManager.device_queue (NetSIOHub.device_manager h)) ++ [msg].
Proof.
  intros Hreset Hroom.
  unfold NetSIOHub.handle_host_msg, NetSIOManager.to_peripheral.
  destruct (decide _) as [?|_]; [contradiction|].
  rewrite Hroom, put_when_room by exact Hroom. split; reflexivity.
Qed.

Lemma host_msg_sync_appends_request_sn `{NetsioConstants}
    (h : NetSIOHub.t) (msg : NetSIOMsg) :
  id msg ≠ NETSIO_DATA_BLOCK →
  ¬ (id msg = NETSIO_COLD_RESET ∨ id msg = NETSIO_WARM_RESET) →
  NetSIOManager.connected (NetSIOHub.device_manager h) = true →
  Queue.full (NetSIOManager.device_queue (NetSIOHub.device_manager h)) = false →
  let r := NetSIOHub.handle_host_msg_sync_send h msg in
  snd r = NetSIOHub.SyncWait
  ∧ Queue.items (NetSIOManager.device_queue (NetSIOHub.device_manager (fst (fst r))))
    = Queue.items (NetSIOManager.device_queue (NetSIOHub.device_manager h))
      ++ [mkMsg (id msg)
            (arg msg ++ [Z.land (SyncRequest.sn (NetSIOHub.sync h) + 1) 255])]
  ∧ SyncRequest.request (NetSIOHub.sync (fst (fst r))) = Some (id msg)
  ∧ SyncRequest.sn (NetSIOHub.sync (fst (fst r)))
    = Z.land (SyncRequest.sn (NetSIOHub.sync h) + 1) 255.
Proof.
  intros Hid Hreset Hconn Hroom r. subst r.
  destruct h as [dm hq ready hh sy]. cbn [NetSIOHub.device_manager] in *.
  unfold NetSIOHub.handle_host_msg_sync_send.
  destruct (decide (id msg = NETSIO_DATA_BLOCK)); [contradiction|].
  unfold SyncRequest.set_request, NetSIOHub.set_sync, NetSIOHub.set_host_queue.
  cbn [NetSIOHub.device_manager NetSIOHub.host_queue NetSIOHub.host_ready
       NetSIOHub.host_handler NetSIOHub.sync].
  rewrite Hconn. cbn [negb].
  unfold NetSIOHub.handle_host_msg, NetSIOManager.to_peripheral, arg_append.
  cbn [id arg NetSIOHub.device_manager].
  destruct (decide _) as [?|_]; [contradiction|].
  rewrite Hroom, put_when_room by exact Hroom.
  repeat split.
Qed.

(** ** More on the synchronous request slot *)

Lemma next_sn_mod (n : Z) : Z.land (n + 1) 255 = (n + 1) mod 256.
Proof. change 255 with (Z.ones 8). rewrite Z.land_ones by lia. reflexivity. Qed.

Lemma next_sn_differs (n : Z) : Z.land (n + 1) 255 ≠ n.
Proof. rewrite next_sn_mod. intros Heq. Z.div_mod_to_equations. lia. Qed.

(** X1: a response that carries the serial number [set_request] returned
    is stored, and [get_response] then returns it, whatever the timeout
    value, and leaves no request in flight. *)
Theorem sync_request_response_round_trip
    (s : SyncRequest.t) (req value : Z) (timout_value : option Z) :
  let s1 := fst (SyncRequest.set_request s req) in
  let sn := snd (SyncRequest.set_request s req) in
  let s2 := SyncRequest.set_response s1 value sn in
  SyncRequest.check_request s1 = (Some req, sn)
  ∧ SyncRequest.completed s1 = false
  ∧ snd (SyncRequest.get_response s2 timout_value) = Some value
  ∧ SyncRequest.request (fst (SyncRequest.get_response s2 timout_value)) = None
  ∧ SyncRequest.sn (fst (SyncRequest.get_response s2 timout_value)) = sn.
Proof.
  unfold SyncRequest.set_request, SyncRequest.set_response,
    SyncRequest.get_response, SyncRequest.check_request. simpl.
  destruct (decide _); [|contradiction]. simpl. repeat split.
Qed.

(** X2: a new request never accepts the serial number of the request
    before it, and an answered request accepts nothing more: the first
    matching response wins and every later one is dropped. *)
Theorem sync_stale_and_duplicate_responses_dropped
    (s : SyncRequest.t) (req v v' n : Z) :
  let s1 := fst (SyncRequest.set_request s req) in
  let sn := snd (SyncRequest.set_request s req) in
  SyncRequest.set_response s1 v (SyncRequest.sn s) = s1
  ∧ SyncRequest.set_response (SyncRequest.set_response s1 v sn) v' n
    = SyncRequest.set_response s1 v sn
  ∧ SyncRequest.response (SyncRequest.set_response (SyncRequest.set_response s1 v sn) v' n)
    = Some v.
Proof.
  unfold SyncRequest.set_request, SyncRequest.set_response. simpl.
  destruct (decide (Z.land (SyncRequest.sn s + 1) 255 = SyncRequest.sn s))
    as [Heq|_]; [destruct (next_sn_differs _ Heq)|].
  destruct (decide _); [|contradiction]. simpl. repeat split.
Qed.

Lemma sn_after_requests (s : SyncRequest.t) (req : Z) (n : nat) :
  SyncRequest.sn (Nat.iter (S n) (λ s, fst (SyncRequest.set_request s req)) s)
  = (SyncRequest.sn s + Z.of_nat (S n)) mod 256.
Proof.
  induction n as [|n IH].
  - simpl. apply next_sn_mod.
  - rewrite Nat.iter_succ. unfold SyncRequest.set_request at 1.
    cbn [fst SyncRequest.sn]. rewrite IH, next_sn_mod.
    rewrite Zplus_mod_idemp_l. f_equal. lia.
Qed.

(** X3: serial numbers count modulo 256: after [n >= 1] requests the
    serial number is the old one plus [n], modulo 256; it lies in 0..255,
    two requests fewer than 256 apart never share it, and after 256 more
    requests it comes back. *)
Theorem sync_serial_numbers_wrap (s : SyncRequest.t) (req : Z) (n k : nat) :
  let after (m : nat) :=
    SyncRequest.sn (Nat.iter m (λ s, fst (SyncRequest.set_request s req)) s) in
  after (S n) = (SyncRequest.sn s + Z.of_nat (S n)) mod 256
  ∧ 0 ≤ after (S n) ≤ 255
  ∧ ((0 < k < 256)%nat → after (S n + k)%nat ≠ after (S n))
  ∧ after (S n + 256)%nat = after (S n).
Proof.
  intros after. subst after. cbv beta.
  assert (Hk : ∀ k, (S n + k)%nat = S (n + k)) by (intros; lia).
  rewrite !Hk, !sn_after_requests.
  split; [reflexivity|]. split; [Z.div_mod_to_equations; lia|].
  split.
  - intros Hrange Heq. Z.div_mod_to_equations. lia.
  - Z.div_mod_to_equations. lia.
Qed.

Lemma sync_serial_numbers_wrap_witness :
  SyncRequest.sn
    (Nat.iter (1 + 254) (λ s, fst (SyncRequest.set_request s NETSIO_COMMAND_OFF_SYNC))
       SyncRequest.init)
  ≠ SyncRequest.sn
      (Nat.iter 1 (λ s, fst (SyncRequest.set_request s NETSIO_COMMAND_OFF_SYNC))
         SyncRequest.init).
Proof.
  apply (proj1 (proj2 (proj2 (sync_serial_numbers_wrap SyncRequest.init
                                 NETSIO_COMMAND_OFF_SYNC 0 254)))).
  lia.
Defined.

(** ** More on the routing of the hub *)

(** X4: with no peripheral registered, a sync request that is not a
    DATA_BLOCK is answered by the hub itself: nothing is queued for the
    peripherals, the host queue is emptied, a new serial number is taken,
    and the call returns the empty indicator with no request left in
    flight. *)
Theorem sync_without_device_returns_empty `{NetsioConstants}
    (h : NetSIOHub.t) (msg : NetSIOMsg) :
  id msg ≠ NETSIO_DATA_BLOCK →
  NetSIOManager.connected (NetSIOHub.device_manager h) = false →
  let r := NetSIOHub.handle_host_msg_sync_send h msg in
  let h1 := fst (fst r) in
  let w := NetSIOHub.handle_host_msg_sync_wait h1 in
  snd r = NetSIOHub.SyncWait
  ∧ NetSIOHub.device_manager h1 = NetSIOHub.device_manager h
  ∧ Queue.items (NetSIOHub.host_queue h1) = []
  ∧ snd w = Some ATDEV_EMPTY_SYNC
  ∧ SyncRequest.request (NetSIOHub.sync (fst w)) = None
  ∧ SyncRequest.sn (NetSIOHub.sync (fst w))
    = Z.land (SyncRequest.sn (NetSIOHub.sync h) + 1) 255.
Proof.
  intros Hid Hconn r h1 w. subst w h1 r.
  destruct h as [dm hq ready hh sy]. cbn [NetSIOHub.device_manager] in *.
  unfold NetSIOHub.handle_host_msg_sync_send.
  destruct (decide (id msg = NETSIO_DATA_BLOCK)); [contradiction|].
  unfold SyncRequest.set_request, NetSIOHub.set_sync, NetSIOHub.set_host_queue.
  cbn [NetSIOHub.device_manager NetSIOHub.host_queue NetSIOHub.host_ready
       NetSIOHub.host_handler NetSIOHub.sync].
  rewrite Hconn. cbn [negb fst snd].
  unfold NetSIOHub.handle_host_msg_sync_wait, SyncRequest.set_response,
    SyncRequest.get_response.
  cbn [NetSIOHub.sync SyncRequest.request SyncRequest.sn].
  destruct (decide _); [|contradiction].
  repeat split.
Qed.

Lemma sync_without_device_returns_empty_witness :
  snd (@NetSIOHub.handle_host_msg_sync_wait example_constants
         (fst (fst (@NetSIOHub.handle_host_msg_sync_send example_constants
                      (NetSIOHub.host_connected NetSIOHub.init (AtDevHandler.mk true))
                      (mkMsg NETSIO_COMMAND_OFF_SYNC [0x53])))))
  = Some 0.
Proof.
  apply (@sync_without_device_returns_empty example_constants
           (NetSIOHub.host_connected NetSIOHub.init (AtDevHandler.mk true))
           (mkMsg NETSIO_COMMAND_OFF_SYNC [0x53])).
  - vm_compute. discriminate.
  - reflexivity.
Defined.

(** X5: a DATA_BLOCK passed to [handle_host_msg_sync] takes no serial
    number: with room in the device queue it is queued as it is, the call
    returns the empty indicator at once, and the sync slot and the host
    queue are left as they were; with the device queue full the call
    sleeps in [put] instead. *)
Theorem sync_data_block_needs_no_response `{NetsioConstants}
    (h : NetSIOHub.t) (msg : NetSIOMsg) :
  id msg = NETSIO_DATA_BLOCK →
  let r := NetSIOHub.handle_host_msg_sync_send h msg in
  let h1 := fst (fst r) in
  NetSIOHub.sync h1 = NetSIOHub.sync h
  ∧ NetSIOHub.host_queue h1 = NetSIOHub.host_queue h
  ∧ (Queue.full (NetSIOManager.device_queue (NetSIOHub.device_manager h)) = false →
     snd r = NetSIOHub.SyncReturn ATDEV_EMPTY_SYNC
     ∧ Queue.items (NetSIOManager.device_queue (NetSIOHub.device_manager h1))
       = Queue.items (NetSIOManager.device_queue (NetSIOHub.device_manager h))
         ++ [msg])
  ∧ (Queue.full (NetSIOManager.device_queue (NetSIOHub.device_manager h)) = true →
     snd r = NetSIOHub.SyncStuck (BlockedOnPut msg)
     ∧ NetSIOHub.device_manager h1 = NetSIOHub.device_manager h).
Proof.
  intros Hid r h1. subst h1 r.
  unfold NetSIOHub.handle_host_msg_sync_send.
  destruct (decide (id msg = NETSIO_DATA_BLOCK)); [|contradiction].
  unfold NetSIOHub.handle_host_msg, NetSIOManager.to_peripheral.
  rewrite Hid.
  destruct (decide (NETSIO_DATA_BLOCK = NETSIO_COLD_RESET
                    ∨ NETSIO_DATA_BLOCK = NETSIO_WARM_RESET)) as [[?|?]|_];
    try discriminate.
  destruct (Queue.full _) eqn:Hfull.
  - rewrite put_when_full by exact Hfull. cbn.
    repeat split; try discriminate.
    destruct (NetSIOHub.device_manager h); reflexivity.
  - rewrite put_when_room by exact Hfull. cbn.
    repeat split; discriminate.
Qed.

Lemma sync_data_block_needs_no_response_witness :
  NetSIOHub.sync
    (fst (fst (@NetSIOHub.handle_host_msg_sync_send example_constants
                 NetSIOHub.init (mkMsg NETSIO_DATA_BLOCK [0x53; 0; 0]))))
  = SyncRequest.init.
Proof.
  apply (@sync_data_block_needs_no_response example_constants
           NetSIOHub.init (mkMsg NETSIO_DATA_BLOCK [0x53; 0; 0])).
  reflexivity.
Defined.

(** X6: [handle_device_msg] changes the sync slot for one kind of message
    only: a SYNC_RESPONSE whose first argument byte is the serial number
    of the request in flight, with the host attached.  Any other message
    leaves the slot as it is. *)
Theorem device_msg_changes_slot_only_for_matching_response `{NetsioConstants}
    (h : NetSIOHub.t) (msg : NetSIOMsg) :
  NetSIOHub.sync (fst (fst (NetSIOHub.handle_device_msg h msg))) ≠ NetSIOHub.sync h →
  NetSIOHub.host_ready h = true
  ∧ is_Some (SyncRequest.request (NetSIOHub.sync h))
  ∧ id msg = NETSIO_SYNC_RESPONSE
  ∧ arg msg !! 0%nat = Some (SyncRequest.sn (NetSIOHub.sync h)).
Proof.
  unfold NetSIOHub.handle_device_msg, SyncRequest.check_request.
  destruct (NetSIOHub.host_ready h); cbn [negb]; [|intros []; reflexivity].
  destruct (SyncRequest.request (NetSIOHub.sync h)) as [req|] eqn:Hreq.
  2: { intros Hne. destruct Hne. apply enqueue_for_host_keeps_sync. }
  assert (Hpass :
    NetSIOHub.sync (fst (fst
      (if decide (id msg = NETSIO_DATA_BYTE ∨ id msg = NETSIO_DATA_BLOCK)
       then (h, [LogDiscarding msg], Finished)
       else NetSIOHub.enqueue_for_host h msg [LogPassed msg])))
    = NetSIOHub.sync h).
  { destruct (decide _); [reflexivity | apply enqueue_for_host_keeps_sync]. }
  destruct (decide (id msg = NETSIO_SYNC_RESPONSE)) as [Hid|?];
    [|intros Hne; destruct (Hne Hpass)].
  destruct (arg msg !! 0%nat) as [a0|]; [|intros []; reflexivity].
  destruct (decide (a0 = SyncRequest.sn (NetSIOHub.sync h))) as [->|?];
    [|intros Hne; destruct (Hne Hpass)].
  intros _. eauto.
Qed.

Lemma device_msg_changes_slot_only_for_matching_response_witness :
  (mkMsg NETSIO_SYNC_RESPONSE [7; 0x01; 0x41; 0x00; 0x00]).(arg) !! 0%nat = Some 7.
Proof.
  apply (@device_msg_changes_slot_only_for_matching_response example_constants
           (NetSIOHub.mk NetSIOManager.init (Queue.mk 8 []) true
              (Some (AtDevHandler.mk true))
              (SyncRequest.mk 7 (Some NETSIO_COMMAND_OFF_SYNC) None false))
           (mkMsg NETSIO_SYNC_RESPONSE [7; 0x01; 0x41; 0x00; 0x00])).
  vm_compute. discriminate.
Defined.

(** X7: a SYNC_RESPONSE that answers the request in flight, is not marked
    empty and has fewer than five argument bytes raises [IndexError]
    after the ready-to-receive flag of the host handler has been cleared:
    nothing is stored and the request stays in flight.  One without a
    second argument byte raises before anything is touched. *)
Theorem short_sync_response_raises `{NetsioConstants}
    (h : NetSIOHub.t) (hh : AtDevHandler.t) (msg : NetSIOMsg)
    (req a1 : Z) (rest : list Z) :
  NetSIOHub.host_ready h = true →
  NetSIOHub.host_handler h = Some hh →
  SyncRequest.request (NetSIOHub.sync h) = Some req →
  id msg = NETSIO_SYNC_RESPONSE →
  (arg msg = [SyncRequest.sn (NetSIOHub.sync h)] →
   NetSIOHub.handle_device_msg h msg = (h, [], Raised IndexError))
  ∧ (arg msg = SyncRequest.sn (NetSIOHub.sync h) :: a1 :: rest →
     a1 ≠ NETSIO_EMPTY_SYNC → (length rest < 3)%nat →
     NetSIOHub.handle_device_msg h msg
     = (NetSIOHub.set_host_handler h (Some (AtDevHandler.mk false)), [],
        Raised IndexError)).
Proof.
  intros Hready Hhh Hreq Hid.
  unfold NetSIOHub.handle_device_msg, SyncRequest.check_request.
  rewrite Hready, Hreq, Hhh. cbn [negb].
  destruct (decide (id msg = NETSIO_SYNC_RESPONSE)); [|contradiction].
  split.
  - intros ->. cbn. destruct (decide _); [reflexivity|contradiction].
  - intros -> Ha1 Hlen. cbn.
    destruct (decide _); [|contradiction].
    destruct (decide (a1 = NETSIO_EMPTY_SYNC)); [contradiction|].
    destruct rest as [|a2 [|a3 [|a4 rest]]]; cbn in *; try reflexivity. lia.
Qed.

Lemma short_sync_response_raises_witness :
  @NetSIOHub.handle_device_msg example_constants
    (NetSIOHub.mk NetSIOManager.init (Queue.mk 8 []) true
       (Some (AtDevHandler.mk true))
       (SyncRequest.mk 7 (Some NETSIO_COMMAND_OFF_SYNC) None false))
    (mkMsg NETSIO_SYNC_RESPONSE [7; 0x01; 0x41])
  = (NetSIOHub.mk NetSIOManager.init (Queue.mk 8 []) true
       (Some (AtDevHandler.mk false))
       (SyncRequest.mk 7 (Some NETSIO_COMMAND_OFF_SYNC) None false),
     [], Raised IndexError).
Proof.
  apply (proj2 (@short_sync_response_raises example_constants
           (NetSIOHub.mk NetSIOManager.init (Queue.mk 8 []) true
              (Some (AtDevHandler.mk true))
              (SyncRequest.mk 7 (Some NETSIO_COMMAND_OFF_SYNC) None false))
           (AtDevHandler.mk true)
           (mkMsg NETSIO_SYNC_RESPONSE [7; 0x01; 0x41])
           NETSIO_COMMAND_OFF_SYNC 0x01 [0x41]
           eq_refl eq_refl eq_refl eq_refl)).
  - reflexivity.
  - vm_compute. discriminate.
  - simpl. lia.
Defined.

(** ** Queues and frames of the hub *)

Lemma put_outcome (q : Queue.t) (x : NetSIOMsg) :
  (Queue.full q = true ∧ Queue.put q x = Queue.Blocked q x)
  ∨ (Queue.full q = false
     ∧ Queue.put q x = Queue.Done (Queue.mk (Queue.maxsize q) (Queue.items q ++ [x]))).
Proof.
  destruct (Queue.full q) eqn:Hfull.
  - left. split; [reflexivity | apply put_when_full, Hfull].
  - right. split; [reflexivity | apply put_when_room, Hfull].
Qed.

Lemma room_means_below_bound (q : Queue.t) :
  0 < Queue.maxsize q → Queue.full q = false → Queue.qsize q < Queue.maxsize q.
Proof.
  unfold Queue.full. intros Hmax Hfull.
  apply andb_false_iff in Hfull as [Hfull|Hfull].
  - apply Z.ltb_ge in Hfull. lia.
  - apply Z.leb_gt in Hfull. exact Hfull.
Qed.

Lemma enqueue_for_host_frame `{NetsioConstants}
    (h : NetSIOHub.t) (msg : NetSIOMsg) (logs : list log_line) :
  let h' := fst (fst (NetSIOHub.enqueue_for_host h msg logs)) in
  h' = h
  ∨ (Queue.full (NetSIOHub.host_queue h) = false
     ∧ ∃ m, h' = NetSIOHub.set_host_queue h
                   (Queue.mk (Queue.maxsize (NetSIOHub.host_queue h))
                             (Queue.items (NetSIOHub.host_queue h) ++ [m]))).
Proof.
  unfold NetSIOHub.enqueue_for_host.
  match goal with
  | |- context [match ?r with inl _ => _ | inr _ => _ end] =>
      destruct r as [[msg' log1]|log1]; [|left; reflexivity]
  end.
  destruct (put_outcome (NetSIOHub.host_queue h) msg') as [[_ ->]|[Hroom ->]].
  - left. reflexivity.
  - right. split; [exact Hroom|]. exists msg'. reflexivity.
Qed.

(** X8: whatever a peripheral sends, [handle_device_msg] leaves the
    device manager and the attachment of the host alone, keeps the bound
    of the host queue, and either leaves the queue as it is or appends
    one message to a queue that had room; a queue within its bound stays
    within it. *)
Theorem device_msg_appends_at_most_one `{NetsioConstants}
    (h : NetSIOHub.t) (msg : NetSIOMsg) :
  let h' := fst (fst (NetSIOHub.handle_device_msg h msg)) in
  NetSIOHub.device_manager h' = NetSIOHub.device_manager h
  ∧ NetSIOHub.host_ready h' = NetSIOHub.host_ready h
  ∧ Queue.maxsize (NetSIOHub.host_queue h') = Queue.maxsize (NetSIOHub.host_queue h)
  ∧ (Queue.items (NetSIOHub.host_queue h') = Queue.items (NetSIOHub.host_queue h)
     ∨ (Queue.full (NetSIOHub.host_queue h) = false
        ∧ ∃ m, Queue.items (NetSIOHub.host_queue h')
               = Queue.items (NetSIOHub.host_queue h) ++ [m]))
  ∧ (0 < Queue.maxsize (NetSIOHub.host_queue h) →
     Queue.qsize (NetSIOHub.host_queue h) ≤ Queue.maxsize (NetSIOHub.host_queue h) →
     Queue.qsize (NetSIOHub.host_queue h') ≤ Queue.maxsize (NetSIOHub.host_queue h')).
Proof.
  intros h'.
  assert (Hcases :
    NetSIOHub.device_manager h' = NetSIOHub.device_manager h
    ∧ NetSIOHub.host_ready h' = NetSIOHub.host_ready h
    ∧ (NetSIOHub.host_queue h' = NetSIOHub.host_queue h
       ∨ (Queue.full (NetSIOHub.host_queue h) = false
          ∧ ∃ m, NetSIOHub.host_queue h'
                 = Queue.mk (Queue.maxsize (NetSIOHub.host_queue h))
                            (Queue.items (NetSIOHub.host_queue h) ++ [m])))).
  { subst h'. unfold NetSIOHub.handle_device_msg, SyncRequest.check_request.
    assert (Henq : ∀ logs,
      let e := fst (fst (NetSIOHub.enqueue_for_host h msg logs)) in
      NetSIOHub.device_manager e = NetSIOHub.device_manager h
      ∧ NetSIOHub.host_ready e = NetSIOHub.host_ready h
      ∧ (NetSIOHub.host_queue e = NetSIOHub.host_queue h
         ∨ (Queue.full (NetSIOHub.host_queue h) = false
            ∧ ∃ m, NetSIOHub.host_queue e
                   = Queue.mk (Queue.maxsize (NetSIOHub.host_queue h))
                              (Queue.items (NetSIOHub.host_queue h) ++ [m])))).
    { intros logs e. subst e.
      destruct (enqueue_for_host_frame h msg logs) as [->|(Hroom & m & ->)];
        [auto|].
      cbn. split; [reflexivity|]. split; [reflexivity|]. right. eauto. }
    repeat case_match; simplify_eq; cbn; try apply Henq; auto. }
  destruct Hcases as (Hdm & Hready & [Hq|(Hroom & m & Hq)]); rewrite Hq.
  - repeat split; auto.
  - cbn [Queue.maxsize Queue.items]. repeat split; eauto.
    intros Hmax _. pose proof (room_means_below_bound _ Hmax Hroom) as Hlt.
    unfold Queue.qsize in *. cbn [Queue.items]. rewrite length_app. cbn. lia.
Qed.

Lemma device_msg_appends_at_most_one_witness :
  Queue.qsize
    (NetSIOHub.host_queue
       (fst (fst (@NetSIOHub.handle_device_msg example_constants
                    (NetSIOHub.mk NetSIOManager.init full_host_queue true
                       (Some (AtDevHandler.mk true)) SyncRequest.init)
                    (mkMsg NETSIO_DATA_BYTE [0x41])))))
  ≤ 8.
Proof.
  apply (@device_msg_appends_at_most_one example_constants
           (NetSIOHub.mk NetSIOManager.init full_host_queue true
              (Some (AtDevHandler.mk true)) SyncRequest.init)
           (mkMsg NETSIO_DATA_BYTE [0x41])).
  - vm_compute. reflexivity.
  - vm_compute. discriminate.
Defined.

(** X9: while a sync request is in flight and the host is attached, a
    DATA_BYTE or DATA_BLOCK from a peripheral is discarded: the hub is
    left as it was and nothing is queued for the host. *)
Theorem data_discarded_while_request_in_flight `{NetsioConstants}
    (h : NetSIOHub.t) (msg : NetSIOMsg) :
  NetSIOHub.host_ready h = true →
  is_Some (SyncRequest.request (NetSIOHub.sync h)) →
  id msg = NETSIO_DATA_BYTE ∨ id msg = NETSIO_DATA_BLOCK →
  NetSIOHub.handle_device_msg h msg = (h, [LogDiscarding msg], Finished).
Proof.
  intros Hready [req Hreq] Hid.
  unfold NetSIOHub.handle_device_msg, SyncRequest.check_request.
  rewrite Hready, Hreq. cbn [negb].
  destruct (decide (id msg = NETSIO_SYNC_RESPONSE)) as [Hs|_].
  { destruct Hid as [Hid|Hid]; rewrite Hid in Hs; discriminate. }
  destruct (decide _); [reflexivity|contradiction].
Qed.

Lemma data_discarded_while_request_in_flight_witness :
  @NetSIOHub.handle_device_msg example_constants
    (NetSIOHub.mk NetSIOManager.init (Queue.mk 8 []) true
       (Some (AtDevHandler.mk true))
       (SyncRequest.mk 7 (Some NETSIO_COMMAND_OFF_SYNC) None false))
    (mkMsg NETSIO_DATA_BLOCK [0x43; 0x01])
  = (NetSIOHub.mk NetSIOManager.init (Queue.mk 8 []) true
       (Some (AtDevHandler.mk true))
       (SyncRequest.mk 7 (Some NETSIO_COMMAND_OFF_SYNC) None false),
     [LogDiscarding (mkMsg NETSIO_DATA_BLOCK [0x43; 0x01])], Finished).
Proof.
  apply (@data_discarded_while_request_in_flight example_constants).
  - reflexivity.
  - simpl. eauto.
  - right. reflexivity.
Defined.

(** X10: [handle_host_msg] touches the device queue only: the server, the
    host queue, the attachment of the host and the sync slot are left as
    they were, and a device queue within its bound stays within it. *)
Theorem host_msg_touches_device_queue_only (h : NetSIOHub.t) (msg : NetSIOMsg) :
  let h' := fst (fst (NetSIOHub.handle_host_msg h msg)) in
  let q := NetSIOManager.device_queue (NetSIOHub.device_manager h) in
  let q' := NetSIOManager.device_queue (NetSIOHub.device_manager h') in
  NetSIOManager.server (NetSIOHub.device_manager h')
  = NetSIOManager.server (NetSIOHub.device_manager h)
  ∧ NetSIOHub.host_queue h' = NetSIOHub.host_queue h
  ∧ NetSIOHub.host_ready h' = NetSIOHub.host_ready h
  ∧ NetSIOHub.host_handler h' = NetSIOHub.host_handler h
  ∧ NetSIOHub.sync h' = NetSIOHub.sync h
  ∧ Queue.maxsize q' = Queue.maxsize q
  ∧ (0 < Queue.maxsize q → Queue.qsize q ≤ Queue.maxsize q →
     Queue.qsize q' ≤ Queue.maxsize q').
Proof.
  intros h' q q'. subst h' q q'.
  unfold NetSIOHub.handle_host_msg, NetSIOManager.to_peripheral.
  destruct (decide _) as [Hreset|Hreset].
  - rewrite put_when_room by apply clear_queue_has_room. cbn.
    repeat split. unfold Queue.qsize. cbn. lia.
  - destruct (put_outcome (NetSIOManager.device_queue (NetSIOHub.device_manager h)) msg)
      as [[Hfull ->]|[Hroom ->]]; cbn; repeat split; auto.
    intros Hmax _. pose proof (room_means_below_bound _ Hmax Hroom) as Hlt.
    unfold Queue.qsize in *. cbn. rewrite length_app. cbn. lia.
Qed.

Lemma host_msg_touches_device_queue_only_witness :
  Queue.qsize
    (NetSIOManager.device_queue
       (NetSIOHub.device_manager
          (fst (fst (NetSIOHub.handle_host_msg
                       (NetSIOHub.mk (NetSIOManager.mk full_device_queue NetSIOServer.init)
                          (Queue.mk 8 []) true (Some (AtDevHandler.mk true))
                          SyncRequest.init)
                       (mkMsg NETSIO_COMMAND_ON [0x31]))))))
  ≤ 16.
Proof.
  apply (host_msg_touches_device_queue_only
           (NetSIOHub.mk (NetSIOManager.mk full_device_queue NetSIOServer.init)
              (Queue.mk 8 []) true (Some (AtDevHandler.mk true))
              SyncRequest.init)
           (mkMsg NETSIO_COMMAND_ON [0x31])).
  - vm_compute. reflexivity.
  - vm_compute. discriminate.
Defined.

(** X11: when the host goes away the host queue is emptied, and until a
    host attaches again every message from a peripheral is discarded
    without a trace: the hub is left as it was, a request in flight
    included. *)
Theorem device_msgs_discarded_after_host_disconnect `{NetsioConstants}
    (h : NetSIOHub.t) (msg : NetSIOMsg) :
  let h1 := NetSIOHub.host_disconnected h in
  Queue.items (NetSIOHub.host_queue h1) = []
  ∧ NetSIOHub.sync h1 = NetSIOHub.sync h
  ∧ NetSIOHub.device_manager h1 = NetSIOHub.device_manager h
  ∧ NetSIOHub.handle_device_msg h1 msg = (h1, [], Finished).
Proof. repeat split. Qed.

(** ** Runs of the inbound byte buffer *)

Lemma flush_conserves (b : NetInBuffer.t) :
  bytes_to_hub (snd (NetInBuffer.flush b)) ++ NetInBuffer.data (fst (NetInBuffer.flush b))
  = NetInBuffer.data b
  ∧ NetInBuffer.data (fst (NetInBuffer.flush b)) = [].
Proof.
  unfold NetInBuffer.flush. destruct (NetInBuffer.data b) as [|x l] eqn:Hd.
  - cbn. auto.
  - destruct (1 <? _); cbn; rewrite !app_nil_r; split; reflexivity.
Qed.


Lemma bytes_to_hub_app (e1 e2 : list effect) :
  bytes_to_hub (e1 ++ e2) = bytes_to_hub e1 ++ bytes_to_hub e2.
Proof. unfold bytes_to_hub. apply flat_map_app. Qed.



(** ** The client table *)

Lemma deregister_client_deletes `{NetsioConstants}
    (s : NetSIOServer.t) (a : Address) (expired : bool) :
  NetSIOServer.clients (fst (NetSIOServer.deregister_client s a expired))
  = delete a (NetSIOServer.clients s).
Proof.
  unfold NetSIOServer.deregister_client.
  destruct (NetSIOServer.clients s !! a) eqn:Ha; cbn; [reflexivity|].
  symmetry. apply delete_id, Ha.
Qed.

(** X13: [register_client] leaves one record for the address, with a
    fresh expiry.  A new client, or a known one whose credit is used up,
    gets [DEFAULT_CREDIT]; a known client with credit left keeps what it
    has, though the CREDIT_UPDATE that announces [DEFAULT_CREDIT] is sent
    to it all the same.  Clients at other addresses are not touched, and
    the hub is told of the connection last. *)
Theorem register_client_one_record `{NetsioConstants}
    (s : NetSIOServer.t) (a : Address) (now : Z) :
  let s' := fst (NetSIOServer.register_client s a now) in
  let eff := snd (NetSIOServer.register_client s a now) in
  (∃ c, NetSIOServer.clients s' !! a = Some c
        ∧ NetSIOClient.expire_time c = now + ALIVE_EXPIRATION
        ∧ NetSIOClient.credit c
          = match NetSIOServer.clients s !! a with
            | Some c0 => if NetSIOClient.credit c0 <=? 0 then DEFAULT_CREDIT
                         else NetSIOClient.credit c0
            | None => DEFAULT_CREDIT
            end
        ∧ SendTo (NetSIOClient.address c) [NETSIO_CREDIT_UPDATE; DEFAULT_CREDIT] ∈ eff)
  ∧ (∀ b, b ≠ a → NetSIOServer.clients s' !! b = NetSIOServer.clients s !! b)
  ∧ dom (NetSIOServer.clients s') = {[a]} ∪ dom (NetSIOServer.clients s)
  ∧ last eff = Some (ToHub (mkMsg NETSIO_DEVICE_CONNECT []) (Some a)).
Proof.
  intros s' eff. subst s' eff. unfold NetSIOServer.register_client.
  assert (Hmem : ∀ (c : NetSIOClient.t) (log : log_line),
            SendTo (NetSIOClient.address c) [NETSIO_CREDIT_UPDATE; DEFAULT_CREDIT]
            ∈ [Log log]
              ++ NetSIOServer.send_to_client c
                   (mkMsg NETSIO_CREDIT_UPDATE [DEFAULT_CREDIT])
              ++ [ToHub (mkMsg NETSIO_DEVICE_CONNECT []) (Some a)]).
  { intros c log. apply elem_of_app. right. apply elem_of_app. left.
    apply (send_to_client_sends c (mkMsg NETSIO_CREDIT_UPDATE [DEFAULT_CREDIT])).
    apply NETSIO_CREDIT_UPDATE_byte. }
  destruct (NetSIOServer.clients s !! a) as [c0|] eqn:Ha;
    cbn [fst snd NetSIOServer.clients NetSIOServer.set_clients];
    (split; [|split; [|split]]);
    try (intros b Hb; apply lookup_insert_ne; congruence);
    try apply dom_insert_L;
    try (rewrite !app_assoc; apply last_snoc).
  - eexists. split; [apply lookup_insert_eq|].
    split; [|split; [|apply Hmem]].
    + unfold NetSIOClient.update_credit. destruct (_ <=? _); reflexivity.
    + unfold NetSIOClient.update_credit. cbn [NetSIOClient.refresh NetSIOClient.credit].
      destruct (_ <=? _); reflexivity.
  - eexists. split; [apply lookup_insert_eq|].
    split; [|split; [|apply Hmem]]; reflexivity.
Qed.

(** X14: a client that connects and then disconnects leaves the table as
    it found it, and the hub hears of both; a DISCONNECT for an address
    that is not registered changes nothing and tells the hub nothing. *)
Theorem register_then_deregister `{NetsioConstants}
    (s : NetSIOServer.t) (a : Address) (now : Z) (expired : bool) :
  NetSIOServer.clients s !! a = None →
  let s1 := fst (NetSIOServer.register_client s a now) in
  NetSIOServer.deregister_client s a expired = (s, [])
  ∧ NetSIOServer.clients (fst (NetSIOServer.deregister_client s1 a expired))
    = NetSIOServer.clients s
  ∧ snd (NetSIOServer.deregister_client s1 a expired)
    = [Log (LogDeviceDisconnected a expired);
       ToHub (mkMsg NETSIO_DEVICE_DISCONNECT []) (Some a)]
  ∧ last (snd (NetSIOServer.register_client s a now))
    = Some (ToHub (mkMsg NETSIO_DEVICE_CONNECT []) (Some a)).
Proof.
  intros Ha s1. split; [|split; [|split]].
  - unfold NetSIOServer.deregister_client. rewrite Ha. reflexivity.
  - rewrite deregister_client_deletes. subst s1.
    unfold NetSIOServer.register_client. rewrite Ha.
    cbn [fst NetSIOServer.clients NetSIOServer.set_clients].
    rewrite delete_insert_eq. apply delete_id, Ha.
  - subst s1. unfold NetSIOServer.deregister_client, NetSIOServer.register_client.
    rewrite Ha. cbn [fst NetSIOServer.clients NetSIOServer.set_clients].
    rewrite lookup_insert_eq. reflexivity.
  - unfold NetSIOServer.register_client. rewrite Ha. cbn [snd].
    rewrite !app_assoc. apply last_snoc.
Qed.

Lemma register_then_deregister_witness :
  NetSIOServer.clients
    (fst (@NetSIOServer.deregister_client example_constants
            (fst (@NetSIOServer.register_client example_constants
                    NetSIOServer.init example_peer 0))
            example_peer false))
  = NetSIOServer.clients NetSIOServer.init.
Proof.
  apply (@register_then_deregister example_constants
           NetSIOServer.init example_peer 0 false).
  vm_compute. reflexivity.
Defined.

(** *** Every client sits under its own address *)

Lemma update_credit_address (c : NetSIOClient.t) (v threshold : Z) :
  NetSIOClient.address (fst (NetSIOClient.update_credit c v threshold))
  = NetSIOClient.address c.
Proof. unfold NetSIOClient.update_credit. destruct (_ <=? _); reflexivity. Qed.

Lemma register_client_keys `{NetsioConstants}
    (s : NetSIOServer.t) (a : Address) (now : Z) :
  keys_match s → keys_match (fst (NetSIOServer.register_client s a now)).
Proof.
  intros Hs. unfold NetSIOServer.register_client, keys_match.
  destruct (NetSIOServer.clients s !! a) as [c|] eqn:Hc;
    cbn [fst NetSIOServer.clients NetSIOServer.set_clients];
    apply map_Forall_insert_2; try exact Hs;
    rewrite update_credit_address; cbn; [exact (Hs a c Hc) | reflexivity].
Qed.

Lemma deregister_client_keys `{NetsioConstants}
    (s : NetSIOServer.t) (a : Address) (expired : bool) :
  keys_match s → keys_match (fst (NetSIOServer.deregister_client s a expired)).
Proof.
  intros Hs. unfold keys_match. rewrite deregister_client_deletes.
  apply map_Forall_delete, Hs.
Qed.

Lemma expire_clients_fold `{NetsioConstants}
    (l : list NetSIOClient.t) (acc : NetSIOServer.t * list effect) :
  NetSIOServer.clients
    (fst (foldl (λ acc c,
                   let '(s', eff) :=
                     NetSIOServer.deregister_client (fst acc)
                       (NetSIOClient.address c) true in
                   (s', snd acc ++ eff)) acc l))
  = foldl (λ m c, delete (NetSIOClient.address c) m)
          (NetSIOServer.clients (fst acc)) l.
Proof.
  revert acc. induction l as [|c l IH]; intros acc; [reflexivity|].
  cbn [foldl]. rewrite IH.
  destruct (NetSIOServer.deregister_client (fst acc) (NetSIOClient.address c) true)
    as [s1 eff1] eqn:Hd.
  cbn [fst]. f_equal.
  change s1 with (fst (s1, eff1)). rewrite <- Hd.
  apply deregister_client_deletes.
Qed.

Lemma lookup_fold_delete (l : list NetSIOClient.t)
    (m : gmap Address NetSIOClient.t) (k : Address) :
  foldl (λ m c, delete (NetSIOClient.address c) m) m l !! k
  = if decide (k ∈ NetSIOClient.address <$> l) then None else m !! k.
Proof.
  revert m. induction l as [|c l IH]; intros m; [reflexivity|].
  cbn [foldl]. rewrite IH. rewrite fmap_cons.
  destruct (decide (k ∈ NetSIOClient.address <$> l)) as [Hin|Hnin].
  - rewrite decide_True by (apply elem_of_cons; auto). reflexivity.
  - destruct (decide (k = NetSIOClient.address c)) as [->|Hne].
    + rewrite decide_True by (apply elem_of_cons; auto). apply lookup_delete_eq.
    + rewrite decide_False by (rewrite elem_of_cons; tauto).
      apply lookup_delete_ne. congruence.
Qed.

Lemma expire_clients_clients `{NetsioConstants} (s : NetSIOServer.t) (now : Z) :
  NetSIOServer.clients (fst (NetSIOServer.expire_clients s now))
  = foldl (λ m c, delete (NetSIOClient.address c) m) (NetSIOServer.clients s)
      (filter (λ c, NetSIOClient.expired c now = true)
              (snd <$> map_to_list (NetSIOServer.clients s))).
Proof. unfold NetSIOServer.expire_clients. apply expire_clients_fold. Qed.

Lemma fold_delete_keys (l : list NetSIOClient.t) (m : gmap Address NetSIOClient.t) :
  map_Forall (λ a c, NetSIOClient.address c = a) m →
  map_Forall (λ a c, NetSIOClient.address c = a)
    (foldl (λ m c, delete (NetSIOClient.address c) m) m l).
Proof.
  revert m. induction l as [|c l IH]; intros m Hm; [exact Hm|].
  cbn [foldl]. apply IH, map_Forall_delete, Hm.
Qed.

Lemma expire_clients_keys `{NetsioConstants} (s : NetSIOServer.t) (now : Z) :
  keys_match s → keys_match (fst (NetSIOServer.expire_clients s now)).
Proof.
  intros Hs. unfold keys_match. rewrite expire_clients_clients.
  apply fold_delete_keys, Hs.
Qed.

Lemma send_to_all_keys `{NetsioConstants}
    (s : NetSIOServer.t) (msg : NetSIOMsg) (now now' : Z) :
  keys_match s → keys_match (fst (NetSIOServer.send_to_all s msg now now')).
Proof.
  intros Hs. unfold NetSIOServer.send_to_all.
  destruct (raised _); [exact Hs|].
  destruct (existsb _ _); [|exact Hs].
  destruct (NetSIOServer.expire_clients _ now') as [s2 eff] eqn:He.
  change s2 with (fst (s2, eff)). rewrite <- He.
  apply expire_clients_keys. exact Hs.
Qed.

Lemma credit_clients_keys `{NetsioConstants} (s : NetSIOServer.t) (hq : Queue.t) :
  keys_match s → keys_match (fst (NetSIOServer.credit_clients s hq)).
Proof.
  intros Hs. unfold NetSIOServer.credit_clients.
  destruct (2 <=? _); [|exact Hs].
  unfold keys_match. cbn. apply map_Forall_fmap.
  intros a c Hc. cbn. rewrite update_credit_address. exact (Hs a c Hc).
Qed.

Lemma handle_keys `{NetsioConstants}
    (s : NetSIOServer.t) (hq : Queue.t) (ca : Address)
    (data : list Byte.byte) (now : Z) (s' : NetSIOServer.t) (eff : list effect) :
  keys_match s →
  NetSIOServer.handle s hq ca data now = Some (s', eff) →
  keys_match s'.
Proof.
  intros Hs Hh. unfold NetSIOServer.handle in Hh.
  destruct data as [|b rest]; [discriminate|].
  injection Hh as Hh. cbn [id arg] in Hh.
  revert Hh. unfold NetSIOServer.get_client.
  assert (Hset : ∀ c b', NetSIOClient.address c = ca →
            keys_match
              (NetSIOServer.set_inbuffer
                 (NetSIOServer.set_clients s (<[ca:=c]> (NetSIOServer.clients s)))
                 b')).
  { intros c b' Hc. unfold keys_match. cbn.
    apply map_Forall_insert_2; [exact Hc | exact Hs]. }
  assert (Hset' : ∀ c, NetSIOClient.address c = ca →
            keys_match
              (NetSIOServer.set_clients s (<[ca:=c]> (NetSIOServer.clients s)))).
  { intros c Hc. unfold keys_match. cbn.
    apply map_Forall_insert_2; [exact Hc | exact Hs]. }
  assert (Hfst : ∀ r : NetSIOServer.t * list effect,
            keys_match (fst r) → r = (s', eff) → keys_match s').
  { intros r Hr ->. exact Hr. }
  destruct (_ <? NETSIO_CONN_MGMT).
  - destruct (NetSIOServer.clients s !! ca) as [client|] eqn:Hc;
      [|apply Hfst, Hs].
    pose proof (Hs ca client Hc) as Hk. cbn in Hk.
    destruct (NetSIOClient.expired client now).
    + apply Hfst, deregister_client_keys, Hs.
    + destruct (decide _).
      * destruct (NetInBuffer.extend _ _ _) as [b' eb]. apply Hfst, Hset, Hk.
      * destruct (NetInBuffer.flush _) as [b' eb]. apply Hfst, Hset, Hk.
  - destruct (decide _); [apply Hfst, deregister_client_keys, Hs|].
    destruct (decide _); [apply Hfst, register_client_keys, Hs|].
    destruct (decide _); [apply Hfst, Hs|].
    destruct (decide _).
    { destruct (NetSIOServer.clients s !! ca) as [client|] eqn:Hc;
        [|apply Hfst, Hs].
      pose proof (Hs ca client Hc) as Hk. cbn in Hk.
      apply Hfst. cbn [fst]. apply Hset'.
      destruct (NetSIOServer.byte_to_Z <$> rest); [exact Hk|].
      rewrite update_credit_address. exact Hk. }
    destruct (decide _); [|apply Hfst, Hs].
    destruct (NetSIOServer.clients s !! ca) as [client|] eqn:Hc;
      [|apply Hfst, Hs].
    pose proof (Hs ca client Hc) as Hk. cbn in Hk.
    destruct (NetSIOServer.byte_to_Z <$> rest) as [|a0 args]; [apply Hfst, Hs|].
    destruct (2 <=? _).
    + destruct (NetSIOClient.update_credit _ (DEFAULT_CREDIT - Queue.qsize hq) 0)
        as [c2 updated] eqn:Hu.
      apply Hfst. cbn [fst]. apply Hset'.
      change c2 with (fst (c2, updated)). rewrite <- Hu.
      rewrite !update_credit_address. exact Hk.
    + apply Hfst. cbn [fst]. apply Hset'.
      rewrite update_credit_address. exact Hk.
Qed.

Lemma reachable_keys_match `{NetsioConstants} (s : NetSIOServer.t) :
  reachable s → keys_match s.
Proof.
  unfold reachable.
  apply (rtc_ind_r keys_match NetSIOServer.init).
  - unfold keys_match. apply map_Forall_empty.
  - intros y z _ Hstep IH. destruct Hstep.
    + eapply handle_keys; eassumption.
    + apply credit_clients_keys, IH.
    + apply send_to_all_keys, IH.
    + exact IH.
Qed.

(** X15: in every state the server can be in, each client is stored
    under the address it records: datagrams are sent to the address the
    client was looked up by, and a client is removed under the key it was
    registered with. *)
Theorem client_stored_under_own_address `{NetsioConstants}
    (s : NetSIOServer.t) (a : Address) (c : NetSIOClient.t) :
  reachable s →
  NetSIOServer.clients s !! a = Some c →
  NetSIOClient.address c = a.
Proof. intros Hreach Hc. exact (reachable_keys_match s Hreach a c Hc). Qed.

(** X16: when every client is stored under its own address,
    [expire_clients] removes the clients whose deadline has passed at the
    given time, and no others: a client whose deadline has not passed is
    still registered afterwards, unchanged. *)
Theorem expire_clients_removes_expired_only `{NetsioConstants}
    (s : NetSIOServer.t) (now : Z) (a : Address) :
  keys_match s →
  NetSIOServer.clients (fst (NetSIOServer.expire_clients s now)) !! a
  = match NetSIOServer.clients s !! a with
    | Some c => if NetSIOClient.expired c now then None else Some c
    | None => None
    end.
Proof.
  intros Hkeys. rewrite expire_clients_clients, lookup_fold_delete.
  destruct (decide _) as [Hin|Hnin].
  - apply list_elem_of_fmap in Hin as (c & -> & Hc).
    apply list_elem_of_filter in Hc as [Hexp Hc].
    apply value_has_key in Hc as [k Hk].
    pose proof (Hkeys k c Hk) as Hkc. cbn in Hkc. rewrite Hkc, Hk, Hexp.
    reflexivity.
  - destruct (NetSIOServer.clients s !! a) as [c|] eqn:Ha; [|reflexivity].
    destruct (NetSIOClient.expired c now) eqn:Hexp; [|reflexivity].
    destruct Hnin. apply list_elem_of_fmap. exists c. split.
    + symmetry. exact (Hkeys a c Ha).
    + apply list_elem_of_filter. split; [exact Hexp|].
      apply (client_in_values _ a), Ha.
Qed.

Lemma expire_clients_removes_expired_only_witness :
  NetSIOServer.clients
    (fst (@NetSIOServer.expire_clients example_constants
            server_with_waiting_client 20000001))
    !! example_peer
  = None.
Proof.
  rewrite (@expire_clients_removes_expired_only example_constants
             server_with_waiting_client 20000001 example_peer).
  - vm_compute. reflexivity.
  - intros k c. unfold server_with_waiting_client. cbn.
    intros Hk. apply lookup_singleton_Some in Hk as [<- <-]. reflexivity.
Defined.








(** X18: a datagram from an address that is not registered never reaches
    the hub and never changes the server, unless it is a DEVICE_CONNECT;
    the only datagram it can draw is the answer to a PING_REQUEST. *)
Theorem unregistered_sender_is_ignored `{NetsioConstants}
    (s : NetSIOServer.t) (hq : Queue.t) (ca : Address)
    (b : Byte.byte) (rest : list Byte.byte) (now : Z) :
  NetSIOServer.clients s !! ca = None →
  NetSIOServer.byte_to_Z b < NETSIO_CONN_MGMT
  ∨ NetSIOServer.byte_to_Z b = NETSIO_DEVICE_DISCONNECT
  ∨ NetSIOServer.byte_to_Z b ≠ NETSIO_DEVICE_CONNECT →
  ∃ eff,
    NetSIOServer.handle s hq ca (b :: rest) now = Some (s, eff)
    ∧ (eff = []
       ∨ (NetSIOServer.byte_to_Z b = NETSIO_PING_REQUEST
          ∧ eff = NetSIOServer.send_to_client (NetSIOClient.init ca now)
                    (mkMsg NETSIO_PING_RESPONSE []))).
Proof.
  intros Hca Hid.
  unfold NetSIOServer.handle, NetSIOServer.get_client,
    NetSIOServer.deregister_client. cbn [id arg]. rewrite Hca.
  destruct (Z.ltb_spec (NetSIOServer.byte_to_Z b) NETSIO_CONN_MGMT) as [Hlt|Hge];
    [eauto|].
  destruct (decide (_ = NETSIO_DEVICE_DISCONNECT)) as [Hd|Hd]; [eauto|].
  destruct (decide (_ = NETSIO_DEVICE_CONNECT)) as [Hc|Hc].
  { destruct Hid as [?|[?|?]]; [lia|contradiction|contradiction]. }
  destruct (decide (_ = NETSIO_PING_REQUEST)); [eauto|].
  destruct (decide (_ = NETSIO_ALIVE_REQUEST)); [eauto|].
  destruct (decide (_ = NETSIO_CREDIT_STATUS)); eauto.
Qed.

Lemma unregistered_sender_is_ignored_witness :
  ∃ eff,
    @NetSIOServer.handle example_constants NetSIOServer.init (Queue.mk 8 [])
      example_peer [Byte.x02; Byte.x53] 0
    = Some (NetSIOServer.init, eff)
    ∧ (eff = []
       ∨ (NetSIOServer.byte_to_Z Byte.x02 = @NETSIO_PING_REQUEST example_constants
          ∧ eff = @NetSIOServer.send_to_client example_constants
                    (@NetSIOClient.init example_constants example_peer 0)
                    (mkMsg (@NETSIO_PING_RESPONSE example_constants) []))).
Proof.
  apply (@unregistered_sender_is_ignored example_constants NetSIOServer.init
           (Queue.mk 8 []) example_peer Byte.x02 [Byte.x53] 0).
  - vm_compute. reflexivity.
  - left. vm_compute. reflexivity.
Defined.

Lemma flat_map_all_nil {A B} (g : A → list B) (l : list A) :
  (∀ x, x ∈ l → g x = []) → flat_map g l = [].
Proof.
  induction l as [|x l IH]; intros Hall; [reflexivity|].
  cbn. rewrite (Hall x) by (apply elem_of_cons; auto).
  apply IH. intros y Hy. apply Hall, elem_of_cons. auto.
Qed.

(** X19: a credit recomputation leaves no client waiting when there is
    room: if the recomputed credit is at least 2, every client has a
    stored credit above 0 afterwards; and a second recomputation against
    the same host queue changes nothing and sends nothing. *)
Theorem credit_clients_is_idempotent `{NetsioConstants}
    (s : NetSIOServer.t) (hq : Queue.t) :
  let s1 := fst (NetSIOServer.credit_clients s hq) in
  (2 ≤ DEFAULT_CREDIT - Queue.qsize hq →
   ∀ a c, NetSIOServer.clients s1 !! a = Some c → 0 < NetSIOClient.credit c)
  ∧ NetSIOServer.credit_clients s1 hq = (s1, []).
Proof.
  intros s1. subst s1. unfold NetSIOServer.credit_clients.
  set (credit := DEFAULT_CREDIT - Queue.qsize hq).
  destruct (Z.leb_spec 2 credit) as [Hge|Hlt].
  - cbn [fst NetSIOServer.clients NetSIOServer.set_clients
         NetSIOServer.sn NetSIOServer.inbuffer].
    assert (Hpos : ∀ a c,
              ((λ c, fst (NetSIOClient.update_credit c credit 0))
                 <$> NetSIOServer.clients s) !! a = Some c →
              0 < NetSIOClient.credit c).
    { intros a c. rewrite lookup_fmap.
      destruct (NetSIOServer.clients s !! a) as [c0|]; [|discriminate].
      cbn. intros [= <-]. unfold NetSIOClient.update_credit.
      destruct (Z.leb_spec (NetSIOClient.credit c0) 0); cbn; lia. }
    split; [intros _; exact Hpos|].
    unfold NetSIOServer.set_clients. cbn [NetSIOServer.clients
      NetSIOServer.sn NetSIOServer.inbuffer]. f_equal.
    + f_equal. apply map_eq. intros a. rewrite !lookup_fmap.
      destruct (NetSIOServer.clients s !! a) as [c0|]; [|reflexivity].
      cbn. f_equal. unfold NetSIOClient.update_credit.
      destruct (Z.leb_spec (NetSIOClient.credit c0) 0) as [?|Hgt]; cbn.
      * destruct (Z.leb_spec credit 0); [lia|reflexivity].
      * destruct (Z.leb_spec (NetSIOClient.credit c0) 0); [lia|reflexivity].
    + apply flat_map_all_nil. intros c Hc.
      apply value_has_key in Hc as [a Ha].
      apply Hpos in Ha. unfold NetSIOClient.update_credit.
      destruct (Z.leb_spec (NetSIOClient.credit c) 0); [lia|reflexivity].
  - cbn [fst]. split; [lia|].
    destruct (Z.leb_spec 2 credit); [lia|reflexivity].
Qed.

Lemma credit_clients_is_idempotent_witness :
  2 ≤ DEFAULT_CREDIT - Queue.qsize (Queue.mk 8 [])
  ∧ (∀ a c,
       NetSIOServer.clients
         (fst (@NetSIOServer.credit_clients example_constants
                 server_with_waiting_client (Queue.mk 8 []))) !! a = Some c →
       0 < NetSIOClient.credit c)
  ∧ @NetSIOServer.credit_clients example_constants
      (fst (@NetSIOServer.credit_clients example_constants
              server_with_waiting_client (Queue.mk 8 [])))
      (Queue.mk 8 [])
    = (fst (@NetSIOServer.credit_clients example_constants
              server_with_waiting_client (Queue.mk 8 [])), []).
Proof.
  assert (Hroom : 2 ≤ DEFAULT_CREDIT - Queue.qsize (Queue.mk 8 []))
    by (vm_compute; discriminate).
  split; [exact Hroom|].
  destruct (@credit_clients_is_idempotent example_constants
              server_with_waiting_client (Queue.mk 8 [])) as [Hpos Hsame].
  split; [exact (Hpos Hroom)|exact Hsame].
Defined.

(** X20: a CREDIT_STATUS from a registered client stores the announced
    credit when the stored credit is at most 10, and draws an immediate
    CREDIT_UPDATE exactly when that leaves a stored credit of 0 or less
    and the host queue leaves at least 2 of [DEFAULT_CREDIT]; the client
    then holds the recomputed credit.  The expiry deadline of the client
    is not refreshed by a CREDIT_STATUS. *)
Theorem credit_status_top_up `{NetsioConstants}
    (s : NetSIOServer.t) (hq : Queue.t) (ca : Address) (client : NetSIOClient.t)
    (b a0 : Byte.byte) (rest : list Byte.byte) (now : Z) :
  NetSIOServer.byte_to_Z b = NETSIO_CREDIT_STATUS →
  NETSIO_CONN_MGMT ≤ NETSIO_CREDIT_STATUS →
  NETSIO_CREDIT_STATUS ≠ NETSIO_DEVICE_DISCONNECT →
  NETSIO_CREDIT_STATUS ≠ NETSIO_DEVICE_CONNECT →
  NETSIO_CREDIT_STATUS ≠ NETSIO_PING_REQUEST →
  NETSIO_CREDIT_STATUS ≠ NETSIO_ALIVE_REQUEST →
  NetSIOServer.clients s !! ca = Some client →
  let announced := NetSIOServer.byte_to_Z a0 in
  let avail := DEFAULT_CREDIT - Queue.qsize hq in
  let stored := if NetSIOClient.credit client <=? 10 then announced
                else NetSIOClient.credit client in
  ∃ s' eff c',
    NetSIOServer.handle s hq ca (b :: a0 :: rest) now = Some (s', eff)
    ∧ NetSIOServer.clients s' !! ca = Some c'
    ∧ NetSIOClient.expire_time c' = NetSIOClient.expire_time client
    ∧ NetSIOClient.address c' = NetSIOClient.address client
    ∧ (2 ≤ avail ∧ stored ≤ 0 →
       NetSIOClient.credit c' = avail
       ∧ SendTo (NetSIOClient.address client) [NETSIO_CREDIT_UPDATE; avail] ∈ eff)
    ∧ (avail < 2 ∨ 0 < stored →
       NetSIOClient.credit c' = stored ∧ eff = []).
Proof.
  intros Hb Hmgmt Hd Hc Hp Ha Hclient announced avail stored.
  unfold NetSIOServer.handle, NetSIOServer.get_client. cbn [id arg].
  rewrite Hb, Hclient.
  destruct (Z.ltb_spec NETSIO_CREDIT_STATUS NETSIO_CONN_MGMT); [lia|].
  destruct (decide (_ = NETSIO_DEVICE_DISCONNECT)); [contradiction|].
  destruct (decide (_ = NETSIO_DEVICE_CONNECT)); [contradiction|].
  destruct (decide (_ = NETSIO_PING_REQUEST)); [contradiction|].
  destruct (decide (_ = NETSIO_ALIVE_REQUEST)); [contradiction|].
  destruct (decide (_ = NETSIO_CREDIT_STATUS)); [|contradiction].
  rewrite fmap_cons. fold announced avail.
  assert (Hc1 : NetSIOClient.update_credit client announced 10
                = (NetSIOClient.mk (NetSIOClient.address client)
                     (NetSIOClient.expire_time client) stored,
                   NetSIOClient.credit client <=? 10)).
  { unfold NetSIOClient.update_credit. subst stored.
    destruct (NetSIOClient.credit client <=? 10); [reflexivity|].
    destruct client; reflexivity. }
  rewrite Hc1. cbn [fst].
  unfold NetSIOClient.update_credit at 1.
  cbn [NetSIOClient.credit NetSIOClient.address NetSIOClient.expire_time].
  destruct (Z.leb_spec 2 avail) as [Hge|Hlt].
  - destruct (Z.leb_spec stored 0) as [Hle|Hgt].
    + eexists _, _, _. split; [reflexivity|].
      cbn [NetSIOServer.clients NetSIOServer.set_clients].
      split; [apply lookup_insert_eq|]. cbn.
      split; [reflexivity|]. split; [reflexivity|]. split.
      * intros _. split; [reflexivity|].
        apply (send_to_client_sends
                 (NetSIOClient.mk (NetSIOClient.address client)
                    (NetSIOClient.expire_time client) avail)
                 (mkMsg NETSIO_CREDIT_UPDATE [avail])).
        apply NETSIO_CREDIT_UPDATE_byte.
      * intros [?|?]; lia.
    + eexists _, _, _. split; [reflexivity|].
      cbn [NetSIOServer.clients NetSIOServer.set_clients].
      split; [apply lookup_insert_eq|]. cbn.
      split; [reflexivity|]. split; [reflexivity|]. split.
      * intros [_ ?]. lia.
      * intros _. split; reflexivity.
  - eexists _, _, _. split; [reflexivity|].
    cbn [NetSIOServer.clients NetSIOServer.set_clients].
    split; [apply lookup_insert_eq|]. cbn.
    split; [reflexivity|]. split; [reflexivity|]. split.
    + intros [? _]. lia.
    + intros _. split; reflexivity.
Qed.

Lemma credit_status_top_up_witness :
  ∃ s' eff c',
    @NetSIOServer.handle example_constants server_with_waiting_client
      (Queue.mk 8 []) example_peer [Byte.xc6; Byte.x00] 5 = Some (s', eff)
    ∧ NetSIOServer.clients s' !! example_peer = Some c'
    ∧ NetSIOClient.credit c' = 3
    ∧ NetSIOClient.expire_time c' = 20000000.
Proof.
  destruct (@credit_status_top_up example_constants server_with_waiting_client
              (Queue.mk 8 []) example_peer
              (NetSIOClient.mk example_peer 20000000 0)
              Byte.xc6 Byte.x00 [] 5
              eq_refl ltac:(vm_compute; discriminate)
              ltac:(vm_compute; discriminate) ltac:(vm_compute; discriminate)
              ltac:(vm_compute; discriminate) ltac:(vm_compute; discriminate)
              ltac:(vm_compute; reflexivity))
    as (s' & eff & c' & Hrun & Hc' & Hexp & _ & Htop & _).
  exists s', eff, c'. split; [exact Hrun|]. split; [exact Hc'|].
  split; [|exact Hexp].
  apply Htop. vm_compute. split; discriminate.
Defined.

(** X21: an event other than DATA_BYTE from a registered client whose
    deadline has not passed flushes the byte buffer first: the buffered
    bytes go to the hub before the event, the buffer is empty afterwards,
    and the deadline of the client is refreshed. *)
Theorem event_flushes_buffer_first `{NetsioConstants}
    (s : NetSIOServer.t) (hq : Queue.t) (ca : Address) (client : NetSIOClient.t)
    (b : Byte.byte) (rest : list Byte.byte) (now : Z) :
  NetSIOServer.byte_to_Z b < NETSIO_CONN_MGMT →
  NetSIOServer.byte_to_Z b ≠ NETSIO_DATA_BYTE →
  NetSIOServer.clients s !! ca = Some client →
  NetSIOClient.expired client now = false →
  let msg := mkMsg (NetSIOServer.byte_to_Z b) (NetSIOServer.byte_to_Z <$> rest) in
  ∃ s' eff,
    NetSIOServer.handle s hq ca (b :: rest) now = Some (s', eff)
    ∧ eff = snd (NetInBuffer.flush (NetSIOServer.inbuffer s)) ++ [ToHub msg (Some ca)]
    ∧ bytes_to_hub eff = NetInBuffer.data (NetSIOServer.inbuffer s) ++ arg msg
    ∧ last eff = Some (ToHub msg (Some ca))
    ∧ NetInBuffer.data (NetSIOServer.inbuffer s') = []
    ∧ NetSIOServer.clients s' !! ca = Some (NetSIOClient.refresh client now).
Proof.
  intros Hlt Hne Hclient Hexp msg.
  unfold NetSIOServer.handle, NetSIOServer.get_client. cbn [id arg].
  destruct (Z.ltb_spec (NetSIOServer.byte_to_Z b) NETSIO_CONN_MGMT); [|lia].
  rewrite Hclient, Hexp.
  destruct (decide (_ = NETSIO_DATA_BYTE)); [contradiction|].
  cbn [NetSIOServer.inbuffer NetSIOServer.set_clients].
  pose proof (flush_conserves (NetSIOServer.inbuffer s)) as [Hcons Hnil].
  destruct (NetInBuffer.flush (NetSIOServer.inbuffer s)) as [b' eb].
  cbn [fst snd] in *.
  eexists _, _. split; [reflexivity|]. split; [reflexivity|].
  split; [|split; [apply last_snoc|split]].
  - rewrite bytes_to_hub_app. rewrite Hnil, app_nil_r in Hcons.
    rewrite Hcons. cbn. rewrite app_nil_r. reflexivity.
  - cbn. exact Hnil.
  - cbn. apply lookup_insert_eq.
Qed.

Lemma client_stored_under_own_address_witness :
  NetSIOClient.address (NetSIOClient.mk example_peer 20000000 3) = example_peer.
Proof.
  apply (@client_stored_under_own_address example_constants
           (server_after [[Byte.xc1]]) example_peer
           (NetSIOClient.mk example_peer 20000000 3)).
  - unfold reachable. apply rtc_once.
    apply (@step_handle example_constants NetSIOServer.init (Queue.mk 8 [])
             example_peer [Byte.xc1] 0 _
             (snd (default (NetSIOServer.init, [])
                     (@NetSIOServer.handle example_constants NetSIOServer.init
                        (Queue.mk 8 []) example_peer [Byte.xc1] 0)))).
    vm_compute. reflexivity.
  - vm_compute. reflexivity.
Defined.

Lemma event_flushes_buffer_first_witness :
  ∃ s' eff,
    @NetSIOServer.handle example_constants
      (NetSIOServer.mk
         (NetSIOServer.clients (server_after [[Byte.xc1]])) 0
         (NetInBuffer.mk [0x43; 0x01] (NetInBuffer.Timed 5000)))
      (Queue.mk 8 []) example_peer [Byte.x81; Byte.x07; Byte.x00] 10
    = Some (s', eff)
    ∧ bytes_to_hub eff = [0x43; 0x01] ++ [0x07; 0x00]
    ∧ NetInBuffer.data (NetSIOServer.inbuffer s') = [].
Proof.
  destruct (@event_flushes_buffer_first example_constants
              (NetSIOServer.mk
                 (NetSIOServer.clients (server_after [[Byte.xc1]])) 0
                 (NetInBuffer.mk [0x43; 0x01] (NetInBuffer.Timed 5000)))
              (Queue.mk 8 []) example_peer
              (NetSIOClient.mk example_peer 20000000 3)
              Byte.x81 [Byte.x07; Byte.x00] 10
              ltac:(vm_compute; reflexivity) ltac:(vm_compute; discriminate)
              ltac:(vm_compute; reflexivity) ltac:(vm_compute; reflexivity))
    as (s' & eff & Hrun & _ & Hbytes & _ & Hnil & _).
  exists s', eff. split; [exact Hrun|]. split; [exact Hbytes | exact Hnil].
Defined.

(** ** Messages to the emulator *)

Lemma le_bytes_length (n : nat) (v : Z) : length (Struct.le_bytes n v) = n.
Proof. revert v. induction n as [|n IH]; intros v; simpl; [reflexivity|]. rewrite IH. reflexivity. Qed.

Lemma le_value_le_bytes (n : nat) (v : Z) :
  0 ≤ v < 256 ^ Z.of_nat n → Struct.le_value (Struct.le_bytes n v) = v.
Proof.
  revert v. induction n as [|n IH]; intros v Hv.
  - simpl in *. lia.
  - rewrite Nat2Z.inj_succ, Z.pow_succ_r in Hv by lia.
    simpl. rewrite IH.
    + pose proof (Z.div_mod v 256). lia.
    + split; [apply Z.div_pos; lia|].
      apply Z.div_lt_upper_bound; lia.
Qed.

Lemma field_fits (n : nat) (v : Z) :
  0 ≤ v < 256 ^ Z.of_nat n → Struct.field n v = Some (Struct.le_bytes n v).
Proof.
  intros Hv. unfold Struct.field.
  destruct (0 <=? v) eqn:H0; [|apply Z.leb_gt in H0; lia].
  destruct (v <? 256 ^ Z.of_nat n) eqn:H1; [|apply Z.ltb_ge in H1; lia].
  reflexivity.
Qed.

Lemma field_overflow (n : nat) (v : Z) :
  ¬ (0 ≤ v < 256 ^ Z.of_nat n) → Struct.field n v = None.
Proof.
  intros Hv. unfold Struct.field.
  destruct (0 <=? v) eqn:H0; [|reflexivity].
  destruct (v <? 256 ^ Z.of_nat n) eqn:H1; [|reflexivity].
  apply Z.leb_le in H0. apply Z.ltb_lt in H1. lia.
Qed.

Lemma byte_range_spec (v : Z) : AtDev.byte_range v = true ↔ 0 ≤ v < 256.
Proof.
  unfold AtDev.byte_range. rewrite andb_true_iff, Z.leb_le, Z.ltb_lt. reflexivity.
Qed.

Lemma send_altirra_response_value_error (conn_ok : bool) (event arg : Z)
    (data : list Z) :
  ¬ (0 ≤ event < 256 ∧ 0 ≤ arg < 256) →
  AtDev.send_altirra_response conn_ok event arg data = AtDev.ValueError.
Proof.
  intros Hnot. unfold AtDev.send_altirra_response.
  destruct (AtDev.byte_range event) eqn:He; [|reflexivity].
  destruct (AtDev.byte_range arg) eqn:Ha; [|reflexivity].
  apply byte_range_spec in He. apply byte_range_spec in Ha. tauto.
Qed.

Lemma send_altirra_response_byte (conn_ok : bool) (event arg : Z) :
  0 ≤ event < 256 → 0 ≤ arg < 256 →
  AtDev.send_altirra_response conn_ok event arg []
  = if conn_ok then AtDev.Written [10; 0; 0; 0; 0; 0; 0; 0; event; arg]
    else AtDev.NotWritten.
Proof.
  intros He Ha. unfold AtDev.send_altirra_response.
  rewrite (proj2 (byte_range_spec event) He), (proj2 (byte_range_spec arg) Ha).
  reflexivity.
Qed.

(** X22: a response to the emulator whose event and argument are bytes is
    written as one message: four bytes that hold the length of the whole
    message, header included, low byte first; four zero bytes where the
    timestamp goes, whatever timestamp the caller passed; then the event,
    the argument and the data. *)
Theorem altirra_response_layout (event arg : Z) (data : list Z) :
  0 ≤ event < 256 → 0 ≤ arg < 256 →
  10 + Z.of_nat (length data) < 2 ^ 32 →
  ∃ m, AtDev.send_altirra_response true event arg data = AtDev.Written m
       ∧ Z.of_nat (length m) = 10 + Z.of_nat (length data)
       ∧ Struct.le_value (take 4 m) = Z.of_nat (length m)
       ∧ take 4 (drop 4 m) = [0; 0; 0; 0]
       ∧ drop 8 m = event :: arg :: data.
Proof.
  intros He Ha Hlen. unfold AtDev.send_altirra_response.
  rewrite (proj2 (byte_range_spec event) He), (proj2 (byte_range_spec arg) Ha).
  cbn [andb]. unfold Struct.pack_II.
  set (n := 8 + Z.of_nat (length ([event; arg] ++ data))).
  assert (Hn : 0 ≤ n < 256 ^ Z.of_nat 4).
  { subst n. cbn [length app]. change (256 ^ Z.of_nat 4) with (2 ^ 32). lia. }
  rewrite (field_fits 4 n Hn). cbn [mbind option_bind].
  rewrite (field_fits 4 0) by (change (256 ^ Z.of_nat 4) with (2 ^ 32); lia).
  cbn [mbind option_bind].
  eexists. split; [reflexivity|].
  assert (Hl : length (Struct.le_bytes 4 n) = 4%nat) by apply le_bytes_length.
  rewrite <- !app_assoc. split; [|split; [|split; reflexivity]].
  - rewrite !length_app, Hl. cbn [length Struct.le_bytes app]. lia.
  - rewrite take_app_length' by exact Hl.
    rewrite le_value_le_bytes by exact Hn.
    rewrite !length_app, Hl. subst n. cbn [length Struct.le_bytes app]. lia.
Qed.

Lemma altirra_response_layout_witness :
  ∃ m, AtDev.send_altirra_response true 0x82 3 [0x53; 0x00; 0x00]
       = AtDev.Written m
       ∧ Z.of_nat (length m) = 10 + Z.of_nat (length [0x53; 0x00; 0x00])
       ∧ Struct.le_value (take 4 m) = Z.of_nat (length m)
       ∧ take 4 (drop 4 m) = [0; 0; 0; 0]
       ∧ drop 8 m = [0x82; 3; 0x53; 0x00; 0x00].
Proof.
  apply (altirra_response_layout 0x82 3 [0x53; 0x00; 0x00]); simpl; lia.
Defined.

(** X23: when the peripheral answers a COMMAND_OFF_SYNC with a response
    that is not marked empty and whose ack byte is not zero, the value the
    hub hands back is above 255, and the reply of
    [handle_netsio_command_off_sync] to the emulator raises [ValueError]
    at its first message: neither the sync response nor any of the 129
    bytes that follow is written. *)
Theorem acked_sync_result_makes_reply_raise `{NetsioConstants}
    (h : NetSIOHub.t) (msg : NetSIOMsg) (req sn a1 ack lo hi : Z)
    (rest : list Z) (conn_ok : bool) :
  NetSIOHub.host_ready h = true →
  is_Some (NetSIOHub.host_handler h) →
  SyncRequest.request (NetSIOHub.sync h) = Some req →
  SyncRequest.sn (NetSIOHub.sync h) = sn →
  id msg = NETSIO_SYNC_RESPONSE →
  arg msg = sn :: a1 :: ack :: lo :: hi :: rest →
  a1 ≠ NETSIO_EMPTY_SYNC →
  0 < ack < 256 → 0 ≤ lo < 256 → 0 ≤ hi < 256 →
  ∃ h' logs v,
    NetSIOHub.handle_device_msg h msg = (h', logs, Finished)
    ∧ snd (NetSIOHub.handle_host_msg_sync_wait h') = Some v
    ∧ 255 < v
    ∧ AtDev.handle_netsio_command_off_sync_reply conn_ok (Some v)
      = [AtDev.ValueError].
Proof.
  intros Hready [hh Hhh] Hreq Hsn Hid Harg Ha1 Hack Hlo Hhi.
  unfold NetSIOHub.handle_device_msg, SyncRequest.check_request.
  rewrite Hready, Hreq, Hsn, Harg, Hhh. simpl.
  destruct (decide (id msg = NETSIO_SYNC_RESPONSE)); [|contradiction].
  destruct (decide (sn = sn)); [|contradiction].
  destruct (decide (a1 = NETSIO_EMPTY_SYNC)); [contradiction|].
  unfold SyncRequest.set_response; simpl. rewrite Hreq, Hsn.
  destruct (decide (sn = sn)); [|contradiction].
  rewrite pack_sync_response_sum by lia.
  eexists _, _, _. split; [reflexivity|]. simpl.
  split; [reflexivity|]. split; [lia|].
  rewrite send_altirra_response_value_error by lia. reflexivity.
Qed.

Lemma acked_sync_result_makes_reply_raise_witness :
  ∃ h' logs v,
    @NetSIOHub.handle_device_msg example_constants
      (NetSIOHub.mk NetSIOManager.init (Queue.mk 8 []) true
         (Some (AtDevHandler.mk true))
         (SyncRequest.mk 7 (Some NETSIO_COMMAND_OFF_SYNC) None false))
      (mkMsg NETSIO_SYNC_RESPONSE [7; 0x01; 0x41; 0x00; 0x00])
    = (h', logs, Finished)
    ∧ snd (@NetSIOHub.handle_host_msg_sync_wait example_constants h') = Some v
    ∧ 255 < v
    ∧ AtDev.handle_netsio_command_off_sync_reply true (Some v)
      = [AtDev.ValueError].
Proof.
  apply (@acked_sync_result_makes_reply_raise example_constants
           (NetSIOHub.mk NetSIOManager.init (Queue.mk 8 []) true
              (Some (AtDevHandler.mk true))
              (SyncRequest.mk 7 (Some NETSIO_COMMAND_OFF_SYNC) None false))
           (mkMsg NETSIO_SYNC_RESPONSE [7; 0x01; 0x41; 0x00; 0x00])
           NETSIO_COMMAND_OFF_SYNC 7 0x01 0x41 0x00 0x00 [] true);
    simpl; try reflexivity; try lia; eauto.
Defined.

Lemma until_raise_none (os : list AtDev.outcome) :
  Forall (λ o, AtDev.raises o = false) os → AtDev.until_raise os = os.
Proof.
  induction 1 as [|o os Ho _ IH]; simpl; [reflexivity|].
  rewrite Ho, IH. reflexivity.
Qed.

(** X24: an event the emulator posts, other than ATDEV_READY and
    NETSIO_SPEED_CHANGE and the two resets, is forwarded to the
    peripherals as a message that carries the event alone: the argument
    posted with it, the serial byte of a DATA_BYTE for one, is not in the
    message put on the device queue.  The host queue and the sync slot
    are as before. *)
Theorem script_post_forwards_no_argument (ATDEV_READY NETSIO_SPEED_CHANGE : Z)
    (h : NetSIOHub.t) (event arg : Z) :
  event ≠ ATDEV_READY → event ≠ NETSIO_SPEED_CHANGE →
  event ≠ NETSIO_COLD_RESET → event ≠ NETSIO_WARM_RESET →
  Queue.full (NetSIOManager.device_queue (NetSIOHub.device_manager h)) = false →
  ∃ h' logs,
    AtDev.handle_script_post ATDEV_READY NETSIO_SPEED_CHANGE h event arg
    = Some (h', logs, Finished)
    ∧ Queue.items (NetSIOManager.device_queue (NetSIOHub.device_manager h'))
      = Queue.items (NetSIOManager.device_queue (NetSIOHub.device_manager h))
        ++ [mkMsg event []]
    ∧ NetSIOHub.host_queue h' = NetSIOHub.host_queue h
    ∧ NetSIOHub.host_handler h' = NetSIOHub.host_handler h
    ∧ NetSIOHub.sync h' = NetSIOHub.sync h.
Proof.
  intros HA HS Hcold Hwarm Hroom.
  assert (Hfwd : NetSIOHub.handle_host_msg h (mkMsg event [])
                 = (NetSIOHub.set_device_manager h
                      (NetSIOManager.mk
                         (Queue.mk (Queue.maxsize (NetSIOManager.device_queue
                                                     (NetSIOHub.device_manager h)))
                                   (Queue.items (NetSIOManager.device_queue
                                                   (NetSIOHub.device_manager h))
                                    ++ [mkMsg event []]))
                         (NetSIOManager.server (NetSIOHub.device_manager h))),
                    [] ++ [] ++ [LogDeviceQueueSize
                             (Queue.qsize (NetSIOManager.device_queue
                                             (NetSIOHub.device_manager h)))],
                    Finished)).
  { unfold NetSIOHub.handle_host_msg, NetSIOManager.to_peripheral. cbn [id].
    destruct (decide (event = NETSIO_COLD_RESET ∨ event = NETSIO_WARM_RESET))
      as [[?|?]|_]; [contradiction|contradiction|].
    rewrite Hroom, (put_when_room _ _ Hroom). reflexivity. }
  unfold AtDev.handle_script_post.
  destruct (decide (event = ATDEV_READY)); [contradiction|].
  destruct (decide (event = NETSIO_SPEED_CHANGE)); [contradiction|].
  destruct (decide (event = NETSIO_COLD_RESET)); [contradiction|].
  assert (Hchain : (if decide (event = NETSIO_DATA_BYTE) then Some h
                    else if event <? 256 then Some h else Some h) = Some h).
  { destruct (decide (event = NETSIO_DATA_BYTE)); [reflexivity|].
    destruct (event <? 256); reflexivity. }
  rewrite Hchain, Hfwd.
  eexists _, _. split; [reflexivity|]. destruct h; simpl. auto.
Qed.

Lemma script_post_forwards_no_argument_witness :
  ∃ h' logs,
    AtDev.handle_script_post 0x100 0x80 NetSIOHub.init NETSIO_DATA_BYTE 0x31
    = Some (h', logs, Finished)
    ∧ Queue.items (NetSIOManager.device_queue (NetSIOHub.device_manager h'))
      = Queue.items (NetSIOManager.device_queue
                       (NetSIOHub.device_manager NetSIOHub.init))
        ++ [mkMsg NETSIO_DATA_BYTE []]
    ∧ NetSIOHub.host_queue h' = NetSIOHub.host_queue NetSIOHub.init
    ∧ NetSIOHub.host_handler h' = NetSIOHub.host_handler NetSIOHub.init
    ∧ NetSIOHub.sync h' = NetSIOHub.sync NetSIOHub.init.
Proof.
  apply (script_post_forwards_no_argument 0x100 0x80 NetSIOHub.init
           NETSIO_DATA_BYTE 0x31);
    try (unfold NETSIO_DATA_BYTE, NETSIO_COLD_RESET, NETSIO_WARM_RESET; lia).
  reflexivity.
Defined.

Lemma data_bytes_written (bs : list Z) :
  Forall (λ b, 0 ≤ b < 256) bs →
  map (λ b, AtDev.send_altirra_response true NETSIO_DATA_BYTE b []) bs
  = map (λ b, AtDev.Written [10; 0; 0; 0; 0; 0; 0; 0; 0x01; b]) bs.
Proof.
  induction 1 as [|b bs Hb _ IH]; simpl; [reflexivity|].
  rewrite IH. f_equal.
  rewrite send_altirra_response_byte by (unfold NETSIO_DATA_BYTE; lia).
  reflexivity.
Qed.

(** X25: a message taken from the host queue with argument bytes reaches
    the emulator as one ten-byte DATA_BYTE message per argument byte, in
    order, whatever the identifier of the message was; while the emulator
    is not ready to receive, the bytes are dropped with the message. *)
Theorem host_message_sent_byte_by_byte `{NetsioConstants}
    (hh : AtDevHandler.t) (msg : NetSIOMsg) :
  arg msg ≠ [] →
  Forall (λ b, 0 ≤ b < 256) (arg msg) →
  AtDev.atdev_thread_step hh true msg
  = if AtDevHandler.atdev_ready hh
    then map (λ b, AtDev.Written [10; 0; 0; 0; 0; 0; 0; 0; 0x01; b]) (arg msg)
    else [].
Proof.
  intros Hne Hbytes. unfold AtDev.atdev_thread_step.
  destruct (0 <? Z.of_nat (length (arg msg))) eqn:Hlen.
  2:{ apply Z.ltb_ge in Hlen. destruct (arg msg); [congruence|cbn [length] in Hlen; lia]. }
  destruct (AtDevHandler.atdev_ready hh); [|reflexivity].
  rewrite (data_bytes_written _ Hbytes). apply until_raise_none.
  apply Forall_forall. intros o Ho. apply list_elem_of_fmap in Ho.
  destruct Ho as [b [-> _]]. reflexivity.
Qed.

Lemma host_message_sent_byte_by_byte_witness :
  @AtDev.atdev_thread_step example_constants (AtDevHandler.mk true) true
    (mkMsg NETSIO_DATA_BLOCK [0x41; 0x43])
  = if AtDevHandler.atdev_ready (AtDevHandler.mk true)
    then map (λ b, AtDev.Written [10; 0; 0; 0; 0; 0; 0; 0; 0x01; b])
             (arg (mkMsg NETSIO_DATA_BLOCK [0x41; 0x43]))
    else [].
Proof.
  apply (@host_message_sent_byte_by_byte example_constants
           (AtDevHandler.mk true) (mkMsg NETSIO_DATA_BLOCK [0x41; 0x43])).
  - discriminate.
  - simpl. repeat constructor; lia.
Defined.

(** ** The stand-alone SIO responder *)

Lemma unpack_BIIQ_length (bs : list Z) (r : Z * Z * Z * Z) :
  Struct.unpack_BIIQ bs = Some r → length bs = 17%nat.
Proof.
  unfold Struct.unpack_BIIQ. destruct (decide (length bs = 17%nat)); [auto|discriminate].
Qed.

Lemma pack_BIIQ_fits (a b c d : Z) :
  0 ≤ a < 256 → 0 ≤ b < 2 ^ 32 → 0 ≤ c < 2 ^ 32 → 0 ≤ d < 2 ^ 64 →
  Struct.pack_BIIQ a b c d
  = Some (Struct.le_bytes 1 a ++ Struct.le_bytes 4 b ++ Struct.le_bytes 4 c
          ++ Struct.le_bytes 8 d).
Proof.
  intros Ha Hb Hc Hd. unfold Struct.pack_BIIQ.
  rewrite (field_fits 1 a), (field_fits 4 b), (field_fits 4 c), (field_fits 8 d);
    [reflexivity| | | |].
  - change (256 ^ Z.of_nat 8) with (2 ^ 64). lia.
  - change (256 ^ Z.of_nat 4) with (2 ^ 32). lia.
  - change (256 ^ Z.of_nat 4) with (2 ^ 32). lia.
  - change (256 ^ Z.of_nat 1) with 256. lia.
Qed.

Lemma unpack_pack_BIIQ (a b c d : Z) :
  0 ≤ a < 256 → 0 ≤ b < 2 ^ 32 → 0 ≤ c < 2 ^ 32 → 0 ≤ d < 2 ^ 64 →
  Struct.unpack_BIIQ (Struct.le_bytes 1 a ++ Struct.le_bytes 4 b
                      ++ Struct.le_bytes 4 c ++ Struct.le_bytes 8 d)
  = Some (a, b, c, d).
Proof.
  intros Ha Hb Hc Hd. unfold Struct.unpack_BIIQ.
  destruct (decide _) as [_|Hn].
  2:{ exfalso. apply Hn. rewrite !length_app, !le_bytes_length. reflexivity. }
  assert (H1 : 1%nat = length (Struct.le_bytes 1 a)) by (symmetry; apply le_bytes_length).
  assert (H4b : 4%nat = length (Struct.le_bytes 4 b)) by (symmetry; apply le_bytes_length).
  assert (H4c : 4%nat = length (Struct.le_bytes 4 c)) by (symmetry; apply le_bytes_length).
  rewrite (take_app_length' _ _ 1 H1).
  rewrite (drop_app_length' _ _ 1 H1).
  rewrite (take_app_length' _ _ 4 H4b).
  change 5%nat with (1 + 4)%nat. rewrite <- (drop_drop _ 4 1).
  rewrite (drop_app_length' _ _ 1 H1), (drop_app_length' _ _ 4 H4b).
  rewrite (take_app_length' _ _ 4 H4c).
  change 9%nat with (1 + (4 + 4))%nat.
  rewrite <- (drop_drop _ (4 + 4) 1).
  rewrite (drop_app_length' _ _ 1 H1). rewrite <- (drop_drop _ 4 4).
  rewrite (drop_app_length' _ _ 4 H4b), (drop_app_length' _ _ 4 H4c).
  change (S (S (S (1 + 4)))) with 8%nat.
  rewrite (le_value_le_bytes 1 a), (le_value_le_bytes 4 b),
    (le_value_le_bytes 4 c), (le_value_le_bytes 8 d); [reflexivity| | | |].
  - change (256 ^ Z.of_nat 8) with (2 ^ 64). lia.
  - change (256 ^ Z.of_nat 4) with (2 ^ 32). lia.
  - change (256 ^ Z.of_nat 4) with (2 ^ 32). lia.
  - change (256 ^ Z.of_nat 1) with 256. lia.
Qed.

(** X26: a response made by [create_altirra_response] for an event that
    is a byte and an argument of 32 bits is a 17-byte header followed by
    the data, and the header reads back, in the format [handle] unpacks,
    as the event, 0, the argument and timestamp 0. *)
Theorem altirra_packet_round_trip (event arg : Z) (data : list Z) :
  0 ≤ event < 256 → 0 ≤ arg < 2 ^ 32 →
  ∃ bs, SioHandler.create_altirra_response event arg data = Some bs
        ∧ length bs = (17 + length data)%nat
        ∧ Struct.unpack_BIIQ (take 17 bs) = Some (event, 0, arg, 0)
        ∧ drop 17 bs = data.
Proof.
  intros He Ha. unfold SioHandler.create_altirra_response.
  rewrite pack_BIIQ_fits by lia. cbn [mbind option_bind].
  set (hdr := Struct.le_bytes 1 event ++ Struct.le_bytes 4 0
              ++ Struct.le_bytes 4 arg ++ Struct.le_bytes 8 0).
  assert (Hl : length hdr = 17%nat).
  { subst hdr. rewrite !length_app, !le_bytes_length. reflexivity. }
  eexists. split; [reflexivity|]. split; [|split].
  - rewrite length_app, Hl. reflexivity.
  - rewrite (take_app_length' _ _ 17 (eq_sym Hl)). subst hdr.
    apply unpack_pack_BIIQ; lia.
  - apply (drop_app_length' _ _ 17 (eq_sym Hl)).
Qed.

Lemma altirra_packet_round_trip_witness :
  ∃ bs, SioHandler.create_altirra_response 0x82 129 (SioHandler.status_data 0x31)
        = Some bs
        ∧ length bs = (17 + length (SioHandler.status_data 0x31))%nat
        ∧ Struct.unpack_BIIQ (take 17 bs) = Some (0x82, 0, 129, 0)
        ∧ drop 17 bs = SioHandler.status_data 0x31.
Proof.
  apply (altirra_packet_round_trip 0x82 129 (SioHandler.status_data 0x31)); lia.
Defined.

Lemma status_data_length (device_id : Z) :
  length (SioHandler.status_data device_id) = 129%nat.
Proof. unfold SioHandler.status_data. destruct (_ && _); reflexivity. Qed.

Lemma send_response_connected (st : SioHandler.t) (bs : list Z) :
  SioHandler.client_connected st = true →
  SioHandler.send_response st true bs = (st, [bs], true).
Proof. intros Hc. unfold SioHandler.send_response. rewrite Hc. reflexivity. Qed.

Lemma respond_connected (st : SioHandler.t) (frames : list (Z * Z * list Z)) :
  SioHandler.client_connected st = true →
  Forall (λ f, 0 ≤ f.1.1 < 256 ∧ 0 ≤ f.1.2 < 2 ^ 32) frames →
  SioHandler.respond st true frames
  = (st,
     map (λ f, (Struct.le_bytes 1 f.1.1 ++ Struct.le_bytes 4 0
                ++ Struct.le_bytes 4 f.1.2 ++ Struct.le_bytes 8 0) ++ f.2)
         frames,
     false).
Proof.
  intros Hc. induction 1 as [|[[e a] d] frames [He Ha] _ IH]; [reflexivity|].
  cbn [SioHandler.respond fst snd] in *.
  unfold SioHandler.create_altirra_response.
  rewrite pack_BIIQ_fits by lia. cbn [mbind option_bind].
  rewrite send_response_connected by exact Hc. rewrite IH. reflexivity.
Qed.

Lemma handle_turn (fuel : nat) (st : SioHandler.t) (peer_ok : bool)
    (hdr rest : list Z) (packet_id param1 param2 ts : Z) :
  SioHandler.client_connected st = true →
  Struct.unpack_BIIQ hdr = Some (packet_id, param1, param2, ts) →
  SioHandler.handle (S fuel) st peer_ok (hdr ++ rest)
  = let actual_data_len :=
      if decide (packet_id = 0x02) then param2
      else if decide (packet_id = 0x18) then 1
      else 0 in
    if 0 <? actual_data_len then
      if 4096 <? actual_data_len then SioHandler.handle fuel st peer_ok rest
      else
        let payload_data := take (Z.to_nat actual_data_len) rest in
        if Z.of_nat (length payload_data) <? actual_data_len
        then (SioHandler.mk false (SioHandler.sio_command_buffer st)
                            (SioHandler.current_device_id st), [])
        else
          let '(st1, w1) :=
            SioHandler.handle_packet st peer_ok packet_id param1 param2
                                     payload_data in
          let '(st2, w2) :=
            SioHandler.handle fuel st1 peer_ok
                              (drop (Z.to_nat actual_data_len) rest) in
          (st2, w1 ++ w2)
    else
      let '(st1, w1) :=
        SioHandler.handle_packet st peer_ok packet_id param1 param2 [] in
      let '(st2, w2) := SioHandler.handle fuel st1 peer_ok rest in
      (st2, w1 ++ w2).
Proof.
  intros Hc Hu. pose proof (unpack_BIIQ_length _ _ Hu) as Hl.
  cbn [SioHandler.handle]. rewrite Hc. cbn [negb].
  rewrite (take_app_length' _ _ 17 (eq_sym Hl)).
  rewrite (drop_app_length' _ _ 17 (eq_sym Hl)).
  destruct hdr as [|x hdr']; [discriminate Hl|].
  rewrite Hu. reflexivity.
Qed.

Lemma handle_end_of_stream (fuel : nat) (st : SioHandler.t) (peer_ok : bool) :
  SioHandler.client_connected st = true →
  SioHandler.handle (S fuel) st peer_ok []
  = (SioHandler.mk false (SioHandler.sio_command_buffer st)
                   (SioHandler.current_device_id st), []).
Proof. intros Hc. cbn [SioHandler.handle]. rewrite Hc. reflexivity. Qed.

Lemma handle_turn_no_payload (fuel : nat) (st : SioHandler.t) (peer_ok : bool)
    (hdr rest : list Z) (packet_id param1 param2 ts : Z) :
  SioHandler.client_connected st = true →
  Struct.unpack_BIIQ hdr = Some (packet_id, param1, param2, ts) →
  packet_id ≠ 0x02 → packet_id ≠ 0x18 →
  SioHandler.handle (S fuel) st peer_ok (hdr ++ rest)
  = let '(st1, w1) :=
      SioHandler.handle_packet st peer_ok packet_id param1 param2 [] in
    let '(st2, w2) := SioHandler.handle fuel st1 peer_ok rest in
    (st2, w1 ++ w2).
Proof.
  intros Hc Hu H2 H18. rewrite (handle_turn _ _ _ _ _ _ _ _ _ Hc Hu).
  rewrite (decide_False (P := packet_id = 0x02)) by exact H2.
  rewrite (decide_False (P := packet_id = 0x18)) by exact H18.
  reflexivity.
Qed.

Lemma handle_turn_payload (fuel : nat) (st : SioHandler.t) (peer_ok : bool)
    (hdr payload rest : list Z) (packet_id param1 param2 ts : Z) :
  SioHandler.client_connected st = true →
  Struct.unpack_BIIQ hdr = Some (packet_id, param1, param2, ts) →
  (packet_id = 0x02 ∧ param2 = Z.of_nat (length payload)
   ∨ packet_id = 0x18 ∧ length payload = 1%nat) →
  (0 < length payload ≤ 4096)%nat →
  SioHandler.handle (S fuel) st peer_ok (hdr ++ payload ++ rest)
  = let '(st1, w1) :=
      SioHandler.handle_packet st peer_ok packet_id param1 param2 payload in
    let '(st2, w2) := SioHandler.handle fuel st1 peer_ok rest in
    (st2, w1 ++ w2).
Proof.
  intros Hc Hu Hkind Hlen. rewrite (handle_turn _ _ _ _ _ _ _ _ _ Hc Hu).
  assert (Hn : (if decide (packet_id = 0x02) then param2
                else if decide (packet_id = 0x18) then 1 else 0)
               = Z.of_nat (length payload)).
  { destruct Hkind as [[-> ->]|[-> Hl]].
    - rewrite decide_True by reflexivity. reflexivity.
    - rewrite decide_False by discriminate.
      rewrite decide_True by reflexivity. rewrite Hl. reflexivity. }
  rewrite Hn. cbv zeta.
  destruct (Z.ltb_spec 0 (Z.of_nat (length payload))) as [_|?]; [|lia].
  destruct (Z.ltb_spec 4096 (Z.of_nat (length payload))) as [?|_]; [lia|].
  rewrite Nat2Z.id.
  rewrite (take_app_length' _ _ _ eq_refl), (drop_app_length' _ _ _ eq_refl).
  destruct (Z.ltb_spec (Z.of_nat (length payload)) (Z.of_nat (length payload)))
    as [?|_]; [lia|].
  reflexivity.
Qed.

Lemma handle_packet_command_on (st : SioHandler.t) (peer_ok : bool)
    (param1 param2 : Z) (payload : list Z) :
  SioHandler.handle_packet st peer_ok 0x11 param1 param2 payload
  = (SioHandler.mk (SioHandler.client_connected st) [] param2, []).
Proof. reflexivity. Qed.

Lemma handle_packet_data_block (st : SioHandler.t) (peer_ok : bool)
    (param1 param2 x : Z) (payload : list Z) :
  SioHandler.handle_packet st peer_ok 0x02 param1 param2 (x :: payload)
  = (SioHandler.mk (SioHandler.client_connected st)
                   (SioHandler.sio_command_buffer st ++ x :: payload)
                   (SioHandler.current_device_id st), []).
Proof. reflexivity. Qed.

Lemma handle_packet_command_off_sync (st : SioHandler.t) (sync param1 : Z)
    (payload : list Z) :
  SioHandler.client_connected st = true →
  0 ≤ sync < 2 ^ 32 →
  SioHandler.handle_packet st true 0x18 param1 sync payload
  = (st,
     match SioHandler.sio_command_buffer st with
     | [c; _; _] =>
         if decide (c = 0x53)
         then [ [0x80; 0; 0; 0; 0; 0x41; 0; 0; 0; 0; 0; 0; 0; 0; 0; 0; 0];
                [0x82; 0; 0; 0; 0; 129; 0; 0; 0; 0; 0; 0; 0; 0; 0; 0; 0]
                  ++ SioHandler.status_data (SioHandler.current_device_id st);
                [0x81; 0; 0; 0; 0] ++ Struct.le_bytes 4 sync
                  ++ [0; 0; 0; 0; 0; 0; 0; 0] ]
         else [ [0x80; 0; 0; 0; 0; 0x4E; 0; 0; 0; 0; 0; 0; 0; 0; 0; 0; 0];
                [0x81; 0; 0; 0; 0] ++ Struct.le_bytes 4 sync
                  ++ [0; 0; 0; 0; 0; 0; 0; 0] ]
     | _ => [ [0x80; 0; 0; 0; 0; 0x45; 0; 0; 0; 0; 0; 0; 0; 0; 0; 0; 0];
              [0x81; 0; 0; 0; 0] ++ Struct.le_bytes 4 sync
                ++ [0; 0; 0; 0; 0; 0; 0; 0] ]
     end).
Proof.
  intros Hc Hsync.
  assert (Hnak : ∀ code, 0 ≤ code < 256 →
            SioHandler.respond_sio_nak st true sync code
            = (st, [ [0x80; 0; 0; 0; 0] ++ Struct.le_bytes 4 code
                       ++ [0; 0; 0; 0; 0; 0; 0; 0];
                     [0x81; 0; 0; 0; 0] ++ Struct.le_bytes 4 sync
                       ++ [0; 0; 0; 0; 0; 0; 0; 0] ], false)).
  { intros code Hcode. unfold SioHandler.respond_sio_nak.
    rewrite respond_connected; [reflexivity|exact Hc|].
    repeat constructor; cbn [fst snd]; lia. }
  assert (Hstatus : SioHandler.respond_sio_status st true
                      (SioHandler.current_device_id st) sync
            = (st, [ [0x80; 0; 0; 0; 0; 0x41; 0; 0; 0; 0; 0; 0; 0; 0; 0; 0; 0];
                [0x82; 0; 0; 0; 0; 129; 0; 0; 0; 0; 0; 0; 0; 0; 0; 0; 0]
                  ++ SioHandler.status_data (SioHandler.current_device_id st);
                [0x81; 0; 0; 0; 0] ++ Struct.le_bytes 4 sync
                  ++ [0; 0; 0; 0; 0; 0; 0; 0] ], false)).
  { unfold SioHandler.respond_sio_status. rewrite status_data_length.
    rewrite respond_connected; [reflexivity|exact Hc|].
    repeat constructor; cbn [fst snd]; lia. }
  unfold SioHandler.handle_packet, SioHandler.handle_sio_event.
  rewrite decide_False by discriminate.
  rewrite decide_True by (right; right; reflexivity).
  rewrite decide_False by discriminate.
  rewrite decide_False by discriminate.
  rewrite decide_True by reflexivity.
  destruct (SioHandler.sio_command_buffer st) as [|c [|x [|y [|z l]]]] eqn:Hb;
    cbn [length];
    try (rewrite decide_False by discriminate; rewrite (Hnak 0x45) by lia;
         destruct st; reflexivity).
  rewrite decide_True by reflexivity.
  destruct (decide (c = 0x53)).
  - rewrite Hstatus. destruct st; reflexivity.
  - rewrite (Hnak 0x4E) by lia. destruct st; reflexivity.
Qed.

(** X27: the sequence the emulator sends for a status command, COMMAND_ON
    for a device, a DATA_BLOCK with the three command bytes 0x53, aux1,
    aux2, and COMMAND_OFF_SYNC with a sync number and a checksum byte, is
    answered by exactly three packets: the ACK (event 0x80, 'A'), the
    status block (event 0x82, length 129, then the 129 status bytes) and
    the SYNC (event 0x81) that carries the sync number of the request.
    The answer is the same for every checksum byte: a mismatch is only
    logged.  When the stream ends the handler is marked disconnected. *)
Theorem status_command_session (st : SioHandler.t) (h1 h2 h3 : list Z)
    (p1 p1' p1'' ts ts' ts'' dev sync aux1 aux2 checksum : Z) :
  SioHandler.client_connected st = true →
  Struct.unpack_BIIQ h1 = Some (0x11, p1, dev, ts) →
  Struct.unpack_BIIQ h2 = Some (0x02, p1', 3, ts') →
  Struct.unpack_BIIQ h3 = Some (0x18, p1'', sync, ts'') →
  0 ≤ sync < 2 ^ 32 →
  SioHandler.handle_all st true
    (h1 ++ h2 ++ [0x53; aux1; aux2] ++ h3 ++ [checksum])
  = (SioHandler.mk false [0x53; aux1; aux2] dev,
     [ [0x80; 0; 0; 0; 0; 0x41; 0; 0; 0; 0; 0; 0; 0; 0; 0; 0; 0];
       [0x82; 0; 0; 0; 0; 129; 0; 0; 0; 0; 0; 0; 0; 0; 0; 0; 0]
         ++ SioHandler.status_data dev;
       [0x81; 0; 0; 0; 0] ++ Struct.le_bytes 4 sync
         ++ [0; 0; 0; 0; 0; 0; 0; 0] ]).
Proof.
  intros Hc Hu1 Hu2 Hu3 Hsync. unfold SioHandler.handle_all.
  pose proof (unpack_BIIQ_length _ _ Hu1) as Hl1.
  pose proof (unpack_BIIQ_length _ _ Hu2) as Hl2.
  pose proof (unpack_BIIQ_length _ _ Hu3) as Hl3.
  assert (Hfuel : length (h1 ++ h2 ++ [0x53; aux1; aux2] ++ h3 ++ [checksum])
                  = 55%nat).
  { rewrite !length_app, Hl1, Hl2, Hl3. reflexivity. }
  rewrite Hfuel.
  rewrite (handle_turn_no_payload _ _ _ _ _ _ _ _ _ Hc Hu1) by discriminate.
  rewrite handle_packet_command_on, Hc. cbv beta iota zeta.
  rewrite (handle_turn_payload _ (SioHandler.mk true [] dev) _ _ _ _ _ _ _ _
             eq_refl Hu2);
    [|left; split; reflexivity|cbn [length]; lia].
  rewrite handle_packet_data_block. cbv beta iota zeta.
  cbn [SioHandler.client_connected SioHandler.sio_command_buffer
       SioHandler.current_device_id app].
  rewrite (handle_turn_payload _ (SioHandler.mk true [0x53; aux1; aux2] dev)
             _ _ [checksum] [] _ _ _ _ eq_refl Hu3);
    [|right; split; reflexivity|cbn [length]; lia].
  rewrite handle_packet_command_off_sync by (reflexivity || exact Hsync).
  cbn [SioHandler.sio_command_buffer SioHandler.current_device_id].
  rewrite decide_True by reflexivity. cbv beta iota zeta.
  rewrite handle_end_of_stream by reflexivity.
  reflexivity.
Qed.

Lemma status_command_session_witness :
  SioHandler.handle_all SioHandler.init true
    ([0x11; 0; 0; 0; 0; 0x31; 0; 0; 0; 0; 0; 0; 0; 0; 0; 0; 0]
     ++ [0x02; 0; 0; 0; 0; 3; 0; 0; 0; 0; 0; 0; 0; 0; 0; 0; 0]
     ++ [0x53; 0; 0]
     ++ [0x18; 0; 0; 0; 0; 7; 0; 0; 0; 0; 0; 0; 0; 0; 0; 0; 0] ++ [0x53])
  = (SioHandler.mk false [0x53; 0; 0] 0x31,
     [ [0x80; 0; 0; 0; 0; 0x41; 0; 0; 0; 0; 0; 0; 0; 0; 0; 0; 0];
       [0x82; 0; 0; 0; 0; 129; 0; 0; 0; 0; 0; 0; 0; 0; 0; 0; 0]
         ++ SioHandler.status_data 0x31;
       [0x81; 0; 0; 0; 0] ++ Struct.le_bytes 4 7
         ++ [0; 0; 0; 0; 0; 0; 0; 0] ]).
Proof.
  apply (status_command_session SioHandler.init
           [0x11; 0; 0; 0; 0; 0x31; 0; 0; 0; 0; 0; 0; 0; 0; 0; 0; 0]
           [0x02; 0; 0; 0; 0; 3; 0; 0; 0; 0; 0; 0; 0; 0; 0; 0; 0]
           [0x18; 0; 0; 0; 0; 7; 0; 0; 0; 0; 0; 0; 0; 0; 0; 0; 0]
           0 0 0 0 0 0 0x31 7 0 0 0x53);
    try reflexivity; lia.
Defined.

Lemma send_response_keeps_buffer (st : SioHandler.t) (peer_ok : bool)
    (bs : list Z) :
  SioHandler.sio_command_buffer (SioHandler.send_response st peer_ok bs).1.1
  = SioHandler.sio_command_buffer st.
Proof.
  unfold SioHandler.send_response.
  destruct (negb _); [reflexivity|]. destruct peer_ok; reflexivity.
Qed.

Lemma respond_keeps_buffer (st : SioHandler.t) (peer_ok : bool)
    (frames : list (Z * Z * list Z)) :
  SioHandler.sio_command_buffer (SioHandler.respond st peer_ok frames).1.1
  = SioHandler.sio_command_buffer st.
Proof.
  revert st. induction frames as [|[[e a] d] frames IH]; intros st;
    [reflexivity|].
  cbn [SioHandler.respond].
  destruct (SioHandler.create_altirra_response e a d) as [bs|]; [|reflexivity].
  pose proof (send_response_keeps_buffer st peer_ok bs) as Hs.
  destruct (SioHandler.send_response st peer_ok bs) as [[st1 w1] ok].
  cbn [fst] in Hs. destruct ok; [|exact Hs].
  specialize (IH st1).
  destruct (SioHandler.respond st1 peer_ok frames) as [[st2 w2] raised].
  cbn [fst] in *. rewrite IH. exact Hs.
Qed.

(** X28: COMMAND_OFF_SYNC answers but does not clear the command buffer;
    only COMMAND_ON does: it leaves the buffer empty, and no other packet
    takes a byte out of it.  So when, after a command of three bytes has
    been answered, the next command arrives as DATA_BLOCK and
    COMMAND_OFF_SYNC with no COMMAND_ON before it, its bytes are added to
    the three already there and it is refused: the answer is the error
    NAK (event 0x80, 'E') and the SYNC with its sync number. *)
Theorem command_without_command_on_is_refused (st : SioHandler.t)
    (c aux1 aux2 p sync ck p' len x p'' sync' ck' : Z) (payload : list Z) :
  SioHandler.client_connected st = true →
  SioHandler.sio_command_buffer st = [c; aux1; aux2] →
  0 ≤ sync < 2 ^ 32 → 0 ≤ sync' < 2 ^ 32 →
  let st1 := (SioHandler.handle_packet st true 0x18 p sync [ck]).1 in
  let st2 := (SioHandler.handle_packet st1 true 0x02 p' len (x :: payload)).1 in
  st1 = st
  ∧ SioHandler.sio_command_buffer st2 = [c; aux1; aux2] ++ x :: payload
  ∧ SioHandler.handle_packet st2 true 0x18 p'' sync' [ck']
    = (st2,
       [ [0x80; 0; 0; 0; 0; 0x45; 0; 0; 0; 0; 0; 0; 0; 0; 0; 0; 0];
         [0x81; 0; 0; 0; 0] ++ Struct.le_bytes 4 sync'
           ++ [0; 0; 0; 0; 0; 0; 0; 0] ])
  ∧ (∀ s peer_ok p1 dev pl,
       SioHandler.sio_command_buffer
         (SioHandler.handle_packet s peer_ok 0x11 p1 dev pl).1 = [])
  ∧ (∀ s peer_ok packet_id p1 p2 pl,
       packet_id ≠ 0x11 →
       ∃ more,
         SioHandler.sio_command_buffer
           (SioHandler.handle_packet s peer_ok packet_id p1 p2 pl).1
         = SioHandler.sio_command_buffer s ++ more).
Proof.
  intros Hc Hb Hsync Hsync'.
  rewrite handle_packet_command_off_sync by assumption.
  cbn [fst]. rewrite handle_packet_data_block. cbn [fst].
  split; [reflexivity|]. split; [rewrite Hb; reflexivity|].
  split.
  { rewrite handle_packet_command_off_sync by assumption.
    cbn [SioHandler.sio_command_buffer]. rewrite Hb. reflexivity. }
  split; [reflexivity|].
  intros s peer_ok packet_id p1 p2 pl Hid.
  assert (Hfin : ∀ r : SioHandler.t * list (list Z) * bool,
            (∃ more, SioHandler.sio_command_buffer r.1.1
                     = SioHandler.sio_command_buffer s ++ more) →
            ∃ more,
              SioHandler.sio_command_buffer
                (let '(st1, written, raised) := r in
                 if raised
                 then (SioHandler.mk false (SioHandler.sio_command_buffer st1)
                         (SioHandler.current_device_id st1), written)
                 else (st1, written)).1
              = SioHandler.sio_command_buffer s ++ more).
  { intros [[s1 w] raised] Hm. cbn [fst] in Hm.
    destruct raised; exact Hm. }
  assert (Hsame : ∀ r : SioHandler.t * list (list Z) * bool,
            SioHandler.sio_command_buffer r.1.1 = SioHandler.sio_command_buffer s →
            ∃ more, SioHandler.sio_command_buffer r.1.1
                    = SioHandler.sio_command_buffer s ++ more).
  { intros r Hr. exists []. rewrite app_nil_r. exact Hr. }
  unfold SioHandler.handle_packet. apply Hfin.
  destruct (decide (packet_id = 0x00)); [apply Hsame; reflexivity|].
  destruct (decide (packet_id = 0x11 ∨ packet_id = 0x02 ∨ packet_id = 0x18))
    as [Hk|_].
  - unfold SioHandler.handle_sio_event.
    destruct (decide (packet_id = 0x11)); [contradiction|].
    destruct (decide (packet_id = 0x02)).
    { destruct pl as [|b pl]; [apply Hsame; reflexivity|].
      exists (b :: pl). reflexivity. }
    destruct (decide (packet_id = 0x18)); [|apply Hsame; reflexivity].
    destruct (decide (length (SioHandler.sio_command_buffer s) = 3%nat)).
    + destruct (SioHandler.sio_command_buffer s) as [|c0 l] eqn:Hbuf;
        [apply Hsame; exact Hbuf|].
      destruct (decide (c0 = 0x53)); apply Hsame;
        [unfold SioHandler.respond_sio_status|unfold SioHandler.respond_sio_nak];
        rewrite respond_keeps_buffer; exact Hbuf.
    + apply Hsame. unfold SioHandler.respond_sio_nak.
      apply respond_keeps_buffer.
  - destruct (decide (packet_id = 0x53)); [|apply Hsame; reflexivity].
    apply Hsame. unfold SioHandler.respond_sio_status.
    apply respond_keeps_buffer.
Qed.

Lemma command_without_command_on_is_refused_witness :
  let st := SioHandler.mk true [0x53; 0; 0] 0x31 in
  let st1 := (SioHandler.handle_packet st true 0x18 0 7 [0x53]).1 in
  let st2 := (SioHandler.handle_packet st1 true 0x02 0 3 [0x53; 0; 0]).1 in
  st1 = st
  ∧ SioHandler.sio_command_buffer st2 = [0x53; 0; 0] ++ [0x53; 0; 0]
  ∧ SioHandler.handle_packet st2 true 0x18 0 8 [0x53]
    = (st2,
       [ [0x80; 0; 0; 0; 0; 0x45; 0; 0; 0; 0; 0; 0; 0; 0; 0; 0; 0];
         [0x81; 0; 0; 0; 0] ++ Struct.le_bytes 4 8
           ++ [0; 0; 0; 0; 0; 0; 0; 0] ]).
Proof.
  assert (H32 : 0 ≤ 7 < 2 ^ 32 ∧ 0 ≤ 8 < 2 ^ 32) by lia.
  destruct (command_without_command_on_is_refused
              (SioHandler.mk true [0x53; 0; 0] 0x31)
              0x53 0 0 0 7 0x53 0 3 0x53 0 8 0x53 [0; 0]
              eq_refl eq_refl (proj1 H32) (proj2 H32))
    as (H1 & H2 & H3 & _).
  split; [exact H1|]. split; [exact H2|exact H3].
Defined.

(** ** The framed byte stream *)

Lemma parse_nil (fuel : nat) : FrameBuffer.parse fuel [] = ([], [], false).
Proof. destruct fuel; reflexivity. Qed.

(** One turn of the loop on a buffer that starts with a complete frame. *)
Lemma parse_frame (fuel : nat) (msg_id : Z) (args rest : list Z) :
  FrameBuffer.parse (S fuel) (FrameBuffer.frame msg_id args ++ rest)
  = let '(msgs, remaining, raised) := FrameBuffer.parse fuel rest in
    (FrameBuffer.mk_raw msg_id (FrameBuffer.arg_of args) :: msgs,
     remaining, raised).
Proof.
  unfold FrameBuffer.frame. cbn [app FrameBuffer.parse].
  set (n := 1 + Z.of_nat (length args)).
  assert (Hn : n mod 256 + 256 * (n / 256) = n).
  { pose proof (Z.div_mod n 256). lia. }
  rewrite Hn.
  destruct (Z.leb_spec (n + 2)
              (Z.of_nat (length (n mod 256 :: n / 256 :: msg_id :: args ++ rest))))
    as [_|Hlt].
  2:{ cbn [length] in Hlt. rewrite length_app in Hlt. lia. }
  assert (Hdrop : drop (Z.to_nat (n + 2))
                       (n mod 256 :: n / 256 :: msg_id :: args ++ rest) = rest).
  { replace (Z.to_nat (n + 2)) with (S (S (S (length args)))) by lia.
    cbn [drop]. apply drop_app_length. }
  rewrite Hdrop.
  assert (Harg : FrameBuffer.frame_arg n (args ++ rest) = FrameBuffer.arg_of args).
  { unfold FrameBuffer.frame_arg, FrameBuffer.arg_of.
    destruct args as [|b [|b' args']].
    - reflexivity.
    - reflexivity.
    - destruct (Z.eqb_spec n 1) as [H1|_]; [subst n; cbn [length] in H1; lia|].
      destruct (Z.eqb_spec n 2) as [H2|_]; [subst n; cbn [length] in H2; lia|].
      replace (Z.to_nat (n - 1)) with (length (b :: b' :: args')) by lia.
      rewrite take_app_length. reflexivity. }
  rewrite Harg. reflexivity.
Qed.

Lemma parse_frames (fuel : nat) (msgs : list (Z * list Z)) :
  (length msgs ≤ fuel)%nat →
  FrameBuffer.parse fuel
    (concat (map (λ m, FrameBuffer.frame m.1 m.2) msgs))
  = (map (λ m, FrameBuffer.mk_raw m.1 (FrameBuffer.arg_of m.2)) msgs, [], false).
Proof.
  revert fuel. induction msgs as [|[i a] msgs IH]; intros fuel Hf.
  - apply parse_nil.
  - destruct fuel as [|fuel]; [cbn [length] in Hf; lia|].
    cbn [map concat fst snd]. rewrite parse_frame.
    rewrite IH by (cbn [length] in Hf; lia). reflexivity.
Qed.

Lemma frames_length (msgs : list (Z * list Z)) :
  (length msgs ≤ length (concat (map (λ m, FrameBuffer.frame m.1 m.2) msgs)))%nat.
Proof.
  induction msgs as [|[i a] msgs IH]; [reflexivity|].
  cbn [map concat fst snd]. rewrite length_app.
  assert (Hl : length (FrameBuffer.frame i a) = S (S (S (length a))))
    by reflexivity.
  rewrite Hl. cbn [length]. lia.
Qed.

(** X29: a buffer with no bytes pending that is given the frames of any
    sequence of messages in one piece takes all of them off, in order, and
    is left with no bytes: a message without argument bytes comes out with
    the argument [None], with one byte as that byte, with more as the list
    of bytes. *)
Theorem framed_messages_round_trip (b : FrameBuffer.t)
    (msgs : list (Z * list Z)) :
  FrameBuffer.data b = [] →
  FrameBuffer.extend b (concat (map (λ m, FrameBuffer.frame m.1 m.2) msgs))
  = (FrameBuffer.mk []
       (FrameBuffer.messages b
        ++ map (λ m, FrameBuffer.mk_raw m.1 (FrameBuffer.arg_of m.2)) msgs),
     false).
Proof.
  intros Hd. unfold FrameBuffer.extend. rewrite Hd. cbn [app].
  rewrite parse_frames by apply frames_length. reflexivity.
Qed.

Lemma framed_messages_round_trip_witness :
  FrameBuffer.extend FrameBuffer.init
    (concat (map (λ m, FrameBuffer.frame m.1 m.2)
                 [(0x11, [0x31]); (0x02, [0x53; 0; 0]); (0xFF, [])]))
  = (FrameBuffer.mk []
       (FrameBuffer.messages FrameBuffer.init
        ++ map (λ m, FrameBuffer.mk_raw m.1 (FrameBuffer.arg_of m.2))
               [(0x11, [0x31]); (0x02, [0x53; 0; 0]); (0xFF, [])]),
     false).
Proof.
  apply (framed_messages_round_trip FrameBuffer.init
           [(0x11, [0x31]); (0x02, [0x53; 0; 0]); (0xFF, [])]).
  reflexivity.
Defined.

Lemma parse_fuel (f1 f2 : nat) (data : list Z) :
  Forall (λ b, 0 ≤ b < 256) data →
  (length data ≤ f1)%nat → (length data ≤ f2)%nat →
  FrameBuffer.parse f1 data = FrameBuffer.parse f2 data.
Proof.
  revert f2 data. induction f1 as [|f1 IH]; intros f2 data Hb H1 H2.
  - destruct data; [|cbn [length] in H1; lia]. rewrite !parse_nil. reflexivity.
  - destruct f2 as [|f2].
    { destruct data; [|cbn [length] in H2; lia]. rewrite !parse_nil. reflexivity. }
    destruct data as [|d0 [|d1 rest]]; [reflexivity|reflexivity|].
    cbn [FrameBuffer.parse].
    destruct (_ <=? _); [|reflexivity].
    destruct rest as [|msg_id after_id]; [reflexivity|].
    assert (Hd0 : 0 ≤ d0 < 256) by (inversion Hb; assumption).
    assert (Hd1 : 0 ≤ d1 < 256).
    { inversion Hb as [|? ? _ Hb']. inversion Hb'. assumption. }
    set (k := Z.to_nat (d0 + 256 * d1 + 2)).
    assert (Hk : (2 ≤ k)%nat) by (subst k; lia).
    rewrite (IH f2 (drop k (d0 :: d1 :: msg_id :: after_id))).
    + reflexivity.
    + apply Forall_drop, Hb.
    + rewrite length_drop. cbn [length] in *. lia.
    + rewrite length_drop. cbn [length] in *. lia.
Qed.

Lemma parse_S (fuel : nat) (data : list Z) :
  FrameBuffer.parse (S fuel) data
  = match data with
    | d0 :: d1 :: rest =>
        let msg_len := d0 + 256 * d1 in
        if msg_len + 2 <=? Z.of_nat (length data) then
          match rest with
          | [] => ([], data, true)
          | msg_id :: after_id =>
              let '(msgs, remaining, raised) :=
                FrameBuffer.parse fuel (drop (Z.to_nat (msg_len + 2)) data) in
              (FrameBuffer.mk_raw msg_id (FrameBuffer.frame_arg msg_len after_id)
                 :: msgs,
               remaining, raised)
          end
        else ([], data, false)
    | _ => ([], data, false)
    end.
Proof. reflexivity. Qed.

Lemma frame_arg_app (msg_len : Z) (after_id extra : list Z) :
  msg_len - 1 ≤ Z.of_nat (length after_id) →
  FrameBuffer.frame_arg msg_len (after_id ++ extra)
  = FrameBuffer.frame_arg msg_len after_id.
Proof.
  intros Hlen. unfold FrameBuffer.frame_arg.
  destruct (Z.eqb_spec msg_len 1); [reflexivity|].
  destruct (Z.eqb_spec msg_len 2) as [->|_].
  - destruct after_id; [cbn [length] in Hlen; lia|reflexivity].
  - rewrite take_app_le by lia. reflexivity.
Qed.

(** When a call of [extend] has stopped without an exception, what it
    took off and what it kept is what a longer buffer starts with. *)
Lemma parse_app (fuel : nat) (data extra : list Z) (msgs : list FrameBuffer.raw_msg)
    (remaining : list Z) :
  Forall (λ b, 0 ≤ b < 256) data →
  Forall (λ b, 0 ≤ b < 256) extra →
  (length data ≤ fuel)%nat →
  FrameBuffer.parse fuel data = (msgs, remaining, false) →
  FrameBuffer.parse (length (data ++ extra)) (data ++ extra)
  = let '(msgs', remaining', raised) :=
      FrameBuffer.parse (length (remaining ++ extra)) (remaining ++ extra) in
    (msgs ++ msgs', remaining', raised).
Proof.
  revert data msgs. induction fuel as [|fuel IH];
    intros data msgs Hb He Hf Hp.
  - destruct data; [|cbn [length] in Hf; lia].
    rewrite parse_nil in Hp. injection Hp as <- <-.
    cbn [app]. destruct (FrameBuffer.parse (length extra) extra) as [[m r] x].
    reflexivity.
  - assert (Hstop : ∀ d, FrameBuffer.parse (length (d ++ extra)) (d ++ extra)
              = let '(msgs', remaining', raised) :=
                  FrameBuffer.parse (length (d ++ extra)) (d ++ extra) in
                ([] ++ msgs', remaining', raised)).
    { intros d.
      destruct (FrameBuffer.parse (length (d ++ extra)) (d ++ extra))
        as [[m r] x].
      reflexivity. }
    destruct data as [|d0 [|d1 rest]].
    + cbn [FrameBuffer.parse] in Hp. injection Hp as <- <-. apply Hstop.
    + cbn [FrameBuffer.parse] in Hp. injection Hp as <- <-. apply Hstop.
    + cbn [FrameBuffer.parse] in Hp.
      assert (Hd0 : 0 ≤ d0 < 256) by (inversion Hb; assumption).
      assert (Hd1 : 0 ≤ d1 < 256).
      { inversion Hb as [|? ? _ Hb']. inversion Hb'. assumption. }
      destruct (Z.leb_spec (d0 + 256 * d1 + 2)
                  (Z.of_nat (length (d0 :: d1 :: rest)))) as [Hfull|Hpart].
      2:{ injection Hp as <- <-. apply Hstop. }
      destruct rest as [|msg_id after_id]; [discriminate Hp|].
      set (k := Z.to_nat (d0 + 256 * d1 + 2)) in *.
      assert (Hk : (2 ≤ k ≤ length (d0 :: d1 :: msg_id :: after_id))%nat)
        by (subst k; lia).
      destruct (FrameBuffer.parse fuel (drop k (d0 :: d1 :: msg_id :: after_id)))
        as [[m1 r1] x1] eqn:Hrec.
      injection Hp as <- <- ->.
      assert (Hb' : Forall (λ b, 0 ≤ b < 256)
                      (drop k (d0 :: d1 :: msg_id :: after_id)))
        by apply Forall_drop, Hb.
      assert (Hf' : (length (drop k (d0 :: d1 :: msg_id :: after_id)) ≤ fuel)%nat).
      { rewrite length_drop. cbn [length] in *. lia. }
      specialize (IH _ _ Hb' He Hf' Hrec).
      cbn [app length]. rewrite parse_S. cbv zeta. cbn [length].
      destruct (Z.leb_spec (d0 + 256 * d1 + 2)
                  (Z.of_nat (S (S (S (length (after_id ++ extra)))))))
        as [_|Hlt].
      2:{ rewrite length_app in Hlt. cbn [length] in Hfull. lia. }
      fold k.
      change (d0 :: d1 :: msg_id :: after_id ++ extra)
        with ((d0 :: d1 :: msg_id :: after_id) ++ extra).
      rewrite drop_app_le by lia.
      rewrite (parse_fuel _ (length (drop k (d0 :: d1 :: msg_id :: after_id) ++ extra))
                 (drop k (d0 :: d1 :: msg_id :: after_id) ++ extra)).
      * rewrite IH. rewrite frame_arg_app by (cbn [length] in Hfull; lia).
        destruct (FrameBuffer.parse _ (r1 ++ extra)) as [[m2 r2] x2].
        reflexivity.
      * apply Forall_app. split; assumption.
      * rewrite !length_app, length_drop. cbn [length] in *. lia.
      * reflexivity.
Qed.

(** X30: how the bytes are cut into pieces does not matter: when a call
    of [extend] returns without raising, the next call leaves the buffer
    and the messages, and ends, as one call with both pieces would have. *)
Theorem extend_in_pieces (b : FrameBuffer.t) (x y : list Z) :
  Forall (λ v, 0 ≤ v < 256) (FrameBuffer.data b) →
  Forall (λ v, 0 ≤ v < 256) x →
  Forall (λ v, 0 ≤ v < 256) y →
  (FrameBuffer.extend b x).2 = false →
  FrameBuffer.extend (FrameBuffer.extend b x).1 y
  = FrameBuffer.extend b (x ++ y).
Proof.
  intros Hd Hx Hy Hok. unfold FrameBuffer.extend in *.
  destruct (FrameBuffer.parse (length (FrameBuffer.data b ++ x))
                              (FrameBuffer.data b ++ x))
    as [[m1 r1] x1] eqn:Hp.
  cbn [fst snd] in *. subst x1. cbn [FrameBuffer.data FrameBuffer.messages].
  rewrite (app_assoc (FrameBuffer.data b) x y).
  rewrite (parse_app _ _ y _ _ (proj2 (Forall_app _ _ _) (conj Hd Hx)) Hy
             (Nat.le_refl _) Hp).
  destruct (FrameBuffer.parse _ (r1 ++ y)) as [[m2 r2] x2].
  rewrite app_assoc. reflexivity.
Qed.

Lemma extend_in_pieces_witness :
  FrameBuffer.extend
    (FrameBuffer.extend FrameBuffer.init [4; 0; 0x02; 0x53]).1 [0; 0; 1; 0; 0xFF]
  = FrameBuffer.extend FrameBuffer.init
      ([4; 0; 0x02; 0x53] ++ [0; 0; 1; 0; 0xFF]).
Proof.
  apply (extend_in_pieces FrameBuffer.init [4; 0; 0x02; 0x53]
           [0; 0; 1; 0; 0xFF]).
  - constructor.
  - repeat constructor; lia.
  - repeat constructor; lia.
  - reflexivity.
Defined.
